(** * SonarQube orchestration plugin: a shallow embedding of [util/sq.py],
      [util/api.py], [util/configlib.py] and [util/exceptions.py].

    Python values are modelled as follows.
    - [str] is [string], the bytes of the UTF-8 encoding of the text (the
      helpers of [PyStr] follow the Python methods; white space is that
      of Unicode, the digits beyond ASCII are a parameter, the
      [interpreter]; POSIX [os.path] is in [PosixPath]);
    - JSON integers are [Z], a [float] is a binary64 value of
      [SpecFloat];
    - a [dict] whose iteration order is observable is an association list
      ([odict]), any other [dict] is a [gmap];
    - a raised exception is the [Raise] constructor of [res];
    - [time()] readings, HTTP responses and the log lines of the server
      process are inputs of the loops that consume them. *)

From Stdlib Require Import ZArith Ascii String DecimalString.
From Stdlib Require Floats.SpecFloat.
From stdpp Require Import base option list strings gmap.

Open Scope Z_scope.

(* ===================================================================== *)
(** * Exceptions ([util/exceptions.py]) and fallible results              *)
(* ===================================================================== *)

Module Exn.

Inductive exn : Type :=
| ClientError (msg : string)
| ServerError (msg : string)
| AuthError (msg : string)          (* subclass of ClientError *)
| ValidationError (msg : string)    (* subclass of ClientError *)
| CompileTaskError (msg : string)
| AnalyzeTaskError (msg : string)
| ConfigError (msg : string)
| KeyError (key : string)
| FileNotFoundError (path : string)
| OtherError (what : string).

(** [isinstance(e, ClientError)]: the class and its two subclasses. *)
Definition is_ClientError (e : exn) : bool :=
  match e with
  | ClientError _ | AuthError _ | ValidationError _ => true
  | _ => false
  end.

Definition is_ValidationError (e : exn) : bool :=
  match e with ValidationError _ => true | _ => false end.

(** [__str__] of the three task errors. *)
Definition task_error_str (e : exn) : option string :=
  match e with
  | CompileTaskError m | AnalyzeTaskError m | ConfigError m =>
      Some ("Error: " +:+ m)
  | _ => None
  end.

Inductive res (A : Type) : Type :=
| Ok (a : A)
| Raise (e : exn).
Arguments Ok {A} a.
Arguments Raise {A} e.

#[global] Instance res_ret : MRet res := fun A a => Ok a.
#[global] Instance res_bind : MBind res := fun A B k m =>
  match m with
  | Ok a => k a
  | Raise e => Raise e
  end.

(** A comprehension or [for] loop whose body may raise: the first
    exception ends it. *)
Fixpoint traverse {A B} (f : A -> res B) (l : list A) : res (list B) :=
  match l with
  | [] => Ok []
  | x :: l' => y ← f x; ys ← traverse f l'; Ok (y :: ys)
  end.

End Exn.
Import Exn.

(* ===================================================================== *)
(** * Python string methods                                               *)
(* ===================================================================== *)

Module PyStr.

(** [s[n:]] *)
Fixpoint drop (n : nat) (s : string) : string :=
  match n, s with
  | O, _ => s
  | S n', String _ s' => drop n' s'
  | S _, EmptyString => EmptyString
  end.

(** [s.startswith(p)] *)
Fixpoint startswith (s p : string) {struct p} : bool :=
  match p, s with
  | EmptyString, _ => true
  | String _ _, EmptyString => false
  | String a p', String b s' => Ascii.eqb a b && startswith s' p'
  end.

(** [s.endswith(suf)] *)
Definition endswith (s suf : string) : bool :=
  (String.length suf <=? String.length s)%nat
  && String.eqb (drop (String.length s - String.length suf) s) suf.

(** [s.find(sub) != -1], also [sub in s] *)
Fixpoint contains (s sub : string) : bool :=
  startswith s sub
  || match s with
     | EmptyString => false
     | String _ s' => contains s' sub
     end.

(** [s.split(c)] for a one-character separator *)
Fixpoint split (c : ascii) (s : string) : list string :=
  match s with
  | EmptyString => [EmptyString]
  | String a s' =>
      if Ascii.eqb a c then EmptyString :: split c s'
      else match split c s' with
           | t :: ts => String a t :: ts
           | [] => [String a EmptyString]
           end
  end.

(** [s.split(c)[-1]] *)
Definition split_last (c : ascii) (s : string) : string :=
  List.last (split c s) EmptyString.

(** [s.split(c)[0]] *)
Definition split_first (c : ascii) (s : string) : string :=
  List.hd EmptyString (split c s).

(** ASCII white space, as [str.isspace] has it below code 128. *)
Definition is_space (a : ascii) : bool :=
  let n := nat_of_ascii a in
  ((9 <=? n) && (n <=? 13) || (28 <=? n) && (n <=? 32))%nat.

(** A text is kept as the bytes of its UTF-8 encoding. A byte from 128
    to 191 continues a character. *)
Definition is_cont (a : ascii) : bool :=
  let n := nat_of_ascii a in ((128 <=? n) && (n <=? 191))%nat.

(** The characters of a text: each byte that continues none, with the
    bytes that continue it. *)
Definition starts_cont (s : string) : bool :=
  match s with
  | String b _ => is_cont b
  | EmptyString => false
  end.

Fixpoint chars (s : string) : list string :=
  match s with
  | EmptyString => []
  | String a s' =>
      match chars s' with
      | c :: cs =>
          if starts_cont s' then String a c :: cs
          else String a EmptyString :: c :: cs
      | [] => [String a EmptyString]
      end
  end.

Definition unchars (cs : list string) : string :=
  foldr String.append EmptyString cs.

(** The white space of [str.isspace] beyond ASCII, in UTF-8: U+0085,
    U+00A0, U+1680, U+2000 to U+200A, U+2028, U+2029, U+202F, U+205F
    and U+3000. *)
Definition unicode_spaces : list string :=
  (fun bytes => string_of_list_ascii (ascii_of_nat <$> bytes))
    <$> ([[194; 133]; [194; 160]; [225; 154; 128]]
           ++ ((fun n => [226; 128; n]) <$> seq 128 11)
           ++ [[226; 128; 168]; [226; 128; 169]; [226; 128; 175];
               [226; 129; 159]; [227; 128; 128]])%nat.

(** [c.isspace()] for a character *)
Definition is_space_char (c : string) : bool :=
  match c with
  | String a EmptyString => is_space a
  | _ => existsb (String.eqb c) unicode_spaces
  end.

Fixpoint skip_spaces (cs : list string) : list string :=
  match cs with
  | [] => []
  | c :: cs' => if is_space_char c then skip_spaces cs' else cs
  end.

(** [s.lstrip()] *)
Definition lstrip (s : string) : string :=
  unchars (skip_spaces (chars s)).

(** [s.rstrip()] *)
Definition rstrip (s : string) : string :=
  unchars (rev (skip_spaces (rev (chars s)))).

(** [s.strip()] *)
Definition strip (s : string) : string :=
  unchars (rev (skip_spaces (rev (skip_spaces (chars s))))).

(** The maximal runs of characters that are no white space. *)
Fixpoint words (cs : list string) : list string :=
  match cs with
  | [] => []
  | c :: cs' =>
      if is_space_char c then words cs'
      else match cs' with
           | [] => [c]
           | d :: _ =>
               if is_space_char d then c :: words cs'
               else match words cs' with
                    | t :: ts => (c +:+ t) :: ts
                    | [] => [c]
                    end
           end
  end.

(** [s.split()] *)
Definition split_ws (s : string) : list string := words (chars s).

Definition is_digit (a : ascii) : bool :=
  let n := nat_of_ascii a in ((48 <=? n) && (n <=? 57))%nat.

(** What the interpreter adds to the source. Of a character that is
    not ASCII its Unicode database says whether [str.isdigit] takes it
    for a digit and which value [int] gives it: [None] for no digit,
    [Some None] for a digit that [int] refuses, as a superscript,
    [Some (Some v)] for a decimal digit of value [v]. An interpreter
    with a limit on the digits of an integer text has
    [int_max_str_digits]. *)
Record interpreter : Type := mk_interpreter {
  unicode_digit : string -> option (option Z);
  int_max_str_digits : option nat
}.

Definition digit_class (py : interpreter) (c : string)
    : option (option Z) :=
  match c with
  | String a EmptyString =>
      if (nat_of_ascii a <? 128)%nat then
        if is_digit a then Some (Some (Z.of_nat (nat_of_ascii a) - 48))
        else None
      else unicode_digit py c
  | _ => unicode_digit py c
  end.

(** [s.isdigit()] *)
Definition isdigit (py : interpreter) (s : string) : bool :=
  match chars s with
  | [] => false
  | cs => forallb (fun c => bool_decide (is_Some (digit_class py c))) cs
  end.

Fixpoint int_acc (acc : Z) (ds : list Z) : Z :=
  match ds with
  | [] => acc
  | d :: ds' => int_acc (10 * acc + d) ds'
  end.

(** [int(s)] for a text that [isdigit] accepts: the value of its
    decimal digits, and the ValueError for a text with another digit
    or with more digits than the limit. *)
Definition int (py : interpreter) (s : string) : res Z :=
  let cs := chars s in
  let too_long :=
    match int_max_str_digits py with
    | Some n => (n <? length cs)%nat
    | None => false
    end in
  if too_long then Raise (OtherError "ValueError")
  else
    match mapM (fun c => mjoin (digit_class py c)) cs with
    | Some ds => Ok (int_acc 0 ds)
    | None => Raise (OtherError "ValueError")
    end.

Definition lower_ascii (a : ascii) : ascii :=
  let n := nat_of_ascii a in
  if ((65 <=? n) && (n <=? 90))%nat then ascii_of_nat (n + 32) else a.

(** [s.lower()] *)
Fixpoint lower (s : string) : string :=
  match s with
  | EmptyString => EmptyString
  | String a s' => String (lower_ascii a) (lower s')
  end.

(** ["%d" % n] *)
Definition fmt_d (n : Z) : string := NilZero.string_of_int (Z.to_int n).

(** [sep.join(l)] *)
Fixpoint join (sep : string) (l : list string) : string :=
  match l with
  | [] => EmptyString
  | [x] => x
  | x :: l' => x +:+ sep +:+ join sep l'
  end.

Definition nonempty (s : string) : bool :=
  match s with EmptyString => false | _ => true end.

End PyStr.

(** POSIX [os.path]. *)
Module PosixPath.

Definition sep : string := "/".

(** [os.path.join(a, b)] *)
Definition join (a b : string) : string :=
  if PyStr.startswith b sep then b
  else if negb (PyStr.nonempty a) || PyStr.endswith a sep then a +:+ b
  else a +:+ sep +:+ b.

(** [os.path.basename(p)] *)
Definition basename (p : string) : string := PyStr.split_last "/" p.

End PosixPath.

(* ===================================================================== *)
(** * Transport layer ([util/api.py])                                     *)
(* ===================================================================== *)

Module Api.

(** What [requests] hands back: the status line, the [msg] fields of
    [res.json()["errors"]] and the decoded body. *)
Record http_response (B : Type) : Type := mk_response {
  status_code : Z;
  reason : string;
  errors : list string;
  body : B
}.
Arguments mk_response {B}.
Arguments status_code {B}.
Arguments reason {B}.
Arguments errors {B}.
Arguments body {B}.

Record SQAPIHandler : Type := mk_handler {
  _host : string;
  _port : Z;
  _base_path : string;
  session_auth : option (string * string)
}.

(** [SQAPIHandler.__init__] *)
Definition new_handler (host : string) (port : Z) (base_path : string)
    (user password token : option string) : SQAPIHandler :=
  let truthy o := match o with Some s => PyStr.nonempty s | None => false end in
  let get o := default EmptyString o in
  mk_handler host port base_path
    (if truthy token then Some (get token, EmptyString)
     else if truthy user && truthy password then Some (get user, get password)
     else None).

(** [SQAPIHandler._get_url] *)
Definition _get_url (h : SQAPIHandler) (endpoint : string) : string :=
  _host h +:+ ":" +:+ PyStr.fmt_d (_port h) +:+ _base_path h +:+ endpoint.

(** [SQAPIHandler._request], after the call returned [r]. *)
Definition classify {B} (r : http_response B) : res (http_response B) :=
  if status_code r <? 300 then Ok r
  else if status_code r =? 400 then
    Raise (ValidationError (PyStr.join ", " (errors r)))
  else if (status_code r =? 401) || (status_code r =? 403) then
    Raise (AuthError (reason r))
  else if status_code r <? 500 then Raise (ClientError (reason r))
  else Raise (ServerError (reason r)).

(** [SQAPIHandler._request]: [call] is what the session call did, an
    exception of [requests] or a response. *)
Definition _request {B} (call : res (http_response B))
    : res (http_response B) :=
  r ← call; classify r.

(** The endpoints that answer with [.json()]. *)
Definition json_endpoint {B} (call : res (http_response B)) : res B :=
  r ← _request call; Ok (body r).

Definition project_create {B} := @json_endpoint B.
Definition get_system_status {B} := @json_endpoint B.
Definition ce_task {B} := @json_endpoint B.
Definition duplications_show {B} := @json_endpoint B.

(** One page of [/api/issues/search]. *)
Record issues_page (I : Type) : Type := mk_page {
  p : Z;
  ps : Z;
  total : Z;
  page_issues : list I
}.
Arguments mk_page {I}.
Arguments p {I}.
Arguments ps {I}.
Arguments total {I}.
Arguments page_issues {I}.

(** [SQAPIHandler.get_issues]: the generator asks for the next page as
    long as [page_num * page_size < n_issues]; [calls] are the answers
    of the server in order. It yields the issues of the pages it read
    and may end with an exception. When [calls] runs out the generator
    is still waiting for the server, which the flag says. *)
Fixpoint get_issues_from {I} (page_num page_size n_issues : Z)
    (calls : list (res (http_response (issues_page I))))
    : list I * option exn * bool :=
  if page_num * page_size <? n_issues then
    match calls with
    | [] => ([], None, true)
    | c :: calls' =>
        match json_endpoint c with
        | Raise e => ([], Some e, false)
        | Ok pg =>
            let '(l, e, w) :=
              get_issues_from (p pg) (ps pg) (total pg) calls' in
            (page_issues pg ++ l, e, w)
        end
    end
  else ([], None, false).

Definition get_issues {I} := @get_issues_from I 1 1 2.

End Api.

(* ===================================================================== *)
(** * The orchestrator ([util/sq.py]): state and server lifecycle         *)
(* ===================================================================== *)

Module Sq.

Inductive model_t : Type := LOCAL_MODEL | COMMON_MODEL.

Definition model_eqb (a b : model_t) : bool :=
  match a, b with
  | LOCAL_MODEL, LOCAL_MODEL | COMMON_MODEL, COMMON_MODEL => true
  | _, _ => false
  end.

(** An entry of [settings]: [SQ_LOCAL_USER], [SQ_COMMON_USER]. *)
Record sq_user : Type := mk_user {
  u_url : string;
  u_port : Z;
  u_base_path : string;
  u_username : string;
  u_password : string;
  u_projectKey : string
}.

(** [settings.SQ_LOCAL_USER] *)
Definition SQ_LOCAL_USER : sq_user :=
  mk_user "http://localhost" 9000 "" "admin" "admin" "test".

(** The fields of a [SonarQube] object that the lifecycle reads or
    writes; [project_id] is [params.get("project_id")]. *)
Record SonarQube : Type := mk_sq {
  base_url : string;
  port : Z;
  base_path : string;
  user : string;
  password : string;
  projectKey : string;
  model : model_t;
  sonar_handle : Api.SQAPIHandler;
  sleep_second : Z;
  timeout : Z;
  is_local_up : bool;
  project_id : option string
}.

(** What a run does to the outside, in order. *)
Inductive event : Type :=
| EvPrint (line : string)
| EvSession (h : Api.SQAPIHandler)      (* a handler with a new session *)
| EvKillSonar (victim : option Z)       (* [_kill_sonar] ran *)
| EvCeTask (id : string)                (* a query of [/api/ce/task] *)
| EvSleep (seconds : Z).

(** [SonarQube.__init__], up to [init_env]; [windows] is
    [settings.PLATFORMS[sys.platform] == "windows"]. *)
Definition init (local : sq_user) (windows : bool)
    (project_id : option string) : SonarQube :=
  let h :=
    if PyStr.nonempty (u_password local)
    then Api.new_handler (u_url local) (u_port local) (u_base_path local)
           (Some (u_username local)) (Some (u_password local)) None
    else Api.new_handler (u_url local) (u_port local) (u_base_path local)
           None None (Some (u_username local)) in
  mk_sq (u_url local) (u_port local) (u_base_path local)
    (u_username local) (u_password local) (u_projectKey local)
    LOCAL_MODEL h 5 300 windows project_id.

(** [_use_common_sonarqube] *)
Definition _use_common_sonarqube (common : sq_user) (st : SonarQube)
    : SonarQube * list event :=
  let h := Api.new_handler (u_url common) (u_port common)
             (u_base_path common) None None (Some (u_username common)) in
  (mk_sq (u_url common) (u_port common) (u_base_path common)
     (u_username common) (u_password common)
     (u_projectKey common +:+ "_" +:+ default EmptyString (project_id st))
     COMMON_MODEL h (sleep_second st) (timeout st) true (project_id st),
   [EvSession h]).

(** The substrings of a server log line that [_start_sonarqube] takes
    for a failed start. *)
Definition fatal_signatures : list string :=
  [ "app[][o.s.a.SchedulerImpl] SonarQube is stopped";
    "错误: 找不到或无法加载主类 org.sonar.application.App";
    "sudo: pam_open_session: Permission denied";
    "sudo: pam_open_session：拒绝权限";
    "java.lang.IllegalStateException: SonarQube requires Java 11 to run";
    "sudo: sorry, you must have a tty to run sudo";
    "sudo：抱歉，您必须拥有一个终端来执行 sudo";
    "org.elasticsearch.cluster.block.ClusterBlockException: blocked by: [FORBIDDEN/12/index read-only / allow delete (api)];";
    "sudoers.so must be only be writable by owner";
    "fatal error, unable to load plugins" ].

Definition is_fatal_line (line : string) : bool :=
  existsb (PyStr.contains line) fatal_signatures.

(** [_start_sonarqube]: the callback on each line the local server
    writes; [common] is [settings.SQ_COMMON_USER]. *)
Definition _start_sonarqube (common : option sq_user) (st : SonarQube)
    (line : string) : SonarQube * list event :=
  let pr := EvPrint ("SQServer: " +:+ line) in
  if is_fatal_line line then
    match common with
    | Some cu =>
        let '(st', evs) := _use_common_sonarqube cu st in
        (st', pr :: EvPrint "[warning] Change to common..." :: evs)
    | None => (st, [pr])
    end
  else if PyStr.contains line "SonarQube is up" then
    (mk_sq (base_url st) (port st) (base_path st) (user st) (password st)
       (projectKey st) (model st) (sonar_handle st) (sleep_second st)
       (timeout st) true (project_id st),
     [pr; EvPrint "[warning] Linking Server."])
  else (st, [pr]).

(** The reader thread hands the lines over one by one. *)
Fixpoint feed_lines (common : option sq_user) (st : SonarQube)
    (lines : list string) : SonarQube * list event :=
  match lines with
  | [] => (st, [])
  | l :: ls =>
      let '(st1, e1) := _start_sonarqube common st l in
      let '(st2, e2) := feed_lines common st1 ls in
      (st2, e1 ++ e2)
  end.

(** A row of the process table, as [psutil] shows it; [name()] and
    [cmdline()] may raise (the process is gone, access is denied). *)
Record proc : Type := mk_proc {
  pid : Z;
  pname : res string;
  pcmdline : res (list string)
}.

Definition is_sonar_proc (pr : proc) : bool :=
  match pname pr with
  | Raise _ => false
  | Ok n =>
      if PyStr.startswith (PyStr.lower n) "java" then
        match pcmdline pr with
        | Raise _ => false
        | Ok c => PyStr.contains (PyStr.join " " c) "lib/sonar-application"
        end
      else false
  end.

(** [_kill_sonar]: the first matching process is killed with its
    children, and the search stops. *)
Definition _kill_sonar (procs : list proc) : list event :=
  [EvKillSonar (pid <$> List.find is_sonar_proc procs)].

(** [_raise_error]: what it does before it raises, and what it raises. *)
Definition _raise_error (st : SonarQube) (procs : list proc)
    (msg : string) (err_type : option string) : list event * exn :=
  let evs :=
    if model_eqb (model st) LOCAL_MODEL then _kill_sonar procs else [] in
  (evs,
   match err_type with
   | Some "compile" => CompileTaskError msg
   | Some "config" => ConfigError msg
   | _ => AnalyzeTaskError msg
   end).

(** The start of [scan_proj]: the shared server when [SQ_TYPE] asks for
    it and one is configured, a local one otherwise, whose log lines
    then reach [_start_sonarqube]. *)
Definition choose_server (common : option sq_user) (sq_type : option string)
    (procs : list proc) (st : SonarQube) : SonarQube * list event :=
  match sq_type, common with
  | Some "COMMON", Some cu =>
      let '(st', evs) := _use_common_sonarqube cu st in
      (st', EvPrint "[warning] Link common..." :: evs)
  | _, _ => (st, _kill_sonar procs)   (* [_start_local_sonarqube] *)
  end.

(* ------------------------------------------------------------------- *)
(** ** The three wait loops                                             *)
(* ------------------------------------------------------------------- *)

(** A wait loop sleeps, asks the server and reads the clock, again and
    again. Each pass consumes one observation of the outside; when the
    observations run out the loop is still [Polling]. [polls] counts the
    passes made, [log] is what the loop did. *)
Inductive wait_result (A : Type) : Type :=
| Finished (a : A) (polls : nat) (log : list event)
| Failed (e : exn) (polls : nat) (log : list event)
| Polling (polls : nat) (log : list event).
Arguments Finished {A}.
Arguments Failed {A}.
Arguments Polling {A}.

Definition msg_wait_server : string :=
  "等待Sq工具启动超时，请查看log排查原因".
Definition msg_wait_task : string :=
  "判断任务执行是否执行完成操作超时，请查看log排查原因".
Definition msg_wait_project : string :=
  "等待SQ项目创建超时，请查看log排查原因".
Definition msg_retry_project : string :=
  "SQ项目创建重试超出限制次数5次，项目创建失败，请查看log排查原因".
Definition msg_restart : string :=
  "SonarQube Server异常，需要重启SonarQube Server。".
Definition msg_heap : string :=
  "SonarQube Server异常, Server Java堆溢出异常。".
Definition msg_index : string :=
  "SonarQube Server异常, 达到文件系统已用空间的85％，90％或95％的elasticsearch操作可能导致索引失败，请检查清理机器存储空间或者重启SonarQube Server。".
Definition msg_unclassified : string :=
  "SonarQube Server异常, 请查看log排查。".

(** One pass of [_wait_until_sonarqube_on]: the lines the local server
    wrote meanwhile (its reader thread runs [_start_sonarqube] on
    them), the answer of [/api/system/status] with the [status] entry
    of its body, and the reading of [time()] at the deadline test. *)
Record status_obs : Type := mk_status_obs {
  so_lines : list string;
  so_call : res (Api.http_response (option string));
  so_now : Z
}.

(** [status == "UP"], [False] on any exception. *)
Definition poll_is_up (call : res (Api.http_response (option string)))
    : bool :=
  match Api.get_system_status call with
  | Ok status => String.eqb (default "DOWN" status) "UP"
  | Raise _ => false
  end.

Fixpoint wait_on_loop (common : option sq_user) (procs : list proc)
    (deadline : Z) (st : SonarQube) (polls : nat) (log : list event)
    (obs : list status_obs) : wait_result SonarQube :=
  match obs with
  | [] => Polling polls log
  | o :: obs' =>
      let '(st1, evs) := feed_lines common st (so_lines o) in
      let log1 := log ++ EvSleep (sleep_second st) :: evs in
      let is_server_up := poll_is_up (so_call o) in
      if deadline <? so_now o then
        let '(kill, e) :=
          _raise_error st1 procs msg_wait_server (Some "analyze") in
        Failed e (S polls) (log1 ++ kill)
      else if negb is_server_up || negb (is_local_up st1) then
        wait_on_loop common procs deadline st1 (S polls) log1 obs'
      else Finished st1 (S polls) log1
  end.

(** [_wait_until_sonarqube_on]; [t0] is [time()] at entry. *)
Definition _wait_until_sonarqube_on (common : option sq_user)
    (procs : list proc) (t0 : Z) (st : SonarQube) (obs : list status_obs)
    : wait_result SonarQube :=
  wait_on_loop common procs (t0 + timeout st) st 0 [] obs.

(** The [task] entry of the body of [/api/ce/task]. *)
Record task : Type := mk_task {
  t_status : string;
  t_errorMessage : option string
}.

(** One pass of [_wait_until_task_succeed]: the server's answer to a
    query for a task id, and the clock at the deadline test. *)
Record task_obs : Type := mk_task_obs {
  to_call : string -> res (Api.http_response task);
  to_now : Z
}.

(** [f.readlines()[4].strip().split("=")[-1]] *)
Definition read_task_id (lines : list string) : res string :=
  match lines !! 4%nat with
  | Some l => Ok (PyStr.split_last "=" (PyStr.strip l))
  | None => Raise (OtherError "IndexError")
  end.

(** [".*" ++ suf] matches at the start of [s]; [.] is any character
    but a line feed. *)
Fixpoint dotstar_then (suf s : string) : bool :=
  PyStr.startswith s suf
  || match s with
     | EmptyString => false
     | String a s' =>
         if Ascii.eqb a "010" then false else dotstar_then suf s'
     end.

(** [re.match("load called twice for thread '.*' or state wasn't
    cleared last time it was used", msg, re.I)] *)
Definition matches_load_twice (msg : string) : bool :=
  let pre := "load called twice for thread '" in
  let suf := "' or state wasn't cleared last time it was used" in
  let m := PyStr.lower msg in
  PyStr.startswith m pre
  && dotstar_then suf (PyStr.drop (String.length pre) m).

(** The message for a [FAILED] task, by its [errorMessage]. *)
Definition failed_task_msg (errorMessage : string) : string :=
  if matches_load_twice errorMessage then msg_restart
  else if String.eqb "Java heap space" errorMessage then msg_heap
  else if String.eqb
            "Unrecoverable indexation failures: 1 errors among 1 requests"
            errorMessage then msg_index
  else msg_unclassified.

Fixpoint wait_task_loop (st : SonarQube) (procs : list proc)
    (deadline : Z) (id : string) (polls : nat) (log : list event)
    (obs : list task_obs) : wait_result unit :=
  match obs with
  | [] => Polling polls log
  | o :: obs' =>
      let log1 := log ++ [EvSleep (sleep_second st); EvCeTask id] in
      let r := Api.ce_task (to_call o id) in
      let is_success :=
        match r with
        | Ok t => String.eqb (t_status t) "SUCCESS"
        | Raise _ => false
        end in
      let failed :=
        match r with
        | Ok t => if String.eqb (t_status t) "FAILED" then Some t else None
        | Raise _ => None
        end in
      match failed with
      | Some t =>
          match t_errorMessage t with
          | None => Failed (KeyError "errorMessage") (S polls) log1
          | Some m =>
              let '(kill, e) :=
                _raise_error st procs (failed_task_msg m) (Some "analyze") in
              Failed e (S polls) (log1 ++ kill)
          end
      | None =>
          if deadline <? to_now o then
            let '(kill, e) :=
              _raise_error st procs msg_wait_task (Some "analyze") in
            Failed e (S polls) (log1 ++ kill)
          else if is_success then Finished tt (S polls) log1
          else wait_task_loop st procs deadline id (S polls) log1 obs'
      end
  end.

(** [_wait_until_task_succeed]. [sonar_report] is the path handed in
    and [content] the lines of that file, [None] when the path does not
    exist; [t0] is [time()] after the file was read. *)
Definition _wait_until_task_succeed (st : SonarQube) (procs : list proc)
    (sonar_report : option string) (content : option (list string))
    (t0 : Z) (obs : list task_obs) : wait_result unit :=
  let missing :=
    match sonar_report, content with
    | Some path, Some _ => negb (PyStr.nonempty path)
    | _, _ => true
    end in
  if missing then
    let '(kill, e) :=
      _raise_error st procs
        ("结果文件(" +:+ default "None" sonar_report
           +:+ ")不存在，分析失败，请查看log排查失败原因")
        (Some "analyze") in
    Failed e 0 kill
  else
    match read_task_id (default [] content) with
    | Raise e => Failed e 0 []
    | Ok id =>
        wait_task_loop st procs (t0 + timeout st) id 0
          [EvPrint ("[warning] Task ID is " +:+ id)] obs
    end.

(** One pass of [_wait_until_project_create]: the server's answer to
    the creation of a project key, and the clock at the deadline test. *)
Record create_obs (B : Type) : Type := mk_create_obs {
  co_call : string -> res (Api.http_response B);
  co_now : Z
}.
Arguments mk_create_obs {B}.
Arguments co_call {B}.
Arguments co_now {B}.

Definition retry_times : Z := 5.

Fixpoint wait_create_loop {B} (st : SonarQube) (procs : list proc)
    (deadline : Z) (cnt : Z) (polls : nat) (log : list event)
    (obs : list (create_obs B)) : wait_result unit :=
  match obs with
  | [] => Polling polls log
  | o :: obs' =>
      let cnt1 := cnt + 1 in
      let after (is_project_created : bool) (log1 : list event) :=
        if cnt1 >? retry_times then
          let '(kill, e) :=
            _raise_error st procs msg_retry_project (Some "analyze") in
          Failed e (S polls) (log1 ++ kill)
        else if deadline <? co_now o then
          let '(kill, e) :=
            _raise_error st procs msg_wait_project (Some "analyze") in
          Failed e (S polls) (log1 ++ kill)
        else if is_project_created then Finished tt (S polls) log1
        else wait_create_loop st procs deadline cnt1 (S polls) log1 obs' in
      match Api.project_create (co_call o (projectKey st)) with
      | Ok _ => after true log
      | Raise e =>
          if is_ValidationError e then after true log
          else if is_ClientError e then
            after false (log ++ [EvSleep (sleep_second st)])
          else Failed e (S polls) log
      end
  end.

(** [_wait_until_project_create]; [t0] is [time()] at entry. *)
Definition _wait_until_project_create {B} (st : SonarQube)
    (procs : list proc) (t0 : Z) (obs : list (create_obs B))
    : wait_result unit :=
  wait_create_loop st procs (t0 + timeout st) 0 0 [] obs.

(* ------------------------------------------------------------------- *)
(** ** Issue extraction ([scan_proj])                                   *)
(* ------------------------------------------------------------------- *)

Record text_range : Type := mk_range { startLine : Z; startOffset : Z }.

Record location : Type := mk_location {
  loc_textRange : option text_range;
  loc_msg : option string;
  loc_component : string
}.

(** A raw issue of [/api/issues/search]; [flows] and the [locations] of
    a flow are read with [.get(.., [])], an absent one is empty. *)
Record issue : Type := mk_issue {
  i_rule : string;
  i_component : string;
  i_message : string;
  i_textRange : option text_range;
  i_flows : list (list location)
}.

Record block : Type := mk_block { b_from : Z; b_size : Z; b_ref : string }.

(** The body of [/api/duplications/show]: the duplications, each a list
    of blocks, and the [name] of each file by its reference. *)
Record dupl_show : Type := mk_dupl_show {
  duplications : list (list block);
  files : gmap string string
}.

Record reference : Type := mk_reference {
  r_line : Z;
  r_column : Z;
  r_msg : string;
  r_tag : option string;
  r_path : string
}.

Record finding : Type := mk_finding {
  f_path : string;
  f_rule : string;
  f_msg : string;
  f_line : Z;
  f_column : Z;
  f_refs : list reference
}.

(** [x in l] on a list of strings *)
Definition mem (x : string) (l : list string) : bool :=
  existsb (String.eqb x) l.

(** [build_cwd] as [scan_proj] computes it from the environment. *)
Definition build_cwd_of (source_dir : string) (BUILD_CWD : option string)
    : string :=
  match BUILD_CWD with
  | Some b =>
      if PyStr.nonempty b then PosixPath.join source_dir b else source_dir
  | None => source_dir
  end.

(** [os.path.join(build_cwd, component.split(":")[-1])[pos:]] with
    [pos = len(source_dir) + 1] *)
Definition issue_path (source_dir build_cwd component : string) : string :=
  PyStr.drop (String.length source_dir + 1)
    (PosixPath.join build_cwd (PyStr.split_last ":" component)).

Definition block_msg (b : block) : string :=
  "重复块(" +:+ PyStr.fmt_d (b_from b) +:+ "行-"
    +:+ PyStr.fmt_d (b_from b + b_size b - 1) +:+ "行)".

Definition block_ref (d : dupl_show) (b : block) : res reference :=
  match files d !! b_ref b with
  | Some name => Ok (mk_reference (b_from b) 0 (block_msg b) None name)
  | None => Raise (KeyError (b_ref b))
  end.

Definition location_ref (l : location) : res reference :=
  match loc_textRange l with
  | Some tr =>
      Ok (mk_reference (startLine tr) (startOffset tr)
            (default "" (loc_msg l)) None
            (PyStr.split_last ":" (loc_component l)))
  | None => Raise (KeyError "textRange")
  end.

(** What the extractor reads besides the issues: the environment, the
    request, and the server's answers to [duplications_show]. *)
Record extract_env : Type := mk_extract_env {
  SOURCE_DIR : string;
  BUILD_CWD : option string;
  rules : list string;
  is_quality : bool;
  dupl_call : string -> res (Api.http_response dupl_show)
}.

(** The body of the loop over the issues, for one issue that passed
    the rule filter. *)
Definition findings_of_issue (env : extract_env) (i : issue)
    : res (list finding) :=
  let path :=
    issue_path (SOURCE_DIR env)
      (build_cwd_of (SOURCE_DIR env) (BUILD_CWD env)) (i_component i) in
  let line := default 0 (startLine <$> i_textRange i) in
  let column := default 0 (startOffset <$> i_textRange i) in
  let mk := mk_finding path (i_rule i) (i_message i) line column in
  if PyStr.endswith (i_rule i) "DuplicatedBlocks" then
    d ← Api.duplications_show (dupl_call env (i_component i));
    traverse (fun dupl => refs ← traverse (block_ref d) dupl; Ok (mk refs))
      (duplications d)
  else
    refs ← traverse location_ref (concat (i_flows i));
    Ok [mk refs].

Definition skipped (env : extract_env) (i : issue) : bool :=
  negb (is_quality env)
  && match rules env with [] => false | _ => true end
  && negb (mem (i_rule i) (rules env)).

(** The loop over the issues the generator yields. A [ValidationError]
    leaves the loop with the findings made so far, any other exception
    leaves [scan_proj]. *)
Fixpoint extract_loop (env : extract_env) (acc : list finding)
    (stream : list issue) (stream_end : option exn) : res (list finding) :=
  match stream with
  | [] =>
      match stream_end with
      | None => Ok acc
      | Some e => if is_ValidationError e then Ok acc else Raise e
      end
  | i :: stream' =>
      if skipped env i then extract_loop env acc stream' stream_end
      else match findings_of_issue env i with
           | Ok fs => extract_loop env (acc ++ fs) stream' stream_end
           | Raise e => if is_ValidationError e then Ok acc else Raise e
           end
  end.

(** The extractor on the answers of [/api/issues/search]; [None] while
    the generator waits for a page. *)
Definition extract_issues (env : extract_env)
    (calls : list (res (Api.http_response (Api.issues_page issue))))
    : option (res (list finding)) :=
  let '(stream, stream_end, waiting) := Api.get_issues calls in
  if waiting then None else Some (extract_loop env [] stream stream_end).

(* ------------------------------------------------------------------- *)
(** ** The cognitive-complexity summary ([scan_proj])                   *)
(* ------------------------------------------------------------------- *)





(** [[token for token in msg.split() if token.isdigit()]] *)
Definition digit_tokens (py : PyStr.interpreter) (msg : string)
    : list string :=
  List.filter (PyStr.isdigit py) (PyStr.split_ws msg).



(* ------------------------------------------------------------------- *)
(** ** Quality profiles ([_set_qualityprofiles])                        *)
(* ------------------------------------------------------------------- *)

Record parameter : Type := mk_parameter { p_key : string; p_value : string }.

(** A [rule] element of a profile document. *)
Record rule_elem : Type := mk_rule {
  repositoryKey : string;
  r_key : string;
  parameters : list parameter
}.

(** A profile document: the texts of the first two children of the
    root, which [_get_profile_info] reads as name and language, and the
    children of [rules]. *)
Record profile_doc : Type := mk_doc {
  pd_name : string;
  pd_language : string;
  pd_rules : list rule_elem
}.

(** An entry of [params["rule_list"]]. *)
Record rule_info : Type := mk_rule_info {
  ri_name : string;
  ri_params : option string
}.

Definition COMMON_SONAR_LANGS : list string :=
  [ "cs"; "java"; "jsp"; "vbnet"; "css"; "flex"; "go"; "js"; "kotlin";
    "php"; "py"; "ruby"; "scala"; "ts"; "web"; "xml" ].

Definition profile_suffix : string := PyStr.lower "_SonarQube_Profile.xml".

Definition nl : string := String "010" EmptyString.

(** ["%s:%s" % (repositoryKey, key)] *)
Definition real_name (r : rule_elem) : string :=
  repositoryKey r +:+ ":" +:+ r_key r.

(** A [dict] that is iterated: keys in the order of their first
    insertion. *)
Definition odict : Type := list (string * string).

Fixpoint odict_set (k v : string) (d : odict) : odict :=
  match d with
  | [] => [(k, v)]
  | (k', v') :: d' =>
      if String.eqb k' k then (k, v) :: d' else (k', v') :: odict_set k v d'
  end.

(** [get_dir_files]: of the files [os.walk] lists, those whose lowered
    name ends with the suffix, each once. *)
Definition get_dir_files (walk : list string) (want_suffix : string)
    : list string :=
  remove_dups
    (List.filter
       (fun f => PyStr.endswith (PyStr.lower (PosixPath.basename f))
                   want_suffix)
       walk).

Section WithConfigParser.

(** [configparser.ConfigParser(interpolation=None)] with
    [optionxform = str], after [read_string(cfg_string)]: the
    [items] of a section, or the exception of either call. *)
Variable configparser_items :
  string -> string -> res (list (string * string)).

(** [ConfigReader(cfg_string=s).read(section_name)] *)
Definition ConfigReader_read (cfg_string section_name : string)
    : res (gmap string string) :=
  items ← configparser_items cfg_string section_name;
  Ok (foldl (fun d kv => <[kv.1 := kv.2]> d) ∅ items).

(** The loop over the [parameter] elements of a rule. *)
Definition override_parameters (rule_params_dict : gmap string string)
    (ps : list parameter) : list parameter :=
  List.map
    (fun pa =>
       match rule_params_dict !! p_key pa with
       | Some v => mk_parameter (p_key pa) v
       | None => pa
       end)
    ps.

(** [rule_param] for a rule name: the [params] of the first entry of
    [rule_list] with that name. *)
Definition find_rule_param (rule_list : list rule_info) (name : string)
    : option string :=
  ri ← List.find (fun ri => String.eqb (ri_name ri) name) rule_list;
  ri_params ri.

(** The body of the loop over the rules of a document: [None] for a
    rule that goes to [removed_rules]. *)
Definition process_rule (rules : list string)
    (rule_list : list rule_info) (r : rule_elem)
    : res (option rule_elem) :=
  if negb (mem (real_name r) rules) then Ok None
  else
    match find_rule_param rule_list (real_name r) with
    | None => Ok (Some r)
    | Some rule_param =>
        if negb (PyStr.nonempty rule_param) then Ok (Some r)
        else
          let rule_param :=
            if PyStr.contains rule_param "[sq]" then rule_param
            else "[sq]" +:+ nl +:+ rule_param in
          d ← ConfigReader_read rule_param "sq";
          if decide (d = ∅) then Ok (Some r)
          else Ok (Some (mk_rule (repositoryKey r) (r_key r)
                           (override_parameters d (parameters r))))
    end.

(** What [tree.write] stores for a document. *)
Definition process_doc (rules : list string)
    (rule_list : list rule_info) (doc : profile_doc) : res profile_doc :=
  rs ← traverse (process_rule rules rule_list) (pd_rules doc);
  Ok (mk_doc (pd_name doc) (pd_language doc) (omap id rs)).

(** The profile documents on disk, by path. *)
Definition read_doc (fs : gmap string profile_doc) (path : string)
    : res profile_doc :=
  match fs !! path with
  | Some d => Ok d
  | None => Raise (FileNotFoundError path)
  end.

(** The loop over the default profiles. *)
Fixpoint add_defaults (profiles_path : string) (defaults : list string)
    (paths : odict) (fs : gmap string profile_doc)
    : res (odict * gmap string profile_doc) :=
  match defaults with
  | [] => Ok (paths, fs)
  | profile :: rest =>
      let profile_name := PosixPath.basename profile in
      let lang := PyStr.lower (PyStr.split_first "_" profile_name) in
      if negb (mem lang COMMON_SONAR_LANGS) then
        add_defaults profiles_path rest paths fs
      else
        let profile_path := PosixPath.join profiles_path profile_name in
        d ← read_doc fs profile;
        add_defaults profiles_path rest
          (odict_set lang profile_path paths) (<[profile_path := d]> fs)
  end.

(** The loop over the profiles of [SONAR_QUALITYPROFILE_TYPE]. *)
Fixpoint add_typed (profiles_path : string) (langs : list string)
    (typed : list string) (paths : odict) (fs : gmap string profile_doc)
    : res (odict * gmap string profile_doc) :=
  match typed with
  | [] => Ok (paths, fs)
  | path :: rest =>
      d ← read_doc fs path;
      if negb (mem (pd_language d) langs) then
        add_typed profiles_path langs rest paths fs
      else
        let profile_path :=
          PosixPath.join profiles_path (PosixPath.basename path) in
        add_typed profiles_path langs rest
          (odict_set (pd_language d) profile_path paths)
          (<[profile_path := d]> fs)
  end.

(** The loop over the files of [SONAR_QUALITYPROFILE]; a missing one
    goes to [_raise_error]. *)
Fixpoint add_user (st : SonarQube) (procs : list proc)
    (source_dir : string) (langs : list string) (user_paths : list string)
    (paths : odict) (fs : gmap string profile_doc)
    : list event * res odict :=
  match user_paths with
  | [] => ([], Ok paths)
  | path :: rest =>
      let profile_path := PosixPath.join source_dir path in
      match fs !! profile_path with
      | None =>
          let '(kill, e) :=
            _raise_error st procs
              ("自主设置的配置文件(" +:+ path
                 +:+ ")不存在, 请自查，填写正确的配置文件路径。")
              (Some "config") in
          (kill, Raise e)
      | Some d =>
          if negb (mem (pd_language d) langs) then
            add_user st procs source_dir langs rest paths fs
          else
            add_user st procs source_dir langs rest
              (odict_set (pd_language d) profile_path paths) fs
      end
  end.

(** The loop that filters the kept documents in place: only a path
    that ends with [_SonarQube_Profile.xml] is touched. *)
Fixpoint filter_profiles (rules : list string)
    (rule_list : list rule_info) (paths : odict)
    (fs : gmap string profile_doc) : res (gmap string profile_doc) :=
  match paths with
  | [] => Ok fs
  | (lang, profile_path) :: rest =>
      if negb (PyStr.endswith (PyStr.lower profile_path) profile_suffix)
      then filter_profiles rules rule_list rest fs
      else
        d ← read_doc fs profile_path;
        d' ← process_doc rules rule_list d;
        filter_profiles rules rule_list rest (<[profile_path := d']> fs)
  end.

(** What the last loop sends: the document restored, then the
    project's association with its name for its language. *)
Record published : Type := mk_published {
  pub_lang : string;
  pub_path : string;
  pub_doc : profile_doc
}.

Definition publish (paths : odict) (fs : gmap string profile_doc)
    : res (list published) :=
  traverse
    (fun '(lang, path) =>
       d ← read_doc fs path; Ok (mk_published lang path d))
    paths.

(** The request and the environment of [_set_qualityprofiles]:
    [tool_profiles] lists the files under the [profiles] directory
    of the tool. *)
Record profile_env : Type := mk_profile_env {
  pe_source_dir : string;
  pe_profiles_path : string;
  pe_rules : list string;
  pe_rule_list : list rule_info;
  pe_languages : string;
  pe_tool_profiles : list string;
  SONAR_QUALITYPROFILE_TYPE : option string;
  SONAR_QUALITYPROFILE : option string
}.

(** [_set_qualityprofiles]: the documents it publishes, in order. The
    server accepts each; an answer that [_request] refuses ends the
    run with the documents before it published. *)
Definition _set_qualityprofiles (st : SonarQube) (procs : list proc)
    (env : profile_env) (fs : gmap string profile_doc)
    : list event * res (list published) :=
  let langs := PyStr.split "," (pe_languages env) in
  let stage12 :=
    '(paths, fs1) ←
      add_defaults (pe_profiles_path env)
        (get_dir_files (pe_tool_profiles env) profile_suffix) [] fs;
    match SONAR_QUALITYPROFILE_TYPE env with
    | None => Ok (paths, fs1)
    | Some ty =>
        add_typed (pe_profiles_path env) langs
          (get_dir_files (pe_tool_profiles env)
             (PyStr.lower ("_" +:+ ty +:+ ".xml")))
          paths fs1
    end in
  match stage12 with
  | Raise e => ([], Raise e)
  | Ok (paths, fs2) =>
      let '(evs, r) :=
        match SONAR_QUALITYPROFILE env with
        | None => ([], Ok paths)
        | Some up =>
            if PyStr.nonempty up then
              add_user st procs (pe_source_dir env) langs
                (PyStr.split ";" up) paths fs2
            else ([], Ok paths)
        end in
      (evs,
       paths3 ← r;
       fs3 ← filter_profiles (pe_rules env) (pe_rule_list env) paths3 fs2;
       publish paths3 fs3)
  end.

End WithConfigParser.

End Sq.

Import Sq.

(* ===================================================================== *)
(** * The orchestrator ([util/sq.py]): environment and commands           *)
(* ===================================================================== *)

Module SqCmd.

(** The string of one double quote. *)
Definition dq : string := String "034" EmptyString.

(** [s.replace(old, new)] for an [old] that is not empty: the
    occurrences from left to right, without overlap. Each step takes at
    least one character, so the length of [s] is fuel enough. *)
Fixpoint replace_from (fuel : nat) (old new s : string) : string :=
  match fuel with
  | O => s
  | S fuel' =>
      if PyStr.nonempty old && PyStr.startswith s old then
        new +:+ replace_from fuel' old new (PyStr.drop (String.length old) s)
      else
        match s with
        | EmptyString => EmptyString
        | String a s' => String a (replace_from fuel' old new s')
        end
  end.

Definition replace (old new s : string) : string :=
  replace_from (String.length s) old new s.

Fixpoint lstrip_char (c : ascii) (s : string) : string :=
  match s with
  | EmptyString => EmptyString
  | String a s' => if Ascii.eqb a c then lstrip_char c s' else s
  end.

Fixpoint rstrip_char (c : ascii) (s : string) : string :=
  match s with
  | EmptyString => EmptyString
  | String a s' =>
      match rstrip_char c s' with
      | EmptyString =>
          if Ascii.eqb a c then EmptyString else String a EmptyString
      | r => String a r
      end
  end.

(** [s.strip(c)] for one character [c] *)
Definition strip_char (c : ascii) (s : string) : string :=
  rstrip_char c (lstrip_char c s).

(** [scan_proj], when the server has been chosen: with a local server
    [localhost] is added to the [no_proxy] of the environment when it
    is not listed there. The result is the value of the variable
    afterwards. *)
Definition set_no_proxy (st : SonarQube) (no_proxy : option string)
    : option string :=
  if model_eqb (model st) LOCAL_MODEL then
    let no_proxy_list :=
      match no_proxy with
      | Some s => if PyStr.nonempty s then PyStr.split "," s else []
      | None => []
      end in
    if mem "localhost" no_proxy_list then no_proxy
    else Some (PyStr.join "," (no_proxy_list ++ ["localhost"]))
  else no_proxy.

(** [_get_common_cmds]; [scannerwork] is [self.scannerwork]. *)
Definition _get_common_cmds (st : SonarQube) (scannerwork : string)
    (SQ_CLIENT_PARAMS : option string) : list string :=
  [ "-Dsonar.projectKey=" +:+ projectKey st;
    "-Dsonar.host.url=" +:+ base_url st +:+ ":" +:+ PyStr.fmt_d (port st)
      +:+ base_path st;
    "-Dsonar.login=" +:+ user st;
    "-Dsonar.password=" +:+ password st;
    "-Dsonar.scm.disabled=true";
    "-Dsonar.import_unknown_files=true";
    "-Dsonar.sourceEncoding=UTF-8";
    "-Dsonar.working.directory=" +:+ scannerwork ]
  ++ match SQ_CLIENT_PARAMS with
     | Some sonar_params =>
         if PyStr.nonempty sonar_params
         then PyStr.split ";" (strip_char "034" sonar_params)
         else []
     | None => []
     end.

(** [_sonar_path_filter] *)
Definition _sonar_path_filter (path_list : list string) : list string :=
  replace "*" "***" <$> path_list.

(** [_sonar_regex_path_filter] *)
Definition _sonar_regex_path_filter (path_list : list string)
    : list string :=
  replace ".*" "***" <$> path_list.

(** [params["path_filters"]]: each list as [.get(.., [])] reads it, the
    last two below [yaml_filters]. *)
Record path_filters : Type := mk_path_filters {
  wildcard_exclusion : list string;
  wildcard_inclusion : list string;
  re_exclusion : list string;
  re_inclusion : list string;
  lint_exclusion : list string;
  lint_inclusion : list string
}.

(** The truth value of a list. *)
Definition truthy {A} (l : list A) : bool :=
  match l with [] => false | _ => true end.

(** [_add_sonar_filter_path]: [self.com_cmd] afterwards. *)
Definition _add_sonar_filter_path (pf : path_filters)
    (com_cmd : list string) : list string :=
  let sonar_include :=
    (if truthy (wildcard_inclusion pf)
     then _sonar_path_filter (wildcard_inclusion pf) else [])
    ++ (if truthy (re_inclusion pf)
        then _sonar_regex_path_filter (re_inclusion pf) else [])
    ++ (if truthy (lint_inclusion pf)
        then _sonar_regex_path_filter (lint_inclusion pf) else []) in
  let sonar_exclude :=
    (if truthy (wildcard_exclusion pf)
     then _sonar_path_filter (wildcard_exclusion pf) else [])
    ++ (if truthy (re_exclusion pf)
        then _sonar_regex_path_filter (re_exclusion pf) else [])
    ++ (if truthy (lint_exclusion pf)
        then _sonar_regex_path_filter (lint_exclusion pf) else []) in
  let com_cmd1 :=
    if truthy sonar_include
    then com_cmd ++ ["-Dsonar.inclusions=" +:+ dq
                       +:+ PyStr.join "," sonar_include +:+ dq]
    else com_cmd in
  if truthy sonar_exclude
  then com_cmd1 ++ ["-Dsonar.exclusions=" +:+ dq
                      +:+ PyStr.join "," sonar_exclude +:+ dq]
  else com_cmd1.

(** The body of the loop of [change_to_vs_cmd]; an argument without an
    equals sign has no [token[1]]. *)
Definition vs_arg (c : string) : res string :=
  if PyStr.startswith c "-Dsonar.projectKey=" then
    match PyStr.split "=" c !! 1%nat with
    | Some v => Ok ("/k:" +:+ dq +:+ v +:+ dq)
    | None => Raise (OtherError "IndexError")
    end
  else if PyStr.startswith c "-D" then
    let token := PyStr.split "=" c in
    match token !! 0%nat, token !! 1%nat with
    | Some t0, Some t1 =>
        Ok ("/d:" +:+ PyStr.drop 2 t0 +:+ "=" +:+ dq +:+ t1 +:+ dq)
    | _, _ => Raise (OtherError "IndexError")
    end
  else Ok c.

(** [change_to_vs_cmd] *)
Definition change_to_vs_cmd (cmd : list string) : res (list string) :=
  traverse vs_arg cmd.

(** The body of the loop of [_change_to_win_cmd]. *)
Definition win_arg (c : string) : string :=
  if PyStr.startswith c "-D" then "-D" +:+ dq +:+ PyStr.drop 2 c +:+ dq
  else c.

(** [_change_to_win_cmd]; [win32] is [sys.platform == "win32"]. *)
Definition _change_to_win_cmd (win32 : bool) (cmd : list string)
    : list string :=
  if negb win32 then cmd else win_arg <$> cmd.

(** A process that has ended: its return code, and what the two reader
    threads ([Process.do]) got from its pipes: the lines read and
    decoded while it ran, and the bytes left when it had ended. *)
Record finished : Type := mk_finished {
  returncode : Z;
  out_lines : list string;
  out_rest : string;
  err_lines : list string;
  err_rest : string
}.

(** What the command builder does, in the order of the calling thread.
    A started process carries what the reader threads of its two pipes
    did while it ran. *)
Inductive action : Type :=
| Did (e : event)
| Wrote (path content : string)
| Ran (command : list string) (cwd : string)
    (out_reader err_reader : list event)
| NotStarted (command : list string) (cwd : string).

Definition step (A : Type) : Type := list action * res A.

Definition step_bind {A B} (m : step A) (k : A -> step B) : step B :=
  match m with
  | (acts, Ok a) => let '(acts', r) := k a in (acts ++ acts', r)
  | (acts, Raise e) => (acts, Raise e)
  end.

(** A call of [_raise_error]. *)
Definition step_raise {A} (st : SonarQube) (procs : list proc)
    (msg : string) (err_type : string) : step A :=
  let '(kill, e) := _raise_error st procs msg (Some err_type) in
  (Did <$> kill, Raise e).

(** [__handle]: what it does with a line of the error output, and the
    exception it ends with, if any. *)
Definition __handle (st : SonarQube) (procs : list proc) (line : string)
    : list event * option exn :=
  if PyStr.contains line
       "java.lang.IllegalStateException: No files nor directories matching"
  then
    let '(kill, e) :=
      _raise_error st procs
        "Tool_BIN指定的路径下没有找到class文件，请确认Tool_BIN设置正确。"
        (Some "analyze") in
    (EvPrint line :: kill, Some e)
  else if PyStr.contains line
            "java.lang.IllegalStateException: Unable to read file"
  then
    let '(kill, e) :=
      _raise_error st procs
        ("解析该文件失败，请确保该文件是不是软链接、编码或者语法有问题: "
           +:+ line)
        (Some "config") in
    (EvPrint line :: kill, Some e)
  else ([EvPrint line], None).

Section Readers.

(** [str] of a [bytes] object, as [print] shows it. *)
Variable repr_bytes : string -> string.

(** [Process.do] with [print]: every line that is not empty, then the
    bytes that are left. *)
Definition out_reader (lines : list string) (rest : string) : list event :=
  (EvPrint <$> List.filter PyStr.nonempty lines)
  ++ (if PyStr.nonempty rest then [EvPrint (repr_bytes rest)] else []).

(** [Process.do] with [__handle]: an exception of the callback ends the
    thread, and nothing reaches the thread that waits. The bytes that
    are left are printed, and [find] with a [str] raises on them. *)
Fixpoint err_reader (st : SonarQube) (procs : list proc)
    (lines : list string) (rest : string) : list event :=
  match lines with
  | [] => if PyStr.nonempty rest then [EvPrint (repr_bytes rest)] else []
  | c :: cs =>
      if PyStr.nonempty c then
        match __handle st procs c with
        | (evs, Some _) => evs
        | (evs, None) => evs ++ err_reader st procs cs rest
        end
      else err_reader st procs cs rest
  end.

End Readers.

Definition msg_compile : string :=
  "编译失败，请确认编译命令正确，并查看log排查失败原因。".
Definition msg_analyze : string :=
  "工具执行分析失败，请查看log排查失败原因。".
Definition msg_java_build_cmd : string :=
  "SQ工具执行Java静态分析时候需要输入编译命令，请填入编译命令后重试。".
Definition msg_cs_build_cmd : string :=
  "SQ工具执行C#静态分析时候需要输入编译命令，请填入编译命令后重试。".
Definition msg_build_type : string :=
  "设置SONAR_BUILD_TYPE异常: 当前SQJava仅支持设置SONAR_BUILD_TYPE为no_build、gradle、maven或ant模式，请检查是否设置错误。".

(** What the scan functions read from the outside: variables of the
    environment, the platform, and whether [self.scannerwork] exists
    when the commands have run. Paths are joined as POSIX [os.path]
    does. *)
Record scan_env : Type := mk_scan_env {
  SQ_JAVA_BUILD : option string;
  SONAR_JAVA_SRC : option string;
  SONAR_SRC : option string;
  SONAR_BIN : option string;
  SONAR_LIB : option string;
  SONAR_JAVA_VERSION : option string;
  SQ_ANALYZE_OPTIONS : option string;
  win32 : bool;                  (* [sys.platform == "win32"] *)
  windows : bool;                (* [platform.system() == "Windows"] *)
  shell_filepath : string;       (* [build.sh] or [build.bat] below the
                                    current directory, normalized *)
  scannerwork : string;
  scannerwork_exists : bool
}.

(** The truth value of a string that may be [None]. *)
Definition given (o : option string) : bool :=
  match o with Some s => PyStr.nonempty s | None => false end.

(** The end of the scan functions that return a path. *)
Definition report_in (env : scan_env) (fallback : string) : option string :=
  if PyStr.nonempty (scannerwork env) && scannerwork_exists env
  then Some (PosixPath.join (scannerwork env) "report-task.txt")
  else Some fallback.

(** [generate_shell_file] with the default [shell_name]. *)
Definition generate_shell_file (env : scan_env) (cmd : string)
    : step string :=
  ([ Wrote (shell_filepath env) cmd;
     Did (EvPrint ("[info] Cmd:" +:+ nl +:+ cmd));
     Did (EvPrint ("[info] Generated shell file: " +:+ shell_filepath env)) ],
   Ok (if windows env then shell_filepath env
       else "bash " +:+ shell_filepath env)).

Section WithProcesses.

(** [shlex.split] *)
Variable shlex_split : string -> list string.

(** [str] of a [bytes] object, as [print] shows it. *)
Variable repr_bytes : string -> string.

(** How the process ends that a command starts in a directory; [None]
    when [Popen] raises. *)
Variable outcome : list string -> string -> option finished.

(** [run_cmd]; the state of the server is taken not to change while the
    process runs. *)
Definition run_cmd (st : SonarQube) (procs : list proc)
    (command : list string) (cwd : string) (cmd_type : option string)
    : step unit :=
  let prints :=
    [ Did (EvPrint ("[warning] run cmd: " +:+ PyStr.join " " command));
      Did (EvPrint "[warning] Start cmd...") ] in
  let '(ran, failed) :=
    match outcome command cwd with
    | None => (NotStarted command cwd, true)
    | Some f =>
        (Ran command cwd
           (out_reader repr_bytes (out_lines f) (out_rest f))
           (err_reader repr_bytes st procs (err_lines f) (err_rest f)),
         negb (returncode f =? 0))
    end in
  step_bind (prints ++ [ran], Ok tt)
    (fun _ =>
       if failed then
         match cmd_type with
         | Some "compile" => step_raise st procs msg_compile "compile"
         | Some "analyze" => step_raise st procs msg_analyze "analyze"
         | _ => ([], Ok tt)
         end
       else ([], Ok tt)).

(** [scan_java_proj]: the path of the report it returns, [None] where
    it returns nothing. *)
Definition scan_java_proj (st : SonarQube) (procs : list proc)
    (env : scan_env) (com_cmd : list string)
    (build_type build_cwd : string) (build_cmd : option string)
    : step (option string) :=
  let ty := PyStr.lower build_type in
  if mem ty ["any"; "no_build"] then
    step_bind
      (if given (SQ_JAVA_BUILD env) && given build_cmd
       then run_cmd st procs (shlex_split (default "" build_cmd)) build_cwd
              None
       else ([], Ok tt))
      (fun _ =>
         let scan_cmd :=
           [ "sonar-scanner"; "-X";
             "-Dsonar.sources=" +:+ default "." (SONAR_JAVA_SRC env);
             "-Dsonar.language=java,jsp";
             "-Dsonar.java.binaries=" +:+ default "**/*" (SONAR_BIN env) ]
           ++ com_cmd
           ++ (if given (SONAR_LIB env)
               then ["-Dsonar.java.libraries="
                       +:+ default "" (SONAR_LIB env)]
               else [])
           ++ (if given (SONAR_JAVA_VERSION env)
               then ["-Dsonar.java.source="
                       +:+ default "" (SONAR_JAVA_VERSION env)]
               else []) in
         step_bind
           (run_cmd st procs (_change_to_win_cmd (win32 env) scan_cmd)
              build_cwd (Some "analyze"))
           (fun _ =>
              ([], Ok (report_in env
                         (PosixPath.join
                            (PosixPath.join build_cwd ".scannerwork")
                            "report-task.txt")))))
  else if mem ty ["gradle"] then
    if negb (given build_cmd)
    then step_raise st procs msg_java_build_cmd "compile"
    else
      step_bind
        (run_cmd st procs
           (_change_to_win_cmd (win32 env)
              (shlex_split (default "" build_cmd) ++ ["sonarqube"]
                 ++ com_cmd))
           build_cwd (Some "compile"))
        (fun _ =>
           ([], Ok (report_in env
                      (PosixPath.join
                         (PosixPath.join (PosixPath.join build_cwd "build")
                            "sonar")
                         "report-task.txt"))))
  else if mem ty ["maven"; "mvn"] then
    step_bind
      (if given build_cmd then ([], Ok (shlex_split (default "" build_cmd)))
       else ([Did (EvPrint
                "[warning] 没有检测到编译命令，尝试使用默认编译命令。")],
             Ok ["mvn"]))
      (fun compile_cmd =>
         step_bind
           (run_cmd st procs
              (_change_to_win_cmd (win32 env)
                 (compile_cmd
                    ++ ["sonar:sonar";
                        "-Dsonar.java.binaries="
                          +:+ default "**/*" (SONAR_BIN env)]
                    ++ com_cmd))
              build_cwd (Some "compile"))
           (fun _ => ([], Ok None)))
  else if mem ty ["ant"] then
    if negb (given build_cmd)
    then step_raise st procs msg_java_build_cmd "compile"
    else
      step_bind
        (run_cmd st procs
           (_change_to_win_cmd (win32 env) (["ant"; "sonar"; "-v"] ++ com_cmd))
           build_cwd (Some "compile"))
        (fun _ => ([], Ok None))
  else step_raise st procs msg_build_type "config".

(** [scan_cs_proj] *)
Definition scan_cs_proj (st : SonarQube) (procs : list proc)
    (env : scan_env) (com_cmd : list string)
    (build_cmd : option string) (build_cwd : string)
    : step (option string) :=
  if negb (given build_cmd)
  then step_raise st procs msg_cs_build_cmd "compile"
  else
    step_bind ([], change_to_vs_cmd com_cmd)
      (fun vs_cmd =>
    step_bind
      (run_cmd st procs (["SonarScanner.MSBuild.exe"; "begin"] ++ vs_cmd)
         build_cwd (Some "compile"))
      (fun _ =>
    step_bind (generate_shell_file env (default "" build_cmd))
      (fun shell =>
    step_bind
      (run_cmd st procs (shlex_split shell) build_cwd (Some "compile"))
      (fun _ =>
    step_bind
      (run_cmd st procs
         [ "SonarScanner.MSBuild.exe"; "end";
           "/d:sonar.login=" +:+ dq +:+ user st +:+ dq;
           "/d:sonar.password=" +:+ dq +:+ password st +:+ dq ]
         build_cwd (Some "analyze"))
      (fun _ =>
         ([], Ok (report_in env
                    (PosixPath.join
                       (PosixPath.join
                          (PosixPath.join
                             (PosixPath.join build_cwd ".sonarqube") "out")
                          ".sonar")
                       "report-task.txt")))))))).

(** [scan_not_build_proj] *)
Definition scan_not_build_proj (st : SonarQube) (procs : list proc)
    (env : scan_env) (com_cmd : list string) (build_cwd : string)
    : step (option string) :=
  let scan_cmd :=
    [ "sonar-scanner"; "-X";
      "-Dsonar.sources=" +:+ default "." (SONAR_SRC env);
      "-Dsonar.java.binaries=" +:+ default "**/*" (SONAR_BIN env) ]
    ++ com_cmd
    ++ (if given (SQ_ANALYZE_OPTIONS env)
        then PyStr.split_ws (default "" (SQ_ANALYZE_OPTIONS env))
        else []) in
  step_bind
    (run_cmd st procs (_change_to_win_cmd (win32 env) scan_cmd) build_cwd
       (Some "analyze"))
    (fun _ =>
       ([], Ok (report_in env
                  (PosixPath.join (PosixPath.join build_cwd ".scannerwork")
                     "report-task.txt")))).

End WithProcesses.

End SqCmd.

(* ===================================================================== *)
(** * What the specification expects, and inputs for the examples         *)
(* ===================================================================== *)

Module Expected.

(** Where the build directory lies below the source root: the empty
    path when it is the source root, the rest of its path when it starts
    with the source root and a separator. *)
Definition below_root (source_dir build_cwd : string) : option string :=
  if String.eqb build_cwd source_dir then Some EmptyString
  else if PyStr.startswith build_cwd (source_dir +:+ "/")
  then Some (PyStr.drop (String.length source_dir + 1) build_cwd)
  else None.

Definition is_relative (path : string) : bool :=
  negb (PyStr.startswith path "/").


(** [int] of the [k]th integer token of the message. *)
Definition token_int (py : PyStr.interpreter) (k : nat) (f : finding)
    : res Z :=
  PyStr.int py (nth k (digit_tokens py (f_msg f)) "").


(** The value of the [k]th integer token of the message. *)
Definition token (py : PyStr.interpreter) (k : nat) (f : finding) : Z :=
  match token_int py k f with Ok v => v | Raise _ => 0 end.





(** The second document is the first one filtered: same name and
    language, and for rules the allowed rules of the first, in their
    order. *)
Definition filtered (rules : list string) (doc doc' : profile_doc) : Prop :=
  pd_name doc' = pd_name doc
  /\ pd_language doc' = pd_language doc
  /\ real_name <$> pd_rules doc'
     = List.filter (fun n => mem n rules) (real_name <$> pd_rules doc).

(** Every rule of the document is in the allowed set. *)
Definition all_allowed (rules : list string) (d : profile_doc) : Prop :=
  Forall (fun r => mem (real_name r) rules = true) (pd_rules d).

(** The value of a parameter under an override map: the override for
    its key when there is one, its own value otherwise. *)
Definition overridden (d : gmap string string) (pa : parameter)
    : parameter :=
  mk_parameter (p_key pa) (default (p_value pa) (d !! p_key pa)).


Definition is_kill (ev : event) : bool :=
  match ev with EvKillSonar _ => true | _ => false end.

(** The run never saw the shared server without the flag: what holds
    at [__init__] and after every operation. *)
Definition consistent (st : SonarQube) : Prop :=
  model st = COMMON_MODEL -> is_local_up st = true.

(** The state after the reader thread handled the lines of the given
    passes of the readiness loop. *)
Definition state_after (common : option sq_user) (st : SonarQube)
    (obs : list status_obs) : SonarQube :=
  fst (feed_lines common st (concat (so_lines <$> obs))).

(** A pass of the task poller after which the loop goes on: no
    terminal status, and the deadline not passed. *)
Definition task_pass_continues (deadline : Z) (id : string)
    (o : task_obs) : bool :=
  match Api.ce_task (to_call o id) with
  | Ok t =>
      negb (String.eqb (t_status t) "SUCCESS")
      && negb (String.eqb (t_status t) "FAILED")
  | Raise _ => true
  end
  && negb (deadline <? to_now o).

(** What [n] passes of the task poller do. *)
Definition task_log (st : SonarQube) (id : string) (n : nat) : list event :=
  concat (replicate n [EvSleep (sleep_second st); EvCeTask id]).

(** The passes a wait loop has made, and what it has done. *)
Definition wait_polls {A} (r : wait_result A) : nat :=
  match r with
  | Finished _ n _ | Failed _ n _ | Polling n _ => n
  end.

Definition wait_log {A} (r : wait_result A) : list event :=
  match r with
  | Finished _ _ l | Failed _ _ l | Polling _ l => l
  end.

(** Passes of the readiness loop that neither end it nor raise: the
    deadline has not passed, and the poll is not UP or the flag is not
    set after the log lines of the pass. *)
Fixpoint all_waiting (common : option sq_user) (deadline : Z)
    (st : SonarQube) (obs : list status_obs) : bool :=
  match obs with
  | [] => true
  | o :: obs' =>
      let st1 := fst (feed_lines common st (so_lines o)) in
      negb (deadline <? so_now o)
      && (negb (poll_is_up (so_call o)) || negb (is_local_up st1))
      && all_waiting common deadline st1 obs'
  end.

(** The answer of a pass of the task poller is not a FAILED task. *)
Definition task_not_failed (id : string) (o : task_obs) : bool :=
  match Api.ce_task (to_call o id) with
  | Ok t => negb (String.eqb (t_status t) "FAILED")
  | Raise _ => true
  end.

(** A pass of project creation that is tried again: the call raised a
    [ClientError] that is no [ValidationError], within the deadline. *)
Definition create_pass_retried {B} (deadline : Z) (key : string)
    (o : create_obs B) : bool :=
  match Api.project_create (co_call o key) with
  | Ok _ => false
  | Raise e => is_ClientError e && negb (is_ValidationError e)
  end
  && negb (deadline <? co_now o).

(** No white space in the text. *)
Definition no_space (s : string) : bool :=
  forallb (fun c => negb (PyStr.is_space_char c)) (PyStr.chars s).

(** One character: a byte and the bytes that continue it. *)
Definition is_char (c : string) : bool :=
  match c with
  | String _ r => forallb PyStr.is_cont (list_ascii_of_string r)
  | EmptyString => false
  end.

(** The text starts with a character: its first byte continues none. *)
Definition starts_char (s : string) : bool :=
  match s with
  | String a _ => negb (PyStr.is_cont a)
  | EmptyString => true
  end.

(** The character does not occur in the text. *)
Definition lacks (c : ascii) (s : string) : bool :=
  forallb (fun a => negb (Ascii.eqb a c)) (list_ascii_of_string s).


(** The issue is skipped or its findings are made without an
    exception. *)
Definition processed (env : extract_env) (i : issue) : bool :=
  skipped env i
  || match findings_of_issue env i with Ok _ => true | Raise _ => false end.

(** The findings of the issues of a stream, in order. *)
Definition findings_so_far (env : extract_env) (stream : list issue)
    : list finding :=
  concat
    ((fun i =>
        if skipped env i then []
        else match findings_of_issue env i with
             | Ok fs => fs
             | Raise _ => []
             end) <$> stream).

(** What the loop over the issues does with an exception. *)
Definition on_exception (so_far : list finding) (e : exn)
    : res (list finding) :=
  if is_ValidationError e then Ok so_far else Raise e.

(** The reference made for a location of a flow. *)
Definition reference_of (l : location) : reference :=
  mk_reference (default 0 (startLine <$> loc_textRange l))
    (default 0 (startOffset <$> loc_textRange l))
    (default "" (loc_msg l)) None
    (PyStr.split_last ":" (loc_component l)).

(** The answers of a server that numbers its pages from [first] on and
    reports the same page size and total with each. *)
Fixpoint page_answers {I} (first ps total : Z) (pages : list (list I))
    : list (res (Api.http_response (Api.issues_page I))) :=
  match pages with
  | [] => []
  | pg :: pages' =>
      Ok (Api.mk_response 200 "" [] (Api.mk_page first ps total pg))
        :: page_answers (first + 1) ps total pages'
  end.


(** What [_set_qualityprofiles] has kept and copied before it turns to
    the files of the user: the defaults, then the documents of the build
    type. *)
Definition defaults_and_typed (env : profile_env)
    (fs : gmap string profile_doc) : res (odict * gmap string profile_doc) :=
  '(paths, fs1) ←
    add_defaults (pe_profiles_path env)
      (get_dir_files (pe_tool_profiles env) profile_suffix) [] fs;
  match SONAR_QUALITYPROFILE_TYPE env with
  | None => Ok (paths, fs1)
  | Some ty =>
      add_typed (pe_profiles_path env) (PyStr.split "," (pe_languages env))
        (get_dir_files (pe_tool_profiles env)
           (PyStr.lower ("_" +:+ ty +:+ ".xml")))
        paths fs1
  end.


(** The commands of a trace, started or not, in their order. *)
Definition commands (acts : list SqCmd.action) : list (list string) :=
  omap (fun a =>
          match a with
          | SqCmd.Ran c _ _ _ | SqCmd.NotStarted c _ => Some c
          | _ => None
          end) acts.

(** The files written in a trace. *)
Definition written (acts : list SqCmd.action) : list string :=
  omap (fun a =>
          match a with SqCmd.Wrote p _ => Some p | _ => None end) acts.

(** What [_raise_error] does before it raises. *)
Definition teardown (st : SonarQube) (procs : list proc)
    : list SqCmd.action :=
  SqCmd.Did
    <$> (if model_eqb (model st) LOCAL_MODEL then _kill_sonar procs else []).

(** The process was started and ended with return code 0. *)
Definition succeeded (o : option SqCmd.finished) : bool :=
  match o with
  | Some f => SqCmd.returncode f =? 0
  | None => false
  end.

(** One of the two lines of the scanner that [__handle] looks for. *)
Definition scanner_signature (chunk : string) : bool :=
  PyStr.contains chunk
    "java.lang.IllegalStateException: No files nor directories matching"
  || PyStr.contains chunk
       "java.lang.IllegalStateException: Unable to read file".

End Expected.

Module Examples.

Definition no_dupl : string -> res (Api.http_response dupl_show) :=
  fun _ => Raise (ServerError "unused").

Definition plain_issue (rule component message : string) : issue :=
  mk_issue rule component message (Some (mk_range 3 7)) [].

(** A source root with a separator at its end. *)
Definition env_trailing : extract_env :=
  mk_extract_env "/data/src/" None [] false no_dupl.

(** A source root as usual, and a component whose path is absolute. *)
Definition env_plain : extract_env :=
  mk_extract_env "/data/src" None [] false no_dupl.

Definition env_build : extract_env :=
  mk_extract_env "/data/src" (Some "app") ["java:S100"] false no_dupl.

(** A duplication of two blocks, as [/api/duplications/show] reports
    a passage of [A.java] found again in [B.java]. *)
Definition two_blocks : dupl_show :=
  mk_dupl_show
    [[mk_block 10 5 "1"; mk_block 40 5 "2"]]
    (<["1" := "proj:src/A.java"]> (<["2" := "proj:src/B.java"]> ∅)).

(** Two duplications of one file, each of two blocks. *)
Definition two_duplications : dupl_show :=
  mk_dupl_show
    [[mk_block 10 5 "1"; mk_block 40 5 "2"];
     [mk_block 70 3 "1"; mk_block 90 3 "2"]]
    (<["1" := "proj:src/A.java"]> (<["2" := "proj:src/B.java"]> ∅)).

Definition answer {B} (code : Z) (b : B) : res (Api.http_response B) :=
  Ok (Api.mk_response code "" [] b).

Definition env_dupl (d : dupl_show) : extract_env :=
  mk_extract_env "/data/src" None [] false (fun _ => answer 200 d).


Definition local_linux : SonarQube := init SQ_LOCAL_USER false (Some "42").
Definition local_windows : SonarQube := init SQ_LOCAL_USER true (Some "42").

Definition up_line : string :=
  "2022.01.01 10:00:00 INFO app[][o.s.a.SchedulerImpl] SonarQube is up".

Definition java_proc : proc :=
  mk_proc 4711 (Ok "java")
    (Ok ["java"; "-jar"; "./lib/sonar-application-8.9.8.54436.jar"]).

(** The status poll every five seconds: 60 passes with the server
    still starting, and [UP] at the 61st. *)
Definition slow_start : list status_obs :=
  ((fun k => mk_status_obs [] (answer 200 (Some "STARTING"))
               (5 * Z.of_nat k)) <$> seq 1 60)
  ++ [mk_status_obs [] (answer 200 (Some "UP")) 305].

Definition quick_start : list status_obs :=
  [ mk_status_obs [] (Raise (OtherError "ConnectionError")) 5;
    mk_status_obs [up_line] (answer 200 (Some "STARTING")) 10;
    mk_status_obs [] (answer 200 (Some "UP")) 15 ].

(** A report handle as the scanner writes it. *)
Definition report_task : list string :=
  (fun l => l +:+ nl) <$>
  [ "projectKey=test";
    "serverUrl=http://localhost:9000";
    "serverVersion=8.9.8.54436";
    "dashboardUrl=http://localhost:9000/dashboard?id=test";
    "ceTaskId=AX1";
    "ceTaskUrl=http://localhost:9000/api/ce/task?id=AX1" ].

Definition task_answer (status : string) (errorMessage : option string)
    (now : Z) : task_obs :=
  mk_task_obs (fun _ => answer 200 (mk_task status errorMessage)) now.

Definition create_answer (code : Z) (errors : list string) (now : Z)
    : create_obs unit :=
  mk_create_obs (fun _ => Ok (Api.mk_response code "" errors tt)) now.

(** [configparser] on a text of [key=value] lines: the options below
    the header of the section, keys and values stripped. *)
Definition ini_items (cfg_string section_name : string)
    : res (list (string * string)) :=
  let lines := PyStr.strip <$> PyStr.split "010" cfg_string in
  if mem ("[" +:+ section_name +:+ "]") lines then
    Ok (omap
          (fun l =>
             match PyStr.split "=" l with
             | k :: v :: vs =>
                 Some (PyStr.strip k, PyStr.strip (PyStr.join "=" (v :: vs)))
             | _ => None
             end)
          lines)
  else Raise (OtherError "NoSectionError").

Definition R1 : rule_elem := mk_rule "java" "S100" [].
Definition R2 : rule_elem := mk_rule "java" "S101" [].
Definition R3 : rule_elem :=
  mk_rule "java" "S3776"
    [mk_parameter "Threshold" "15"; mk_parameter "format" "^[a-z]+$"].

Definition default_path : string :=
  "/tca/profiles/java_SonarQube_Profile.xml".
Definition typed_path : string := "/tca/profiles/java_strict.xml".
Definition user_path : string := "/data/src/quality/custom.xml".

Definition disk : gmap string profile_doc :=
  <[default_path := mk_doc "TCA java" "java" [R1; R2; R3]]>
    (<[typed_path := mk_doc "TCA java strict" "java" [R1; R2]]>
       (<[user_path := mk_doc "custom" "java" [R2; R3]]> ∅)).

Definition env_default : profile_env :=
  mk_profile_env "/data/src" "/task/workdir/profiles"
    ["java:S100"; "java:S3776"]
    [mk_rule_info "java:S3776" (Some ("Threshold=20" +:+ nl +:+ "max=3"))]
    "java,jsp" [default_path; typed_path] None None.

Definition env_typed : profile_env :=
  mk_profile_env "/data/src" "/task/workdir/profiles"
    ["java:S100"; "java:S3776"] []
    "java,jsp" [default_path; typed_path] (Some "strict") None.

Definition env_user : profile_env :=
  mk_profile_env "/data/src" "/task/workdir/profiles"
    ["java:S100"; "java:S3776"] []
    "java,jsp" [default_path; typed_path] None (Some "quality/custom.xml").





Definition dupl_issue : issue :=
  mk_issue "common-java:DuplicatedBlocks" "proj:src/A.java"
    "2 duplicated blocks of code must be removed." None [].

End Examples.

(* ===================================================================== *)
(** * Facts about the string helpers                                      *)
(* ===================================================================== *)

Section StringFacts.

Implicit Types s t p : string.
#[local] Arguments Ascii.eqb : simpl never.

Lemma length_append s t :
  String.length (s +:+ t) = (String.length s + String.length t)%nat.
Proof. induction s as [|a s IH]; simpl; [done | by rewrite IH]. Qed.

Lemma drop_append_add s t (k : nat) :
  PyStr.drop (String.length s + k) (s +:+ t) = PyStr.drop k t.
Proof. induction s as [|a s IH]; simpl; [done | exact IH]. Qed.

Lemma drop_0 s : PyStr.drop 0 s = s.
Proof. by destruct s. Qed.

Lemma drop_append_sep s t :
  PyStr.drop (String.length s + 1) (s +:+ "/" +:+ t) = t.
Proof. by rewrite drop_append_add. Qed.

Lemma append_cons a s t : String a s +:+ t = String a (s +:+ t).
Proof. reflexivity. Qed.

Lemma append_assoc s t p : (s +:+ t) +:+ p = s +:+ t +:+ p.
Proof.
  induction s as [|a s IH]; [done|]. rewrite !append_cons. by f_equal.
Qed.

Lemma endswith_append s t suf :
  (String.length suf <= String.length t)%nat ->
  PyStr.endswith (s +:+ t) suf = PyStr.endswith t suf.
Proof.
  intros Hle. unfold PyStr.endswith. rewrite length_append.
  replace (String.length s + String.length t - String.length suf)%nat
    with (String.length s + (String.length t - String.length suf))%nat
    by lia.
  rewrite drop_append_add.
  assert (H1 : (String.length suf <=? String.length s + String.length t)%nat
               = true) by (apply Nat.leb_le; lia).
  assert (H2 : (String.length suf <=? String.length t)%nat = true)
    by (by apply Nat.leb_le).
  by rewrite H1, H2.
Qed.

Lemma startswith_sep_append s t :
  PyStr.nonempty s = true ->
  PyStr.startswith (s +:+ t) "/" = PyStr.startswith s "/".
Proof. destruct s; [done|]. rewrite append_cons. intros _. simpl. by destruct (Ascii.eqb _ _). Qed.

(** A text that does not start with the separator does not start with
    a text that does. *)
Lemma not_startswith_absolute s p :
  PyStr.startswith p "/" = true ->
  PyStr.startswith s "/" = false ->
  PyStr.startswith s p = false.
Proof.
  destruct p as [|a p]; [done|]. destruct s as [|b s]; [done|].
  simpl.
  destruct (Ascii.eqb_spec "/" a) as [<-|]; [|done].
  intros _. destruct (Ascii.eqb_spec "/" b) as [<-|]; done.
Qed.

Lemma startswith_split s p :
  PyStr.startswith s p = true -> s = p +:+ PyStr.drop (String.length p) s.
Proof.
  revert s. induction p as [|a p IH]; intros s; [by destruct s|].
  destruct s as [|b s]; [done|]. simpl.
  destruct (Ascii.eqb_spec a b) as [->|]; [|done]. simpl.
  intros H. rewrite append_cons. f_equal. by apply IH.
Qed.

Lemma join_relative s t :
  PyStr.startswith t "/" = false ->
  PyStr.nonempty s = true ->
  PosixPath.join s t
  = if PyStr.endswith s "/" then s +:+ t else s +:+ "/" +:+ t.
Proof.
  intros Ht Hs. unfold PosixPath.join, PosixPath.sep.
  rewrite Ht, Hs. done.
Qed.

Lemma join_relative_startswith s t :
  PyStr.startswith t "/" = false ->
  PyStr.nonempty s = true ->
  PyStr.startswith (PosixPath.join s t) "/" = PyStr.startswith s "/".
Proof.
  intros Ht Hs. rewrite join_relative by done.
  destruct (PyStr.endswith s "/"); by apply startswith_sep_append.
Qed.

End StringFacts.

(* ===================================================================== *)
(** * Facts about loops that may raise                                    *)
(* ===================================================================== *)

Section TraverseFacts.

Context {A B : Type}.
Implicit Types (f : A -> res B) (l : list A).

Lemma traverse_Ok_Forall2 f l ys :
  traverse f l = Ok ys -> Forall2 (fun x y => f x = Ok y) l ys.
Proof.
  revert ys. induction l as [|x l IH]; intros ys; simpl.
  - intros [= <-]. constructor.
  - destruct (f x) as [y|e] eqn:Hx; [|done]. simpl.
    destruct (traverse f l) as [ys'|e] eqn:Hl; [|done]. simpl.
    intros [= <-]. constructor; [done | by apply IH].
Qed.

Lemma traverse_Ok_map f (g : A -> B) l :
  Forall (fun x => f x = Ok (g x)) l -> traverse f l = Ok (g <$> l).
Proof.
  induction 1 as [|x l Hx _ IH]; simpl; [done|].
  by rewrite Hx, IH.
Qed.

Lemma traverse_Ok_length f l ys :
  traverse f l = Ok ys -> length ys = length l.
Proof.
  intros H. apply traverse_Ok_Forall2 in H.
  symmetry. by eapply Forall2_length.
Qed.

End TraverseFacts.

(* ===================================================================== *)
(** * The issue extractor                                                 *)
(* ===================================================================== *)

Section ExtractorFacts.

Implicit Types (env : extract_env) (i : issue) (f : finding).

(** Every finding made for an issue carries the path computed for the
    issue and its rule, message, line and column. *)
Lemma findings_of_issue_fields env i fs :
  findings_of_issue env i = Ok fs ->
  Forall
    (fun f =>
       f_path f
       = issue_path (SOURCE_DIR env)
           (build_cwd_of (SOURCE_DIR env) (BUILD_CWD env)) (i_component i)
       /\ f_rule f = i_rule i /\ f_msg f = i_message i
       /\ f_line f = default 0 (startLine <$> i_textRange i)
       /\ f_column f = default 0 (startOffset <$> i_textRange i))
    fs.
Proof.
  unfold findings_of_issue.
  destruct (PyStr.endswith (i_rule i) "DuplicatedBlocks").
  - destruct (Api.duplications_show _) as [d|e]; [|done]. simpl.
    intros H. apply traverse_Ok_Forall2 in H.
    induction H as [|dupl f l fs Hf _ IH]; constructor; [|done].
    destruct (traverse (block_ref d) dupl) as [refs|e]; [|done].
    simpl in Hf. by injection Hf as <-.
  - destruct (traverse location_ref _) as [refs|e]; [|done]. simpl.
    intros [= <-]. by repeat constructor.
Qed.

(** A finding of the result was there before or was made for an issue
    of the stream that was not skipped. *)
Lemma extract_loop_elem env acc stream stream_end out f :
  extract_loop env acc stream stream_end = Ok out ->
  f ∈ out ->
  f ∈ acc
  \/ exists i fs, i ∈ stream /\ skipped env i = false
                  /\ findings_of_issue env i = Ok fs /\ f ∈ fs.
Proof.
  revert acc. induction stream as [|i stream IH]; intros acc; simpl.
  - destruct stream_end as [e|].
    + destruct (is_ValidationError e); [|done]. intros [= <-]. by left.
    + intros [= <-]. by left.
  - destruct (skipped env i) eqn:Hskip.
    + intros H Hf.
      destruct (IH _ H Hf) as [?|(i' & fs & ? & ?)]; [by left|].
      right. exists i', fs. split; [by apply elem_of_cons; right | done].
    + destruct (findings_of_issue env i) as [fs|e] eqn:Hi.
      * intros H Hf. destruct (IH _ H Hf) as [Hin|(i' & fs' & ? & ?)].
        -- apply elem_of_app in Hin as [?|?]; [by left|].
           right. exists i, fs. split; [by apply elem_of_cons; left | done].
        -- right. exists i', fs'.
           split; [by apply elem_of_cons; right | done].
      * destruct (is_ValidationError e); [|done]. intros [= <-]. by left.
Qed.

(** With a source root that is absolute and has no separator at its
    end, a build directory at or below it and a component path that is
    relative, the slice leaves the component path under what the build
    directory adds to the source root. *)
Lemma issue_path_below source_dir build_cwd rel component :
  PyStr.startswith source_dir "/" = true ->
  PyStr.endswith source_dir "/" = false ->
  Expected.below_root source_dir build_cwd = Some rel ->
  Expected.is_relative rel = true ->
  Expected.is_relative (PyStr.split_last ":" component) = true ->
  issue_path source_dir build_cwd component
  = PosixPath.join rel (PyStr.split_last ":" component)
  /\ Expected.is_relative
       (PosixPath.join rel (PyStr.split_last ":" component)) = true.
Proof.
  unfold Expected.is_relative, issue_path, Expected.below_root.
  intros Habs Hend Hbelow Hrel Hc.
  set (comp := PyStr.split_last ":" component) in *.
  apply negb_true_iff in Hc. apply negb_true_iff in Hrel.
  assert (Hne : PyStr.nonempty source_dir = true) by by destruct source_dir.
  assert (Hjoin0 : PosixPath.join "" comp = comp).
  { unfold PosixPath.join, PosixPath.sep. by rewrite Hc. }
  destruct (String.eqb_spec build_cwd source_dir) as [->|_].
  { injection Hbelow as <-. rewrite Hjoin0, Hc. split; [|done].
    rewrite join_relative, Hend by done. apply drop_append_sep. }
  destruct (PyStr.startswith build_cwd (source_dir +:+ "/")) eqn:Hpre;
    [|done].
  injection Hbelow as Hbelow.
  apply startswith_split in Hpre.
  rewrite length_append in Hpre. change (String.length "/") with 1%nat in Hpre.
  rewrite Hbelow, append_assoc in Hpre. clear Hbelow. subst build_cwd.
  destruct rel as [|a rel'].
  - rewrite Hjoin0, Hc. split; [|done].
    change ("/" +:+ "") with "/".
    rewrite join_relative by (done || by destruct source_dir).
    rewrite (endswith_append source_dir "/" "/") by (simpl; lia).
    change (PyStr.endswith "/" "/") with true. cbv iota.
    rewrite append_assoc. apply drop_append_sep.
  - set (rel := String a rel') in *. split.
    + rewrite (join_relative _ comp) by (done || by destruct source_dir).
      rewrite (join_relative rel comp) by done.
      rewrite <- append_assoc, endswith_append by (simpl; lia).
      rewrite append_assoc.
      destruct (PyStr.endswith rel "/");
        rewrite !append_assoc; apply drop_append_sep.
    + by rewrite join_relative_startswith, Hrel.
Qed.

End ExtractorFacts.

(** C1, as the code has it. When the source root is an absolute path
    with no separator at its end, the build directory is the source root
    or lies below it, and the component path of every issue (the text
    after its last colon) is relative, then the path of every finding is
    the component path under what the build directory adds to the source
    root, and does not begin with the source root. *)
Theorem C1_finding_path_below_source_root
    (env : extract_env) (rel : string) (stream : list issue)
    (stream_end : option exn) (out : list finding) (f : finding) :
  PyStr.startswith (SOURCE_DIR env) "/" = true ->
  PyStr.endswith (SOURCE_DIR env) "/" = false ->
  Expected.below_root (SOURCE_DIR env)
    (build_cwd_of (SOURCE_DIR env) (BUILD_CWD env)) = Some rel ->
  Expected.is_relative rel = true ->
  Forall
    (fun i =>
       Expected.is_relative (PyStr.split_last ":" (i_component i)) = true)
    stream ->
  extract_loop env [] stream stream_end = Ok out ->
  f ∈ out ->
  PyStr.startswith (f_path f) (SOURCE_DIR env) = false
  /\ exists i, i ∈ stream
       /\ f_path f
          = PosixPath.join rel (PyStr.split_last ":" (i_component i)).
Proof.
  intros Habs Hend Hbelow Hrel Hstream Hout Hf.
  destruct (extract_loop_elem _ _ _ _ _ _ Hout Hf)
    as [Hnil|(i & fs & Hi & _ & Hfs & Hin)].
  { by apply elem_of_nil in Hnil. }
  apply findings_of_issue_fields in Hfs.
  rewrite Forall_forall in Hfs. destruct (Hfs f Hin) as (Hpath & _).
  rewrite Forall_forall in Hstream.
  destruct (issue_path_below (SOURCE_DIR env) _ rel (i_component i)
              Habs Hend Hbelow Hrel (Hstream i Hi)) as [Heq Hok].
  split.
  - apply not_startswith_absolute; [done|].
    rewrite Hpath, Heq. by apply negb_true_iff.
  - exists i. split; [done|]. by rewrite Hpath.
Qed.

Lemma C1_finding_path_below_source_root_witness :
  PyStr.startswith "app/src/Foo.java" "/data/src" = false
  /\ exists i,
       i ∈ [Examples.plain_issue "java:S100" "proj:src/Foo.java" "Rename."]
       /\ "app/src/Foo.java"
          = PosixPath.join "app" (PyStr.split_last ":" (i_component i)).
Proof.
  apply (C1_finding_path_below_source_root Examples.env_build "app"
           [Examples.plain_issue "java:S100" "proj:src/Foo.java" "Rename."]
           None
           [mk_finding "app/src/Foo.java" "java:S100" "Rename." 3 7 []]
           (mk_finding "app/src/Foo.java" "java:S100" "Rename." 3 7 [])).
  - reflexivity.
  - reflexivity.
  - reflexivity.
  - reflexivity.
  - repeat constructor.
  - reflexivity.
  - apply list_elem_of_singleton. reflexivity.
Defined.

(** C1 as stated fails on two inputs: a source root written with a
    separator at its end, and a component whose path is absolute. In both
    the stored path begins with the source root. *)
Lemma C1_counterexample :
  (exists f,
     extract_loop Examples.env_trailing []
       [Examples.plain_issue "java:S100" "proj:a/data/src/Foo.java" "Rename."]
       None = Ok [f]
     /\ PyStr.startswith (f_path f) (SOURCE_DIR Examples.env_trailing) = true)
  /\ (exists f,
        extract_loop Examples.env_plain []
          [Examples.plain_issue "java:S100"
             "proj:/elsewhere/data/src/Foo.java" "Rename."]
          None = Ok [f]
        /\ PyStr.startswith (f_path f) (SOURCE_DIR Examples.env_plain) = true).
Proof. split; eexists; split; reflexivity. Qed.

(** C3, as the code has it. For an issue whose rule ends with
    DuplicatedBlocks, the extractor emits one finding per duplication the
    lookup reports, so two duplications give exactly two findings. Each
    carries the path, rule and message of the issue, and one reference
    per block of its duplication, with the block's start line, column 0,
    the text made from the block's range, and the name of the block's
    own file. *)
Theorem C3_one_finding_per_duplication
    (env : extract_env) (i : issue) (d : dupl_show) :
  PyStr.endswith (i_rule i) "DuplicatedBlocks" = true ->
  Api.duplications_show (dupl_call env (i_component i)) = Ok d ->
  Forall (Forall (fun b => is_Some (files d !! b_ref b))) (duplications d) ->
  exists fs,
    findings_of_issue env i = Ok fs
    /\ length fs = length (duplications d)
    /\ Forall2
         (fun dupl f =>
            f_path f
            = issue_path (SOURCE_DIR env)
                (build_cwd_of (SOURCE_DIR env) (BUILD_CWD env))
                (i_component i)
            /\ f_rule f = i_rule i
            /\ f_msg f = i_message i
            /\ Forall2
                 (fun b r =>
                    r_line r = b_from b /\ r_column r = 0
                    /\ r_msg r = block_msg b /\ r_tag r = None
                    /\ files d !! b_ref b = Some (r_path r))
                 dupl (f_refs f))
         (duplications d) fs.
Proof.
  intros Hrule Hd Hfiles.
  set (ref_of := fun b =>
         mk_reference (b_from b) 0 (block_msg b) None
           (default "" (files d !! b_ref b))).
  set (mk := mk_finding
         (issue_path (SOURCE_DIR env)
            (build_cwd_of (SOURCE_DIR env) (BUILD_CWD env)) (i_component i))
         (i_rule i) (i_message i)
         (default 0 (startLine <$> i_textRange i))
         (default 0 (startOffset <$> i_textRange i))).
  exists ((fun dupl => mk (ref_of <$> dupl)) <$> duplications d).
  split; [|split].
  - unfold findings_of_issue. rewrite Hrule, Hd. simpl.
    apply traverse_Ok_map.
    eapply Forall_impl; [exact Hfiles|]. intros dupl Hdupl. simpl.
    rewrite (traverse_Ok_map _ ref_of); [done|].
    eapply Forall_impl; [exact Hdupl|]. intros b [name Hb]. simpl.
    unfold block_ref, ref_of. by rewrite Hb.
  - by rewrite length_fmap.
  - apply Forall2_fmap_r, Forall_Forall2_diag.
    eapply Forall_impl; [exact Hfiles|]. intros dupl Hdupl. simpl.
    repeat split.
    apply Forall2_fmap_r, Forall_Forall2_diag.
    eapply Forall_impl; [exact Hdupl|]. intros b [name Hb]. simpl.
    by rewrite Hb.
Qed.

Lemma C3_one_finding_per_duplication_witness :
  exists fs,
    findings_of_issue (Examples.env_dupl Examples.two_duplications)
      Examples.dupl_issue = Ok fs
    /\ length fs = 2%nat.
Proof.
  destruct (C3_one_finding_per_duplication
              (Examples.env_dupl Examples.two_duplications)
              Examples.dupl_issue Examples.two_duplications)
    as (fs & Hfs & Hlen & _).
  - reflexivity.
  - reflexivity.
  - repeat constructor; eexists; reflexivity.
  - exists fs. split; [exact Hfs | exact Hlen].
Defined.

(** C3 as stated fails when the two blocks the lookup reports belong to
    one duplication: the extractor then emits one finding, with two
    references. *)
Lemma C3_counterexample :
  length (concat (duplications Examples.two_blocks)) = 2%nat
  /\ exists f,
       findings_of_issue (Examples.env_dupl Examples.two_blocks)
         Examples.dupl_issue = Ok [f]
       /\ length (f_refs f) = 2%nat.
Proof. split; [reflexivity|]. eexists. split; reflexivity. Qed.

(* ===================================================================== *)
(** * The cognitive-complexity summary                                    *)
(* ===================================================================== *)

Section SummaryFacts.

Variable py : PyStr.interpreter.







End SummaryFacts.




(* ===================================================================== *)
(** * Server lifecycle                                                    *)
(* ===================================================================== *)

Section LifecycleFacts.

Implicit Types (st : SonarQube) (common : option sq_user).

Lemma feed_lines_app common st l1 l2 :
  feed_lines common st (l1 ++ l2)
  = let '(st1, e1) := feed_lines common st l1 in
    let '(st2, e2) := feed_lines common st1 l2 in
    (st2, e1 ++ e2).
Proof.
  revert st. induction l1 as [|l l1 IH]; intros st; simpl.
  - by destruct (feed_lines common st l2).
  - destruct (_start_sonarqube common st l) as [st1 e1].
    rewrite IH.
    destruct (feed_lines common st1 l1) as [st2 e2].
    destruct (feed_lines common st2 l2) as [st3 e3].
    by rewrite app_assoc.
Qed.

(** What a log line does to the state: nothing, the flag raised, or
    the switch to the shared server. *)
Lemma _start_sonarqube_cases common st line :
  let st' := fst (_start_sonarqube common st line) in
  st' = st
  \/ (model st' = model st /\ is_local_up st' = true
      /\ timeout st' = timeout st)
  \/ exists cu, common = Some cu
                /\ st' = fst (_use_common_sonarqube cu st).
Proof.
  unfold _start_sonarqube.
  destruct (is_fatal_line line).
  - destruct common as [cu|]; [|by left]. right. right. by exists cu.
  - destruct (PyStr.contains line "SonarQube is up"); [|by left].
    right. left. done.
Qed.


Lemma _start_sonarqube_consistent common st line :
  Expected.consistent st ->
  Expected.consistent (fst (_start_sonarqube common st line)).
Proof.
  intros Hc.
  destruct (_start_sonarqube_cases common st line)
    as [->|[(_ & Hup & _)|(cu & _ & ->)]]; [done|by intros _|by intros _].
Qed.

Lemma _start_sonarqube_timeout common st line :
  timeout (fst (_start_sonarqube common st line)) = timeout st.
Proof.
  destruct (_start_sonarqube_cases common st line)
    as [->|[(_ & _ & ?)|(cu & _ & ->)]]; done.
Qed.



Lemma feed_lines_consistent common st lines :
  Expected.consistent st ->
  Expected.consistent (fst (feed_lines common st lines)).
Proof.
  revert st. induction lines as [|l lines IH]; intros st Hc; [done|].
  simpl. pose proof (_start_sonarqube_consistent common st l Hc) as H1.
  destruct (_start_sonarqube common st l) as [st1 e1].
  specialize (IH st1 H1).
  by destruct (feed_lines common st1 lines).
Qed.

Lemma feed_lines_timeout common st lines :
  timeout (fst (feed_lines common st lines)) = timeout st.
Proof.
  revert st. induction lines as [|l lines IH]; intros st; [done|].
  simpl. pose proof (_start_sonarqube_timeout common st l) as H1.
  destruct (_start_sonarqube common st l) as [st1 e1].
  specialize (IH st1).
  destruct (feed_lines common st1 lines). simpl in *. congruence.
Qed.



Lemma init_consistent local windows project_id :
  Expected.consistent (init local windows project_id).
Proof. by intros ?. Qed.

Lemma choose_server_consistent common sq_type procs st :
  Expected.consistent st ->
  Expected.consistent (fst (choose_server common sq_type procs st)).
Proof.
  intros Hc. unfold choose_server.
  destruct sq_type as [ty|]; [|done].
  destruct (decide (ty = "COMMON")) as [->|Hne].
  - destruct common; [by intros _ | done].
  - repeat (case_match; try done).
Qed.

End LifecycleFacts.

(** C7. [_raise_error] runs the teardown exactly when the model is LOCAL,
    never when it is COMMON, and then raises the exception of the error
    class: CompileTaskError for [compile], ConfigError for [config],
    AnalyzeTaskError otherwise, with the message it was given. *)
Theorem C7_raise_error_teardown
    (st : SonarQube) (procs : list proc) (msg : string)
    (err_type : option string) :
  let evs := fst (_raise_error st procs msg err_type) in
  let e := snd (_raise_error st procs msg err_type) in
  (evs = [EvKillSonar (pid <$> List.find is_sonar_proc procs)]
   <-> model st = LOCAL_MODEL)
  /\ (evs = [] <-> model st = COMMON_MODEL)
  /\ (err_type = Some "compile" <-> e = CompileTaskError msg)
  /\ (err_type = Some "config" <-> e = ConfigError msg)
  /\ ((err_type <> Some "compile" /\ err_type <> Some "config")
      <-> e = AnalyzeTaskError msg)
  /\ task_error_str e = Some ("Error: " +:+ msg).
Proof.
  unfold _raise_error, _kill_sonar. cbn [fst snd].
  split; [|split].
  - destruct (model st); simpl; split; done.
  - destruct (model st); simpl; split; done.
  - destruct err_type as [ty|].
    + destruct (decide (ty = "compile")) as [->|Hc];
        [repeat split; try done; by intros [? _]|].
      destruct (decide (ty = "config")) as [->|Hg];
        [repeat split; try done; by intros [_ ?]|].
      assert (He : match ty with
                   | "compile" => CompileTaskError msg
                   | "config" => ConfigError msg
                   | _ => AnalyzeTaskError msg
                   end = AnalyzeTaskError msg).
      { repeat (case_match; try done); subst; done. }
      rewrite He. repeat split; try done; congruence.
    + repeat split; done.
Qed.




(* ===================================================================== *)
(** * The wait loops                                                      *)
(* ===================================================================== *)

Section ReadinessFacts.

Implicit Types (st : SonarQube) (common : option sq_user).

Lemma state_after_cons common st o obs :
  Expected.state_after common st (o :: obs)
  = Expected.state_after common
      (fst (feed_lines common st (so_lines o))) obs.
Proof.
  unfold Expected.state_after. rewrite fmap_cons. simpl concat.
  rewrite feed_lines_app.
  destruct (feed_lines common st (so_lines o)) as [st1 e1]. simpl.
  by destruct (feed_lines common st1 _).
Qed.

Lemma state_after_snoc common st obs o :
  Expected.state_after common st (obs ++ [o])
  = fst (feed_lines common (Expected.state_after common st obs)
           (so_lines o)).
Proof.
  revert st. induction obs as [|o' obs IH]; intros st.
  - simpl. rewrite state_after_cons. done.
  - simpl. rewrite !state_after_cons. apply IH.
Qed.

(** Passes that find the server not up within the deadline leave the
    loop running, in the state the log lines have led to. *)
Lemma wait_on_loop_continue common procs deadline st polls log pre rest :
  Forall (fun o => poll_is_up (so_call o) = false /\ so_now o <= deadline)
    pre ->
  exists log',
    wait_on_loop common procs deadline st polls log (pre ++ rest)
    = wait_on_loop common procs deadline
        (Expected.state_after common st pre) (polls + length pre) log' rest.
Proof.
  intros Hpre. revert st polls log.
  induction Hpre as [|o pre [Hdown Hnow] _ IH]; intros st polls log.
  - exists log. by rewrite Nat.add_0_r.
  - simpl. rewrite state_after_cons.
    destruct (feed_lines common st (so_lines o)) as [st1 e1]. simpl.
    rewrite Hdown. simpl.
    destruct (Z.ltb_spec deadline (so_now o)) as [?|_]; [lia|].
    destruct (IH st1 (S polls) (log ++ EvSleep (sleep_second st) :: e1))
      as [log' ->].
    exists log'. by rewrite Nat.add_succ_r.
Qed.

(** The loop ends normally only with the flag set. *)
Lemma wait_on_loop_finished common procs deadline st polls log obs st' n l :
  wait_on_loop common procs deadline st polls log obs = Finished st' n l ->
  is_local_up st' = true.
Proof.
  revert st polls log. induction obs as [|o obs IH]; intros st polls log.
  - done.
  - simpl. destruct (feed_lines common st (so_lines o)) as [st1 e1].
    destruct (deadline <? so_now o); [done|].
    destruct (poll_is_up (so_call o)); simpl; [|apply IH].
    destruct (is_local_up st1) eqn:Hup; simpl; [|apply IH].
    by intros [= <- _ _].
Qed.

End ReadinessFacts.

(** C6, as the code has it. When the status poll answers UP at the Nth
    pass and not before, the deadline has not passed at any of these N
    passes, and after the log lines read so far the model is COMMON or
    the flag of the local server is set, then the loop returns after
    exactly N polls, and is still polling after any smaller number. It
    never returns with the flag unset. *)
Theorem C6_ready_after_N_polls
    (common : option sq_user) (procs : list proc) (t0 : Z) (st : SonarQube)
    (pre : list status_obs) (o : status_obs) (rest : list status_obs) :
  Forall
    (fun o' => poll_is_up (so_call o') = false
               /\ so_now o' <= t0 + timeout st) pre ->
  poll_is_up (so_call o) = true ->
  so_now o <= t0 + timeout st ->
  Expected.consistent st ->
  let st_N := Expected.state_after common st (pre ++ [o]) in
  (model st_N = COMMON_MODEL \/ is_local_up st_N = true) ->
  (exists log,
     _wait_until_sonarqube_on common procs t0 st (pre ++ o :: rest)
     = Finished st_N (S (length pre)) log)
  /\ (forall k, (k <= length pre)%nat ->
        exists log,
          _wait_until_sonarqube_on common procs t0 st (take k pre)
          = Polling k log)
  /\ (forall obs st' n log,
        _wait_until_sonarqube_on common procs t0 st obs = Finished st' n log ->
        is_local_up st' = true).
Proof.
  intros Hpre Hup Hnow Hcons st_N Hflag.
  assert (Hflag' : is_local_up st_N = true).
  { destruct Hflag as [Hm|?]; [|done].
    by apply (feed_lines_consistent common st
                (concat (so_lines <$> (pre ++ [o]))) Hcons). }
  unfold _wait_until_sonarqube_on. split; [|split].
  - destruct (wait_on_loop_continue common procs (t0 + timeout st) st 0 []
                pre (o :: rest) Hpre) as [log' ->].
    subst st_N. rewrite state_after_snoc in *.
    simpl.
    destruct (feed_lines common _ (so_lines o)) as [st1 e1].
    simpl in Hflag'. rewrite Hup, Hflag'. simpl.
    destruct (Z.ltb_spec (t0 + timeout st) (so_now o)) as [?|_]; [lia|].
    by eexists.
  - intros k Hk.
    destruct (wait_on_loop_continue common procs (t0 + timeout st) st 0 []
                (take k pre) [] (Forall_take _ k _ Hpre)) as [log' Heq].
    rewrite app_nil_r in Heq. rewrite Heq. simpl.
    exists log'. by rewrite length_take, Nat.min_l.
  - intros obs st' n log. apply wait_on_loop_finished.
Qed.

Lemma C6_ready_after_N_polls_witness :
  exists log,
    _wait_until_sonarqube_on None [] 0 Examples.local_linux
      Examples.quick_start
    = Finished
        (Expected.state_after None Examples.local_linux Examples.quick_start)
        3 log.
Proof.
  destruct (C6_ready_after_N_polls None [] 0 Examples.local_linux
              (take 2 Examples.quick_start)
              (mk_status_obs [] (Examples.answer 200 (Some "UP")) 15) [])
    as [Hready _].
  - repeat constructor; vm_compute; congruence.
  - reflexivity.
  - vm_compute. congruence.
  - apply init_consistent.
  - right. reflexivity.
  - exact Hready.
Defined.

(** C6 as stated fails past the deadline: with the server answering UP
    at the 61st poll, five seconds apart, the loop raises at that poll;
    and a first poll that answers UP after the deadline raises as well. *)
Lemma C6_counterexample :
  (exists log,
     _wait_until_sonarqube_on None [] 0 Examples.local_windows
       Examples.slow_start
     = Failed (AnalyzeTaskError msg_wait_server) 61 log)
  /\ (exists log,
        _wait_until_sonarqube_on None [] 0 Examples.local_windows
          [mk_status_obs [] (Examples.answer 200 (Some "UP")) 301]
        = Failed (AnalyzeTaskError msg_wait_server) 1 log).
Proof. split; eexists; vm_compute; reflexivity. Qed.

Section TaskPollerFacts.

Implicit Types (st : SonarQube) (id : string).

Lemma task_log_succ st id n :
  Expected.task_log st id (S n)
  = [EvSleep (sleep_second st); EvCeTask id] ++ Expected.task_log st id n.
Proof. reflexivity. Qed.

Lemma concat_replicate_snoc {A} (x : list A) n :
  concat (replicate n x) ++ x = x ++ concat (replicate n x).
Proof.
  induction n as [|n IH]; simpl; [by rewrite app_nil_r|].
  by rewrite <- app_assoc, IH.
Qed.

Lemma task_log_snoc st id n :
  Expected.task_log st id n ++ [EvSleep (sleep_second st); EvCeTask id]
  = Expected.task_log st id (S n).
Proof. apply concat_replicate_snoc. Qed.

(** Passes without a terminal status within the deadline leave the
    loop running; each has asked for the same task id. *)
Lemma wait_task_loop_continue st procs deadline id polls log pre rest :
  forallb (Expected.task_pass_continues deadline id) pre = true ->
  wait_task_loop st procs deadline id polls log (pre ++ rest)
  = wait_task_loop st procs deadline id (polls + length pre)
      (log ++ Expected.task_log st id (length pre)) rest.
Proof.
  revert polls log. induction pre as [|o pre IH]; intros polls log Hpre.
  - simpl. by rewrite Nat.add_0_r, app_nil_r.
  - simpl in Hpre. apply andb_true_iff in Hpre as [Ho Hpre].
    unfold Expected.task_pass_continues in Ho.
    apply andb_true_iff in Ho as [Hst Hnow].
    apply negb_true_iff in Hnow.
    cbn [app wait_task_loop length]. rewrite Hnow.
    rewrite task_log_succ, app_assoc, Nat.add_succ_r.
    destruct (Api.ce_task (to_call o id)) as [t|e].
    + apply andb_true_iff in Hst as [Hs Hf].
      apply negb_true_iff in Hs, Hf. rewrite Hs, Hf.
      by apply IH.
    + by apply IH.
Qed.

Lemma read_task_id_AX1 lines l :
  lines !! 4%nat = Some l ->
  PyStr.strip l = "ceTaskId=AX1" ->
  read_task_id lines = Ok "AX1".
Proof. intros Hl Hs. unfold read_task_id. by rewrite Hl, Hs. Qed.

End TaskPollerFacts.

(** C4, as the code has it. With a report handle whose fifth line reads
    [ceTaskId=AX1], every query of the poller asks for the task [AX1].
    After passes without a terminal status, an answer SUCCESS ends the
    loop without an exception when the deadline has not passed at the
    check that follows it; an answer FAILED with the message "Java heap
    space" raises the AnalyzeTaskError of heap exhaustion, after the
    teardown of a local server. *)
Theorem C4_task_poller
    (st : SonarQube) (procs : list proc) (path : string)
    (lines : list string) (l : string) (t0 : Z)
    (pre : list task_obs) (o : task_obs) (rest : list task_obs) :
  PyStr.nonempty path = true ->
  lines !! 4%nat = Some l ->
  PyStr.strip l = "ceTaskId=AX1" ->
  forallb (Expected.task_pass_continues (t0 + timeout st) "AX1") pre = true ->
  let n := S (length pre) in
  let log :=
    EvPrint "[warning] Task ID is AX1" :: Expected.task_log st "AX1" n in
  let r :=
    _wait_until_task_succeed st procs (Some path) (Some lines) t0
      (pre ++ o :: rest) in
  (forall t,
     Api.ce_task (to_call o "AX1") = Ok t ->
     t_status t = "SUCCESS" ->
     to_now o <= t0 + timeout st ->
     r = Finished tt n log)
  /\ (forall t,
        Api.ce_task (to_call o "AX1") = Ok t ->
        t_status t = "FAILED" ->
        t_errorMessage t = Some "Java heap space" ->
        r = Failed (AnalyzeTaskError msg_heap) n
              (log ++ if model_eqb (model st) LOCAL_MODEL
                      then _kill_sonar procs else [])).
Proof.
  intros Hpath Hl Hstrip Hpre n log r.
  assert (Hr : r = wait_task_loop st procs (t0 + timeout st) "AX1"
                     (length pre)
                     (EvPrint "[warning] Task ID is AX1"
                        :: Expected.task_log st "AX1" (length pre))
                     (o :: rest)).
  { subst r. unfold _wait_until_task_succeed. rewrite Hpath.
    cbn [negb from_option id]. rewrite (read_task_id_AX1 lines l Hl Hstrip).
    by rewrite wait_task_loop_continue. }
  assert (Hlog : (EvPrint "[warning] Task ID is AX1"
                    :: Expected.task_log st "AX1" (length pre))
                 ++ [EvSleep (sleep_second st); EvCeTask "AX1"] = log).
  { subst log n. by rewrite <- app_comm_cons, task_log_snoc. }
  split.
  - intros t Ht Hs Hnow. rewrite Hr. cbn [wait_task_loop].
    rewrite Ht, Hs, Hlog. cbn [String.eqb].
    destruct (Z.ltb_spec (t0 + timeout st) (to_now o)) as [?|_]; [lia|].
    done.
  - intros t Ht Hs Hm. rewrite Hr. cbn [wait_task_loop].
    rewrite Ht, Hs, Hlog.
    replace (String.eqb "FAILED" "FAILED") with true by reflexivity.
    cbv iota beta. rewrite Hm. done.
Qed.

Lemma C4_task_poller_witness :
  _wait_until_task_succeed Examples.local_linux [Examples.java_proc]
    (Some "/data/src/.scannerwork/report-task.txt")
    (Some Examples.report_task) 0
    [Examples.task_answer "PENDING" None 5;
     Examples.task_answer "IN_PROGRESS" None 10;
     Examples.task_answer "SUCCESS" None 15]
  = Finished tt 3
      (EvPrint "[warning] Task ID is AX1"
         :: Expected.task_log Examples.local_linux "AX1" 3)
  /\ _wait_until_task_succeed Examples.local_linux [Examples.java_proc]
       (Some "/data/src/.scannerwork/report-task.txt")
       (Some Examples.report_task) 0
       [Examples.task_answer "PENDING" None 5;
        Examples.task_answer "FAILED" (Some "Java heap space") 10]
     = Failed (AnalyzeTaskError msg_heap) 2
         (EvPrint "[warning] Task ID is AX1"
            :: Expected.task_log Examples.local_linux "AX1" 2
            ++ [EvKillSonar (Some 4711)]).
Proof.
  split.
  - apply (proj1 (C4_task_poller Examples.local_linux [Examples.java_proc]
                    "/data/src/.scannerwork/report-task.txt"
                    Examples.report_task ("ceTaskId=AX1" +:+ nl) 0
                    [Examples.task_answer "PENDING" None 5;
                     Examples.task_answer "IN_PROGRESS" None 10]
                    (Examples.task_answer "SUCCESS" None 15) []
                    eq_refl eq_refl eq_refl eq_refl)
             (mk_task "SUCCESS" None)).
    + reflexivity.
    + reflexivity.
    + vm_compute. congruence.
  - apply (proj2 (C4_task_poller Examples.local_linux [Examples.java_proc]
                    "/data/src/.scannerwork/report-task.txt"
                    Examples.report_task ("ceTaskId=AX1" +:+ nl) 0
                    [Examples.task_answer "PENDING" None 5]
                    (Examples.task_answer "FAILED" (Some "Java heap space") 10)
                    [] eq_refl eq_refl eq_refl eq_refl)
             (mk_task "FAILED" (Some "Java heap space"))).
    + reflexivity.
    + reflexivity.
    + reflexivity.
Defined.

(** C4 as stated fails for SUCCESS past the deadline: the loop tests the
    deadline after every answer, and raises the timeout error although
    the task has succeeded. *)
Lemma C4_counterexample :
  _wait_until_task_succeed Examples.local_linux [Examples.java_proc]
    (Some "/data/src/.scannerwork/report-task.txt")
    (Some Examples.report_task) 0
    [Examples.task_answer "SUCCESS" None 301]
  = Failed (AnalyzeTaskError msg_wait_task) 1
      [EvPrint "[warning] Task ID is AX1"; EvSleep 5; EvCeTask "AX1";
       EvKillSonar (Some 4711)].
Proof. vm_compute. reflexivity. Qed.

Section TransportFacts.

Context {B : Type}.
Implicit Types r : Api.http_response B.

Lemma classify_success r :
  Api.status_code r < 300 -> Api.classify r = Ok r.
Proof.
  intros H. unfold Api.classify.
  by destruct (Z.ltb_spec (Api.status_code r) 300); [|lia].
Qed.

Lemma classify_400 r :
  Api.status_code r = 400 ->
  Api.classify r = Raise (ValidationError (PyStr.join ", " (Api.errors r))).
Proof. intros H. unfold Api.classify. by rewrite H. Qed.

Lemma classify_auth r :
  Api.status_code r = 401 \/ Api.status_code r = 403 ->
  Api.classify r = Raise (AuthError (Api.reason r)).
Proof. intros [H|H]; unfold Api.classify; by rewrite H. Qed.

Lemma classify_client r :
  300 <= Api.status_code r < 500 ->
  Api.status_code r <> 400 ->
  Api.status_code r <> 401 ->
  Api.status_code r <> 403 ->
  Api.classify r = Raise (ClientError (Api.reason r)).
Proof.
  intros H H0 H1 H3. unfold Api.classify.
  destruct (Z.ltb_spec (Api.status_code r) 300); [lia|].
  destruct (Z.eqb_spec (Api.status_code r) 400); [lia|].
  destruct (Z.eqb_spec (Api.status_code r) 401); [lia|].
  destruct (Z.eqb_spec (Api.status_code r) 403); [lia|].
  simpl. by destruct (Z.ltb_spec (Api.status_code r) 500); [|lia].
Qed.

Lemma classify_server r :
  500 <= Api.status_code r ->
  Api.classify r = Raise (ServerError (Api.reason r)).
Proof.
  intros H. unfold Api.classify.
  destruct (Z.ltb_spec (Api.status_code r) 300); [lia|].
  destruct (Z.eqb_spec (Api.status_code r) 400); [lia|].
  destruct (Z.eqb_spec (Api.status_code r) 401); [lia|].
  destruct (Z.eqb_spec (Api.status_code r) 403); [lia|].
  simpl. by destruct (Z.ltb_spec (Api.status_code r) 500); [lia|].
Qed.

End TransportFacts.

(** C5, as the code has it. The transport layer passes a status below
    300 through and raises ValidationError for 400, AuthError for 401 and
    403, ClientError for every other status from 300 to 499 and
    ServerError from 500 on. Project creation returns after a first call
    that the server accepts, and returns again after a second call that
    the server answers with 400: the ValidationError counts as created.
    Each time the deadline must not have passed at the check after the
    call: past the deadline the loop raises the timeout error although
    the call counted as created. *)
Theorem C5_project_creation_twice
    {B : Type} (st : SonarQube) (procs : list proc) (t0 t1 : Z)
    (o1 o2 : create_obs B) (rest1 rest2 : list (create_obs B))
    (r1 r2 : Api.http_response B) :
  co_call o1 (projectKey st) = Ok r1 ->
  Api.status_code r1 < 300 ->
  co_now o1 <= t0 + timeout st ->
  co_call o2 (projectKey st) = Ok r2 ->
  Api.status_code r2 = 400 ->
  co_now o2 <= t1 + timeout st ->
  _wait_until_project_create st procs t0 (o1 :: rest1) = Finished tt 1 []
  /\ Api._request (co_call o2 (projectKey st))
     = Raise (ValidationError (PyStr.join ", " (Api.errors r2)))
  /\ _wait_until_project_create st procs t1 (o2 :: rest2) = Finished tt 1 []
  /\ (forall t : Z,
        t + timeout st < co_now o2 ->
        _wait_until_project_create st procs t (o2 :: rest2)
        = Failed (AnalyzeTaskError msg_wait_project) 1
            (if model_eqb (model st) LOCAL_MODEL then _kill_sonar procs
             else []))
  /\ (forall r : Api.http_response B,
        (Api.status_code r < 300 -> Api.classify r = Ok r)
        /\ (Api.status_code r = 400 ->
            Api.classify r
            = Raise (ValidationError (PyStr.join ", " (Api.errors r))))
        /\ (Api.status_code r = 401 \/ Api.status_code r = 403 ->
            Api.classify r = Raise (AuthError (Api.reason r)))
        /\ (300 <= Api.status_code r < 500 ->
            Api.status_code r <> 400 ->
            Api.status_code r <> 401 -> Api.status_code r <> 403 ->
            Api.classify r = Raise (ClientError (Api.reason r)))
        /\ (500 <= Api.status_code r ->
            Api.classify r = Raise (ServerError (Api.reason r)))).
Proof.
  intros Hc1 Hs1 Hn1 Hc2 Hs2 Hn2.
  split_and!.
  - unfold _wait_until_project_create. cbn [wait_create_loop].
    unfold Api.project_create, Api.json_endpoint, Api._request.
    rewrite Hc1. simpl. rewrite (classify_success r1 Hs1). simpl.
    by destruct (Z.ltb_spec (t0 + timeout st) (co_now o1)); [lia|].
  - unfold Api._request. rewrite Hc2. simpl. by apply classify_400.
  - unfold _wait_until_project_create. cbn [wait_create_loop].
    unfold Api.project_create, Api.json_endpoint, Api._request.
    rewrite Hc2. simpl. rewrite (classify_400 r2 Hs2). simpl.
    by destruct (Z.ltb_spec (t1 + timeout st) (co_now o2)); [lia|].
  - intros t Ht.
    unfold _wait_until_project_create. cbn [wait_create_loop].
    unfold Api.project_create, Api.json_endpoint, Api._request.
    rewrite Hc2. simpl. rewrite (classify_400 r2 Hs2). simpl.
    destruct (Z.ltb_spec (t + timeout st) (co_now o2)); [|lia].
    unfold _raise_error. by destruct (model_eqb _ _).
  - intros r. split_and!.
    + apply classify_success.
    + apply classify_400.
    + apply classify_auth.
    + intros. by apply classify_client.
    + apply classify_server.
Qed.

Lemma C5_project_creation_twice_witness :
  _wait_until_project_create Examples.local_linux [Examples.java_proc] 0
    [Examples.create_answer 200 [] 1] = Finished tt 1 []
  /\ _wait_until_project_create Examples.local_linux [Examples.java_proc]
       100
       [Examples.create_answer 400
          ["Could not create Project, key already exists: test"] 101]
     = Finished tt 1 []
  /\ _wait_until_project_create Examples.local_linux [Examples.java_proc]
       (-300)
       [Examples.create_answer 400
          ["Could not create Project, key already exists: test"] 101]
     = Failed (AnalyzeTaskError msg_wait_project) 1
         [EvKillSonar (Some 4711)]
  /\ Api.classify (Api.mk_response 302 "Found" [] tt)
     = Raise (ClientError "Found").
Proof.
  destruct (C5_project_creation_twice Examples.local_linux
              [Examples.java_proc] 0 100
              (Examples.create_answer 200 [] 1)
              (Examples.create_answer 400
                 ["Could not create Project, key already exists: test"] 101)
              [] []
              (Api.mk_response 200 "" [] tt)
              (Api.mk_response 400 ""
                 ["Could not create Project, key already exists: test"] tt))
    as (H1 & _ & H2 & H3 & H4).
  - reflexivity.
  - reflexivity.
  - vm_compute. congruence.
  - reflexivity.
  - reflexivity.
  - vm_compute. congruence.
  - split_and!; [exact H1 | exact H2 | |].
    + apply (H3 (-300)). reflexivity.
    + apply (H4 (Api.mk_response 302 "Found" [] tt)).
      * vm_compute. split; congruence.
      * discriminate.
      * discriminate.
      * discriminate.
Defined.

(** C5 as stated fails past the deadline: the second call is answered
    with 400 and counted as created, and the deadline test that follows
    raises all the same. *)
Lemma C5_counterexample :
  _wait_until_project_create Examples.local_linux [Examples.java_proc] 100
    [Examples.create_answer 400
       ["Could not create Project, key already exists: test"] 401]
  = Failed (AnalyzeTaskError msg_wait_project) 1 [EvKillSonar (Some 4711)].
Proof. vm_compute. reflexivity. Qed.

(* ===================================================================== *)
(** * Quality profiles                                                    *)
(* ===================================================================== *)

Section ProfileFacts.

Variable cfg : string -> string -> res (list (string * string)).
Implicit Types (d : gmap string string) (ps : list parameter)
  (r : rule_elem) (doc : profile_doc) (fs : gmap string profile_doc).

Lemma override_parameters_lookup d ps (k : nat) :
  override_parameters d ps !! k = Expected.overridden d <$> ps !! k.
Proof.
  unfold override_parameters.
  change (List.map ?f ps) with (f <$> ps). rewrite list_lookup_fmap.
  destruct (ps !! k) as [pa|]; [|done]. simpl.
  unfold Expected.overridden. by destruct (d !! p_key pa); [|destruct pa].
Qed.

Lemma override_parameters_keys d ps :
  p_key <$> override_parameters d ps = p_key <$> ps.
Proof.
  induction ps as [|pa ps IH]; [done|].
  unfold override_parameters in *. cbn [List.map].
  rewrite !fmap_cons, IH. f_equal. by destruct (d !! p_key pa).
Qed.

Lemma override_parameters_empty ps : override_parameters ∅ ps = ps.
Proof.
  induction ps as [|pa ps IH]; [done|].
  unfold override_parameters in *. cbn [List.map].
  by rewrite lookup_empty, IH.
Qed.

(** A rule that stays keeps its name and is allowed; its parameters
    are those of the document under some override map. *)
Lemma process_rule_kept rules rule_list r r' :
  process_rule cfg rules rule_list r = Ok (Some r') ->
  mem (real_name r) rules = true
  /\ repositoryKey r' = repositoryKey r /\ r_key r' = r_key r
  /\ exists d,
       parameters r' = override_parameters d (parameters r)
       /\ (d = ∅
           \/ exists rule_param cfg_string,
                find_rule_param rule_list (real_name r) = Some rule_param
                /\ ConfigReader_read cfg cfg_string "sq" = Ok d).
Proof.
  unfold process_rule.
  destruct (mem (real_name r) rules) eqn:Hmem; [|done]. simpl.
  assert (Hsame : forall r0, Some r = Some r0 ->
    true = true /\ repositoryKey r0 = repositoryKey r /\ r_key r0 = r_key r
    /\ exists d, parameters r0 = override_parameters d (parameters r)
         /\ (d = ∅
             \/ exists rule_param cfg_string,
                  find_rule_param rule_list (real_name r) = Some rule_param
                  /\ ConfigReader_read cfg cfg_string "sq" = Ok d)).
  { intros r0 [= <-]. repeat split. exists ∅.
    split; [by rewrite override_parameters_empty | by left]. }
  destruct (find_rule_param rule_list (real_name r)) as [rp|] eqn:Hfind;
    [|intros [= <-]; by apply Hsame].
  destruct (PyStr.nonempty rp); simpl; [|intros [= <-]; by apply Hsame].
  match goal with
  | |- context [ConfigReader_read cfg ?s "sq"] =>
      destruct (ConfigReader_read cfg s "sq") as [d|e] eqn:Hread; [|done];
      set (cfg_string := s) in *
  end.
  simpl. destruct (decide (d = ∅)); [intros [= <-]; by apply Hsame|].
  intros [= <-]. simpl. repeat split. exists d. split; [done|].
  right. by exists rp, cfg_string.
Qed.

Lemma process_rule_removed rules rule_list r :
  process_rule cfg rules rule_list r = Ok None ->
  mem (real_name r) rules = false.
Proof.
  unfold process_rule.
  destruct (mem (real_name r) rules); [|done]. simpl.
  destruct (find_rule_param rule_list (real_name r)) as [rp|]; [|done].
  destruct (PyStr.nonempty rp); simpl; [|done].
  destruct (ConfigReader_read cfg _ "sq") as [d|e]; [|done].
  simpl. by destruct (decide (d = ∅)).
Qed.

(** The rules of the document written are the allowed rules of the
    document read, in their order. *)
Lemma process_doc_names rules rule_list doc doc' :
  process_doc cfg rules rule_list doc = Ok doc' ->
  real_name <$> pd_rules doc'
  = List.filter (fun n => mem n rules) (real_name <$> pd_rules doc).
Proof.
  unfold process_doc.
  destruct (traverse _ (pd_rules doc)) as [rs|e] eqn:Hrs; [|done].
  simpl. intros [= <-]. simpl.
  apply traverse_Ok_Forall2 in Hrs.
  induction Hrs as [|r o l rs Hr _ IH]; [done|].
  rewrite fmap_cons. cbn [List.filter].
  destruct o as [r'|]; simpl.
  - apply process_rule_kept in Hr as (Hmem & Hk1 & Hk2 & _).
    rewrite Hmem. unfold real_name at 1. rewrite Hk1, Hk2.
    fold (real_name r). by f_equal.
  - apply process_rule_removed in Hr. by rewrite Hr.
Qed.

Lemma process_doc_allowed rules rule_list doc doc' :
  process_doc cfg rules rule_list doc = Ok doc' ->
  Expected.all_allowed rules doc'.
Proof.
  intros H. apply process_doc_names in H.
  unfold Expected.all_allowed. rewrite Forall_forall. intros r Hr.
  assert (Hin : In (real_name r)
                  (List.filter (fun n => mem n rules)
                     (real_name <$> pd_rules doc))).
  { rewrite <- H. apply list_elem_of_In. by apply list_elem_of_fmap_2. }
  by apply filter_In in Hin as [_ ?].
Qed.

(** A document that has only allowed rules still has only allowed
    rules after the loop, which may have filtered it again. *)
Lemma filter_profiles_keeps rules rule_list paths fs fs' path doc :
  filter_profiles cfg rules rule_list paths fs = Ok fs' ->
  fs !! path = Some doc -> Expected.all_allowed rules doc ->
  exists doc', fs' !! path = Some doc' /\ Expected.all_allowed rules doc'.
Proof.
  revert fs doc. induction paths as [|[lang p] paths IH]; intros fs doc.
  - intros [= <-] ??. by exists doc.
  - cbn [filter_profiles].
    destruct (negb _); [apply IH|].
    destruct (read_doc fs p) as [d0|e]; [|done]. simpl.
    destruct (process_doc cfg rules rule_list d0) as [d1|e] eqn:Hd1; [|done].
    simpl. intros Hrest Hdoc Hall.
    destruct (decide (p = path)) as [->|Hne].
    + eapply IH; [exact Hrest | apply lookup_insert_eq |].
      by eapply process_doc_allowed.
    + eapply IH; [exact Hrest | by rewrite lookup_insert_ne | done].
Qed.

(** After the loop every kept path with the suffix of the default
    profiles holds a document with only allowed rules. *)
Lemma filter_profiles_allowed rules rule_list paths fs fs' lang path :
  filter_profiles cfg rules rule_list paths fs = Ok fs' ->
  (lang, path) ∈ paths ->
  PyStr.endswith (PyStr.lower path) profile_suffix = true ->
  exists doc', fs' !! path = Some doc' /\ Expected.all_allowed rules doc'.
Proof.
  revert fs. induction paths as [|[l0 p0] paths IH]; intros fs.
  - intros _ Hin. by apply elem_of_nil in Hin.
  - cbn [filter_profiles]. intros Hrun Hin Hsuf.
    apply elem_of_cons in Hin as [[= <- <-]|Hin].
    + rewrite Hsuf in Hrun. cbn [negb] in Hrun.
      destruct (read_doc fs path) as [d0|e]; [|done]. simpl in Hrun.
      destruct (process_doc cfg rules rule_list d0) as [d1|e] eqn:Hd1;
        [|done].
      simpl in Hrun.
      eapply filter_profiles_keeps;
        [exact Hrun | apply lookup_insert_eq |].
      by eapply process_doc_allowed.
    + destruct (negb _); [by eapply IH|].
      destruct (read_doc fs p0) as [d0|e]; [|done]. simpl in Hrun.
      destruct (process_doc cfg rules rule_list d0) as [d1|e]; [|done].
      simpl in Hrun. by eapply IH.
Qed.

(** What is published is what the disk holds for a kept path. *)
Lemma publish_elem paths fs pubs pb :
  publish paths fs = Ok pubs -> pb ∈ pubs ->
  (pub_lang pb, pub_path pb) ∈ paths
  /\ fs !! pub_path pb = Some (pub_doc pb).
Proof.
  unfold publish. intros H. apply traverse_Ok_Forall2 in H.
  induction H as [|[lang path] pb' l pubs' Hx _ IH]; intros Hin.
  - by apply elem_of_nil in Hin.
  - apply elem_of_cons in Hin as [->|Hin].
    + unfold read_doc in Hx.
      destruct (fs !! path) as [d|] eqn:Hd; [|done]. simpl in Hx.
      injection Hx as <-. simpl. split; [by left | done].
    + destruct (IH Hin) as [? ?]. split; [by right | done].
Qed.

(** The lookup in the rule list takes the first entry of the name. *)
Lemma find_rule_param_first name (pre : list rule_info) ri post :
  Forall (fun x => ri_name x <> name) pre ->
  ri_name ri = name ->
  find_rule_param (pre ++ ri :: post) name = ri_params ri.
Proof.
  intros Hpre Hri. unfold find_rule_param.
  induction Hpre as [|x pre Hx _ IH]; cbn [app List.find].
  - by rewrite (proj2 (String.eqb_eq _ _) Hri).
  - by rewrite (proj2 (String.eqb_neq _ _) Hx).
Qed.

Lemma find_rule_param_none name (rule_list : list rule_info) :
  Forall (fun x => ri_name x <> name) rule_list ->
  find_rule_param rule_list name = None.
Proof.
  intros Hall. unfold find_rule_param.
  induction Hall as [|x l Hx _ IH]; cbn [List.find]; [done|].
  by rewrite (proj2 (String.eqb_neq _ _) Hx).
Qed.

Lemma filter_filter {A} (f : A -> bool) (l : list A) :
  List.filter f (List.filter f l) = List.filter f l.
Proof.
  induction l as [|x l IH]; [done|]. simpl.
  destruct (f x) eqn:Hx; simpl; by rewrite ?Hx, IH.
Qed.

Lemma process_doc_filtered rules rule_list doc doc' :
  process_doc cfg rules rule_list doc = Ok doc' ->
  Expected.filtered rules doc doc'.
Proof.
  intros H. split_and!; [| |by eapply process_doc_names].
  - unfold process_doc in H.
    destruct (traverse _ (pd_rules doc)); [|done]. by injection H as <-.
  - unfold process_doc in H.
    destruct (traverse _ (pd_rules doc)); [|done]. by injection H as <-.
Qed.

Lemma filtered_trans rules (doc1 doc2 doc3 : profile_doc) :
  Expected.filtered rules doc1 doc2 -> Expected.filtered rules doc2 doc3 ->
  Expected.filtered rules doc1 doc3.
Proof.
  intros (Hn1 & Hl1 & Hr1) (Hn2 & Hl2 & Hr2). split_and!; [congruence..|].
  by rewrite Hr2, Hr1, filter_filter.
Qed.

(** What the loop over the kept paths leaves on disk: a document comes
    from the one that was there, as it was under a path of another
    ending, and filtered under a kept path that ends as the default
    profiles do. *)
Lemma filter_profiles_spec rules rule_list paths fs fs' path doc' :
  filter_profiles cfg rules rule_list paths fs = Ok fs' ->
  fs' !! path = Some doc' ->
  exists doc,
    fs !! path = Some doc
    /\ (doc' = doc \/ Expected.filtered rules doc doc')
    /\ (PyStr.endswith (PyStr.lower path) profile_suffix = false ->
        doc' = doc)
    /\ (PyStr.endswith (PyStr.lower path) profile_suffix = true ->
        (exists lang, (lang, path) ∈ paths) ->
        Expected.filtered rules doc doc').
Proof.
  revert fs. induction paths as [|[lang p] paths IH]; intros fs.
  - intros [= <-] Hdoc. exists doc'. split_and!; [done|by left|done|].
    intros _ [l Hl]. by apply elem_of_nil in Hl.
  - cbn [filter_profiles].
    destruct (PyStr.endswith (PyStr.lower p) profile_suffix) eqn:Hp;
      cbn [negb].
    + destruct (read_doc fs p) as [d0|e] eqn:Hd0; [|done]. simpl.
      destruct (process_doc cfg rules rule_list d0) as [d1|e] eqn:Hd1;
        [|done].
      simpl. intros Hrest Hdoc.
      destruct (IH _ Hrest Hdoc) as (doc1 & H1 & Hor & Hno & Hyes).
      apply process_doc_filtered in Hd1.
      unfold read_doc in Hd0.
      destruct (fs !! p) as [d0'|] eqn:Hfs; [|done]. injection Hd0 as ->.
      destruct (decide (p = path)) as [->|Hne].
      * rewrite lookup_insert_eq in H1. injection H1 as <-.
        assert (Hf : Expected.filtered rules d0 doc').
        { destruct Hor as [->|Hor]; [done|by eapply filtered_trans]. }
        exists d0. split_and!; [done|by right|congruence|done].
      * rewrite lookup_insert_ne in H1 by done.
        exists doc1. split_and!; [done|done|done|].
        intros Hs [l Hl]. apply Hyes; [done|]. exists l.
        apply elem_of_cons in Hl as [[= _ ->]|Hl]; done.
    + intros Hrest Hdoc.
      destruct (IH _ Hrest Hdoc) as (doc1 & H1 & Hor & Hno & Hyes).
      exists doc1. split_and!; [done|done|done|].
      intros Hs [l Hl]. apply Hyes; [done|]. exists l.
      apply elem_of_cons in Hl as [[= _ ->]|Hl]; [congruence|done].
Qed.

End ProfileFacts.

(** C2, as the code has it. The loop that filters the kept documents
    touches only a path that ends with [_SonarQube_Profile.xml], whatever
    the case of its letters. A document published from such a path has
    the name and the language of the document that was kept there, and
    for rules exactly the allowed rules of that document, in their
    order, so every rule of it is in the allowed set: a default profile
    with R1, R2, R3 and R1, R3 allowed is published with exactly R1 and
    R3. A document kept under a path of another ending, as those of a
    build type and most of those the user supplies are, is published as
    it was kept. *)
Theorem C2_published_rules_allowed
    (cfg : string -> string -> res (list (string * string)))
    (st : SonarQube) (procs : list proc) (env : profile_env)
    (fs : gmap string profile_doc) (evs : list event)
    (pubs : list published) :
  _set_qualityprofiles cfg st procs env fs = (evs, Ok pubs) ->
  exists paths2 fs2,
    Expected.defaults_and_typed env fs = Ok (paths2, fs2)
    /\ forall pb,
         pb ∈ pubs ->
         exists doc,
           fs2 !! pub_path pb = Some doc
           /\ if PyStr.endswith (PyStr.lower (pub_path pb)) profile_suffix
              then
                pd_name (pub_doc pb) = pd_name doc
                /\ pd_language (pub_doc pb) = pd_language doc
                /\ real_name <$> pd_rules (pub_doc pb)
                   = List.filter (fun n => mem n (pe_rules env))
                       (real_name <$> pd_rules doc)
                /\ (forall r,
                      r ∈ pd_rules (pub_doc pb) ->
                      mem (real_name r) (pe_rules env) = true)
              else pub_doc pb = doc.
Proof.
  intros Hrun.
  unfold _set_qualityprofiles in Hrun. cbv zeta in Hrun.
  change ('(paths, fs1) ←
            add_defaults (pe_profiles_path env)
              (get_dir_files (pe_tool_profiles env) profile_suffix) [] fs;
          match SONAR_QUALITYPROFILE_TYPE env with
          | None => Ok (paths, fs1)
          | Some ty =>
              add_typed (pe_profiles_path env)
                (PyStr.split "," (pe_languages env))
                (get_dir_files (pe_tool_profiles env)
                   (PyStr.lower ("_" +:+ ty +:+ ".xml")))
                paths fs1
          end)
    with (Expected.defaults_and_typed env fs) in Hrun.
  destruct (Expected.defaults_and_typed env fs) as [[paths2 fs2]|e];
    [|done].
  exists paths2, fs2. split; [done|]. intros pb Hpb.
  match type of Hrun with
  | (let '(_, _) := ?u in _) = _ => destruct u as [evs' [paths3|e]]
  end; [|done].
  injection Hrun as _ Hrun. simpl in Hrun.
  destruct (filter_profiles cfg _ _ paths3 fs2) as [fs3|e] eqn:Hfilter;
    [|done].
  simpl in Hrun.
  destruct (publish_elem _ _ _ _ Hrun Hpb) as [Hin Hdoc].
  destruct (filter_profiles_spec cfg _ _ _ _ _ _ _ Hfilter Hdoc)
    as (doc & Hfs2 & _ & Hno & Hyes).
  exists doc. split; [done|].
  destruct (PyStr.endswith (PyStr.lower (pub_path pb)) profile_suffix);
    [|by apply Hno].
  destruct (Hyes eq_refl) as (Hn & Hl & Hr); [by exists (pub_lang pb)|].
  split_and!; [done..|].
  intros r Hr'.
  assert (Hmem : In (real_name r)
                   (List.filter (fun n => mem n (pe_rules env))
                      (real_name <$> pd_rules doc))).
  { rewrite <- Hr. apply list_elem_of_In. by apply list_elem_of_fmap_2. }
  by apply filter_In in Hmem as [_ ?].
Qed.

Lemma C2_published_rules_allowed_witness :
  let pb :=
    mk_published "java" "/task/workdir/profiles/java_SonarQube_Profile.xml"
      (mk_doc "TCA java" "java"
         [Examples.R1;
          mk_rule "java" "S3776"
            [mk_parameter "Threshold" "20";
             mk_parameter "format" "^[a-z]+$"]]) in
  _set_qualityprofiles Examples.ini_items Examples.local_linux []
    Examples.env_default Examples.disk = ([], Ok [pb])
  /\ (forall r,
        r ∈ pd_rules (pub_doc pb) ->
        mem (real_name r) (pe_rules Examples.env_default) = true)
  /\ exists doc,
       real_name <$> pd_rules doc = ["java:S100"; "java:S101"; "java:S3776"]
       /\ real_name <$> pd_rules (pub_doc pb)
          = List.filter (fun n => mem n (pe_rules Examples.env_default))
              (real_name <$> pd_rules doc).
Proof.
  intros pb.
  assert (Hrun : _set_qualityprofiles Examples.ini_items Examples.local_linux
                   [] Examples.env_default Examples.disk = ([], Ok [pb]))
    by (vm_compute; reflexivity).
  destruct (C2_published_rules_allowed Examples.ini_items
              Examples.local_linux [] Examples.env_default Examples.disk
              [] [pb] Hrun) as (paths2 & fs2 & H12 & Hpubs).
  destruct (Hpubs pb) as (doc & Hdoc & Hcase); [by left|].
  assert (H12' : Expected.defaults_and_typed Examples.env_default
                   Examples.disk
                 = Ok ([("java",
                         "/task/workdir/profiles/java_SonarQube_Profile.xml")],
                       <["/task/workdir/profiles/java_SonarQube_Profile.xml"
                         := mk_doc "TCA java" "java"
                              [Examples.R1; Examples.R2; Examples.R3]]>
                         Examples.disk))
    by (vm_compute; exact eq_refl).
  rewrite H12' in H12. injection H12 as <- <-.
  change (PyStr.endswith (PyStr.lower (pub_path pb)) profile_suffix)
    with true in Hcase.
  destruct Hcase as (_ & _ & Hrules & Hall).
  split; [exact Hrun|]. split; [exact Hall|].
  exists doc. split; [|exact Hrules].
  change (pub_path pb)
    with "/task/workdir/profiles/java_SonarQube_Profile.xml" in Hdoc.
  rewrite lookup_insert_eq in Hdoc. by injection Hdoc as <-.
Defined.

(** C2 as stated fails for a document of the user and for one of a
    build type: neither path ends with [_SonarQube_Profile.xml], and
    both are published with the rule [java:S101], which is not allowed. *)
Lemma C2_counterexample :
  (exists pb,
     _set_qualityprofiles Examples.ini_items Examples.local_linux []
       Examples.env_user Examples.disk = ([], Ok [pb])
     /\ pub_path pb = Examples.user_path
     /\ pd_rules (pub_doc pb) = [Examples.R2; Examples.R3]
     /\ mem (real_name Examples.R2) (pe_rules Examples.env_user) = false)
  /\ (exists pb,
        _set_qualityprofiles Examples.ini_items Examples.local_linux []
          Examples.env_typed Examples.disk = ([], Ok [pb])
        /\ pub_path pb = "/task/workdir/profiles/java_strict.xml"
        /\ pd_rules (pub_doc pb) = [Examples.R1; Examples.R2]
        /\ mem (real_name Examples.R2) (pe_rules Examples.env_typed) = false).
Proof.
  split; eexists; (split; [vm_compute; reflexivity|]); repeat split.
Qed.

(** C10. A rule that stays in the document keeps its [parameter]
    elements, in their order and with their keys: none is added for an
    override key that the rule does not have. The overrides of a rule
    are those of the first entry of the rule list that has the name of
    the rule: without such an entry, or when that entry has no
    parameters, the elements keep their values; with parameters, the
    value of an element is the override for its key when the map read
    from them has one, and the value of the document otherwise. *)
Theorem C10_parameter_override_frame
    (cfg : string -> string -> res (list (string * string)))
    (rules : list string) (rule_list : list rule_info) (r r' : rule_elem) :
  process_rule cfg rules rule_list r = Ok (Some r') ->
  p_key <$> parameters r' = p_key <$> parameters r
  /\ (Forall (fun ri => ri_name ri <> real_name r) rule_list ->
      parameters r' = parameters r)
  /\ (forall pre ri post,
        rule_list = pre ++ ri :: post ->
        Forall (fun x => ri_name x <> real_name r) pre ->
        ri_name ri = real_name r ->
        match ri_params ri with
        | None => parameters r' = parameters r
        | Some rule_param =>
            if PyStr.nonempty rule_param then
              exists d : gmap string string,
                ConfigReader_read cfg
                  (if PyStr.contains rule_param "[sq]" then rule_param
                   else "[sq]" +:+ nl +:+ rule_param)
                  "sq" = Ok d
                /\ (forall k : nat,
                      parameters r' !! k
                      = Expected.overridden d <$> parameters r !! k)
                /\ (forall (k : nat) pa,
                      parameters r !! k = Some pa ->
                      d !! p_key pa = None ->
                      parameters r' !! k = Some pa)
                /\ (forall (k : nat) pa v,
                      parameters r !! k = Some pa ->
                      d !! p_key pa = Some v ->
                      parameters r' !! k
                      = Some (mk_parameter (p_key pa) v))
            else parameters r' = parameters r
        end).
Proof.
  intros H.
  assert (Hkeys : p_key <$> parameters r' = p_key <$> parameters r).
  { apply process_rule_kept in H as (_ & _ & _ & d & -> & _).
    apply override_parameters_keys. }
  unfold process_rule in H.
  destruct (mem (real_name r) rules); [|done]. cbn [negb] in H.
  split_and!; [exact Hkeys| |].
  - intros Hall. rewrite (find_rule_param_none _ _ Hall) in H.
    by injection H as <-.
  - intros pre ri post Hl Hpre Hri.
    rewrite Hl, (find_rule_param_first _ pre ri post Hpre Hri) in H.
    destruct (ri_params ri) as [rp|]; [|by injection H as <-].
    destruct (PyStr.nonempty rp); cbn [negb] in H; [|by injection H as <-].
    cbv zeta in H.
    destruct (ConfigReader_read cfg _ "sq") as [d|e] eqn:Hread; [|done].
    exists d. split; [done|]. cbn [mbind res_bind] in H.
    assert (Hps : parameters r' = override_parameters d (parameters r)).
    { destruct (decide (d = ∅)) as [->|Hne].
      - injection H as <-. by rewrite override_parameters_empty.
      - by injection H as <-. }
    rewrite Hps. split_and!.
    + apply override_parameters_lookup.
    + intros k pa Hk Hno. rewrite override_parameters_lookup, Hk. simpl.
      unfold Expected.overridden. rewrite Hno. by destruct pa.
    + intros k pa v Hk Hsome. rewrite override_parameters_lookup, Hk.
      simpl. unfold Expected.overridden. by rewrite Hsome.
Qed.

Lemma C10_parameter_override_frame_witness :
  let rule_list :=
    [ mk_rule_info "java:S100" (Some ("format=^[A-Z]+$"));
      mk_rule_info "java:S3776" (Some ("Threshold=20" +:+ nl +:+ "max=3"));
      mk_rule_info "java:S3776" (Some "Threshold=99") ] in
  process_rule Examples.ini_items ["java:S100"; "java:S3776"] rule_list
    Examples.R3
  = Ok (Some (mk_rule "java" "S3776"
                [mk_parameter "Threshold" "20";
                 mk_parameter "format" "^[a-z]+$"]))
  /\ exists d : gmap string string,
       ConfigReader_read Examples.ini_items
         ("[sq]" +:+ nl +:+ "Threshold=20" +:+ nl +:+ "max=3") "sq" = Ok d
       /\ forall k : nat,
            [mk_parameter "Threshold" "20"; mk_parameter "format" "^[a-z]+$"]
              !! k
            = Expected.overridden d <$> parameters Examples.R3 !! k.
Proof.
  intros rule_list.
  assert (Hrun : process_rule Examples.ini_items
                   ["java:S100"; "java:S3776"] rule_list Examples.R3
                 = Ok (Some (mk_rule "java" "S3776"
                               [mk_parameter "Threshold" "20";
                                mk_parameter "format" "^[a-z]+$"])))
    by (vm_compute; reflexivity).
  split; [exact Hrun|].
  destruct (C10_parameter_override_frame _ _ _ _ _ Hrun)
    as (_ & _ & Hentry).
  destruct (Hentry
              [mk_rule_info "java:S100" (Some ("format=^[A-Z]+$"))]
              (mk_rule_info "java:S3776"
                 (Some ("Threshold=20" +:+ nl +:+ "max=3")))
              [mk_rule_info "java:S3776" (Some "Threshold=99")]
              eq_refl)
    as (d & Hread & Hlook & _).
  - repeat constructor. discriminate.
  - reflexivity.
  - exists d. split; [exact Hread | exact Hlook].
Defined.


(* ===================================================================== *)
(** * More on the wait loops                                              *)
(* ===================================================================== *)

Section WaitLoopBounds.

Implicit Types (st : SonarQube) (common : option sq_user).

Lemma _start_sonarqube_no_kill common st line :
  List.filter Expected.is_kill (snd (_start_sonarqube common st line)) = [].
Proof.
  unfold _start_sonarqube.
  destruct (is_fatal_line line); [by destruct common|].
  by destruct (PyStr.contains line "SonarQube is up").
Qed.

Lemma feed_lines_no_kill common st lines :
  List.filter Expected.is_kill (snd (feed_lines common st lines)) = [].
Proof.
  revert st. induction lines as [|l lines IH]; intros st; [done|].
  simpl. pose proof (_start_sonarqube_no_kill common st l) as H1.
  destruct (_start_sonarqube common st l) as [st1 e1].
  specialize (IH st1). destruct (feed_lines common st1 lines) as [st2 e2].
  simpl in *. by rewrite List.filter_app, H1, IH.
Qed.

(** Waiting passes leave the readiness loop running and tear nothing
    down. *)
Lemma wait_on_loop_waiting common procs deadline st polls log pre rest :
  Expected.all_waiting common deadline st pre = true ->
  exists log',
    wait_on_loop common procs deadline st polls log (pre ++ rest)
    = wait_on_loop common procs deadline
        (Expected.state_after common st pre) (polls + length pre)
        (log ++ log') rest
    /\ List.filter Expected.is_kill log' = [].
Proof.
  revert st polls log. induction pre as [|o pre IH]; intros st polls log Hpre.
  - exists []. by rewrite Nat.add_0_r, app_nil_r.
  - cbn [Expected.all_waiting] in Hpre.
    apply andb_true_iff in Hpre as [Ho Hpre].
    apply andb_true_iff in Ho as [Hnow Hwait].
    apply negb_true_iff in Hnow.
    cbn [app wait_on_loop length]. rewrite state_after_cons.
    pose proof (feed_lines_no_kill common st (so_lines o)) as Hnk.
    destruct (feed_lines common st (so_lines o)) as [st1 e1].
    cbn [fst snd] in *. rewrite Hnow, Hwait.
    destruct (IH st1 (S polls) (log ++ EvSleep (sleep_second st) :: e1) Hpre)
      as (log' & -> & Hk).
    exists (EvSleep (sleep_second st) :: e1 ++ log'). split.
    + by rewrite Nat.add_succ_r, <- app_assoc.
    + cbn [List.filter Expected.is_kill]. by rewrite List.filter_app, Hnk, Hk.
Qed.

End WaitLoopBounds.

(** X1. The readiness loop ends at the first check that finds the clock
    past the deadline: after passes that were all waiting within the
    deadline, it raises the timeout AnalyzeTaskError at that pass, with
    the teardown when the model is LOCAL at that moment and none
    otherwise; up to then it was polling. *)
Theorem X1_readiness_timeout
    (common : option sq_user) (procs : list proc) (t0 : Z) (st : SonarQube)
    (pre : list status_obs) (o : status_obs) (rest : list status_obs) :
  Expected.all_waiting common (t0 + timeout st) st pre = true ->
  t0 + timeout st < so_now o ->
  let st_N := Expected.state_after common st (pre ++ [o]) in
  (exists log,
     _wait_until_sonarqube_on common procs t0 st (pre ++ o :: rest)
     = Failed (AnalyzeTaskError msg_wait_server) (S (length pre)) log
     /\ List.filter Expected.is_kill log
        = if model_eqb (model st_N) LOCAL_MODEL then _kill_sonar procs
          else [])
  /\ (exists log,
        _wait_until_sonarqube_on common procs t0 st pre
        = Polling (length pre) log).
Proof.
  intros Hpre Hnow st_N. unfold _wait_until_sonarqube_on. split.
  - destruct (wait_on_loop_waiting common procs (t0 + timeout st) st 0 []
                pre (o :: rest) Hpre) as (log' & -> & Hk).
    subst st_N. rewrite state_after_snoc.
    cbn [wait_on_loop].
    pose proof (feed_lines_no_kill common
                  (Expected.state_after common st pre) (so_lines o)) as Hnk.
    destruct (feed_lines common _ (so_lines o)) as [st1 e1].
    cbn [fst snd] in *.
    destruct (Z.ltb_spec (t0 + timeout st) (so_now o)) as [_|?]; [|lia].
    unfold _raise_error. eexists. split; [reflexivity|].
    rewrite !List.filter_app, Hk. cbn [List.filter Expected.is_kill app].
    rewrite Hnk. by destruct (model st1).
  - destruct (wait_on_loop_waiting common procs (t0 + timeout st) st 0 []
                pre [] Hpre) as (log' & Heq & _).
    rewrite app_nil_r in Heq. rewrite Heq. by eexists.
Qed.

Lemma X1_readiness_timeout_witness :
  exists log,
    _wait_until_sonarqube_on None [Examples.java_proc] 0
      Examples.local_linux
      (take 2 Examples.quick_start
         ++ [mk_status_obs [] (Examples.answer 200 (Some "UP")) 400])
    = Failed (AnalyzeTaskError msg_wait_server) 3 log
    /\ List.filter Expected.is_kill log = [EvKillSonar (Some 4711)].
Proof.
  destruct (X1_readiness_timeout None [Examples.java_proc] 0
              Examples.local_linux (take 2 Examples.quick_start)
              (mk_status_obs [] (Examples.answer 200 (Some "UP")) 400) [])
    as [(log & Hrun & Hkill) _].
  - reflexivity.
  - vm_compute. reflexivity.
  - exists log. split; [exact Hrun | exact Hkill].
Defined.

(** X2. The task poller ends at the first check that finds the clock
    past the deadline: after passes without a terminal status within the
    deadline, an answer that is not a FAILED task, be it an error or
    SUCCESS, is followed by the timeout AnalyzeTaskError, after one
    query per pass and the teardown of a local server. *)
Theorem X2_task_poller_timeout
    (st : SonarQube) (procs : list proc) (path tid : string)
    (lines : list string) (t0 : Z)
    (pre : list task_obs) (o : task_obs) (rest : list task_obs) :
  PyStr.nonempty path = true ->
  read_task_id lines = Ok tid ->
  forallb (Expected.task_pass_continues (t0 + timeout st) tid) pre = true ->
  Expected.task_not_failed tid o = true ->
  t0 + timeout st < to_now o ->
  _wait_until_task_succeed st procs (Some path) (Some lines) t0
    (pre ++ o :: rest)
  = Failed (AnalyzeTaskError msg_wait_task) (S (length pre))
      (EvPrint ("[warning] Task ID is " +:+ tid)
         :: Expected.task_log st tid (S (length pre))
         ++ if model_eqb (model st) LOCAL_MODEL then _kill_sonar procs
            else []).
Proof.
  intros Hpath Hid Hpre Hnf Hnow.
  unfold _wait_until_task_succeed. rewrite Hpath.
  cbn [negb from_option id]. rewrite Hid.
  rewrite wait_task_loop_continue by done.
  cbn [wait_task_loop].
  unfold Expected.task_not_failed in Hnf.
  destruct (Z.ltb_spec (t0 + timeout st) (to_now o)) as [_|?]; [|lia].
  assert (Hlog : forall kill,
    ((EvPrint ("[warning] Task ID is " +:+ tid)
        :: Expected.task_log st tid (length pre))
       ++ [EvSleep (sleep_second st); EvCeTask tid]) ++ kill
    = EvPrint ("[warning] Task ID is " +:+ tid)
        :: Expected.task_log st tid (S (length pre)) ++ kill).
  { intros kill. by rewrite <- app_comm_cons, task_log_snoc. }
  unfold _raise_error.
  destruct (Api.ce_task (to_call o tid)) as [t|e].
  - apply negb_true_iff in Hnf. rewrite Hnf. by rewrite Hlog.
  - by rewrite Hlog.
Qed.

Lemma X2_task_poller_timeout_witness :
  _wait_until_task_succeed Examples.local_linux [Examples.java_proc]
    (Some "/data/src/.scannerwork/report-task.txt")
    (Some Examples.report_task) 0
    [Examples.task_answer "PENDING" None 5;
     Examples.task_answer "IN_PROGRESS" None 301]
  = Failed (AnalyzeTaskError msg_wait_task) 2
      (EvPrint "[warning] Task ID is AX1"
         :: Expected.task_log Examples.local_linux "AX1" 2
         ++ [EvKillSonar (Some 4711)]).
Proof.
  apply (X2_task_poller_timeout Examples.local_linux [Examples.java_proc]
           "/data/src/.scannerwork/report-task.txt" "AX1"
           Examples.report_task 0
           [Examples.task_answer "PENDING" None 5]
           (Examples.task_answer "IN_PROGRESS" None 301) []).
  - reflexivity.
  - reflexivity.
  - reflexivity.
  - reflexivity.
  - vm_compute. reflexivity.
Defined.

Section CreateLoopFacts.

Context {B : Type}.
Implicit Types (st : SonarQube) (o : create_obs B).

(** Project creation makes no more passes than its counter allows. *)
Lemma wait_create_loop_bound st procs deadline cnt polls log
    (obs : list (create_obs B)) :
  0 <= cnt <= retry_times ->
  (Expected.wait_polls (wait_create_loop st procs deadline cnt polls log obs)
   <= polls + Z.to_nat (retry_times + 1 - cnt))%nat.
Proof.
  unfold retry_times.
  revert cnt polls log. induction obs as [|o obs IH]; intros cnt polls log Hc.
  - simpl. lia.
  - cbn [wait_create_loop]. unfold retry_times, _raise_error. cbv zeta.
    assert (Hstep : forall log1,
      (Expected.wait_polls
         (wait_create_loop st procs deadline (cnt + 1) (S polls) log1 obs)
       <= polls + Z.to_nat (5 + 1 - cnt))%nat \/ 5 < cnt + 1).
    { intros log1. destruct (Z.lt_ge_cases 5 (cnt + 1)); [by right|].
      left. etrans; [apply IH; lia|]. lia. }
    destruct (Api.project_create (co_call o (projectKey st))) as [b|e];
      [|destruct (is_ValidationError e); [|destruct (is_ClientError e)]];
      try (simpl; lia);
      (destruct (Z.gtb_spec (cnt + 1) 5); [simpl; lia|]);
      (destruct (deadline <? co_now o); [simpl; lia|]);
      try (simpl; lia).
    by destruct (Hstep (log ++ [EvSleep (sleep_second st)])); [|lia].
Qed.

(** Passes that are tried again leave the loop running while the
    counter allows it. *)
Lemma wait_create_loop_retried st procs deadline cnt polls log
    (pre rest : list (create_obs B)) :
  forallb (Expected.create_pass_retried deadline (projectKey st)) pre
  = true ->
  cnt + Z.of_nat (length pre) <= retry_times ->
  wait_create_loop st procs deadline cnt polls log (pre ++ rest)
  = wait_create_loop st procs deadline (cnt + Z.of_nat (length pre))
      (polls + length pre)
      (log ++ replicate (length pre) (EvSleep (sleep_second st))) rest.
Proof.
  unfold retry_times.
  revert cnt polls log. induction pre as [|o pre IH]; intros cnt polls log.
  - intros _ _. cbn [app length replicate].
    by rewrite Z.add_0_r, Nat.add_0_r, app_nil_r.
  - cbn [forallb]. intros [Ho Hpre]%andb_true_iff Hcnt.
    unfold Expected.create_pass_retried in Ho.
    apply andb_true_iff in Ho as [He Hnow]. apply negb_true_iff in Hnow.
    cbn [app wait_create_loop length] in *. unfold retry_times.
    destruct (Api.project_create (co_call o (projectKey st))) as [b|e];
      [done|].
    apply andb_true_iff in He as [Hce Hve]. apply negb_true_iff in Hve.
    rewrite Hve, Hce, Hnow.
    destruct (Z.gtb_spec (cnt + 1) 5) as [?|_]; [lia|].
    rewrite IH by (done || lia).
    f_equal; [lia | lia |].
    cbn [replicate]. by rewrite <- app_assoc.
Qed.

End CreateLoopFacts.

(** X3. Project creation makes at most six calls, whatever the server
    answers. After five calls that each raised a ClientError the sixth
    ends the loop with the AnalyzeTaskError of the retry limit, also
    when it is the call that creates the project. *)
Theorem X3_project_creation_retry_limit
    {B : Type} (st : SonarQube) (procs : list proc) (t0 : Z)
    (pre : list (create_obs B)) (o : create_obs B)
    (rest : list (create_obs B)) (b : B) :
  length pre = 5%nat ->
  forallb (Expected.create_pass_retried (t0 + timeout st) (projectKey st))
    pre = true ->
  Api.project_create (co_call o (projectKey st)) = Ok b ->
  _wait_until_project_create st procs t0 (pre ++ o :: rest)
  = Failed (AnalyzeTaskError msg_retry_project) 6
      (replicate 5 (EvSleep (sleep_second st))
         ++ if model_eqb (model st) LOCAL_MODEL then _kill_sonar procs
            else [])
  /\ (forall obs : list (create_obs B),
        (Expected.wait_polls (_wait_until_project_create st procs t0 obs)
         <= 6)%nat).
Proof.
  intros Hlen Hpre Hok. unfold _wait_until_project_create. split.
  - rewrite wait_create_loop_retried by (done || rewrite Hlen; done).
    rewrite Hlen. cbn [wait_create_loop]. rewrite Hok.
    by unfold _raise_error.
  - intros obs.
    etrans; [apply wait_create_loop_bound; unfold retry_times; lia|].
    unfold retry_times. simpl. lia.
Qed.

Lemma X3_project_creation_retry_limit_witness :
  _wait_until_project_create Examples.local_linux [Examples.java_proc] 0
    (replicate 5 (Examples.create_answer 404 [] 1)
       ++ [Examples.create_answer 200 [] 2])
  = Failed (AnalyzeTaskError msg_retry_project) 6
      (replicate 5 (EvSleep 5) ++ [EvKillSonar (Some 4711)]).
Proof.
  apply (X3_project_creation_retry_limit Examples.local_linux
           [Examples.java_proc] 0
           (replicate 5 (Examples.create_answer 404 [] 1))
           (Examples.create_answer 200 [] 2) [] tt).
  - reflexivity.
  - reflexivity.
  - reflexivity.
Defined.

(** X4. Project creation tries again after 401 and 403: AuthError is a
    ClientError and is caught with it. A first call refused with such a
    status and a second call that the server accepts, both within the
    deadline, end the loop normally after two calls and one sleep. *)
Theorem X4_project_creation_retries_auth_error
    {B : Type} (st : SonarQube) (procs : list proc) (t0 : Z)
    (o1 o2 : create_obs B) (rest : list (create_obs B))
    (r1 r2 : Api.http_response B) :
  co_call o1 (projectKey st) = Ok r1 ->
  Api.status_code r1 = 401 \/ Api.status_code r1 = 403 ->
  co_now o1 <= t0 + timeout st ->
  co_call o2 (projectKey st) = Ok r2 ->
  Api.status_code r2 < 300 ->
  co_now o2 <= t0 + timeout st ->
  Api.project_create (co_call o1 (projectKey st))
  = Raise (AuthError (Api.reason r1))
  /\ _wait_until_project_create st procs t0 (o1 :: o2 :: rest)
     = Finished tt 2 [EvSleep (sleep_second st)].
Proof.
  intros Hc1 Hs1 Hn1 Hc2 Hs2 Hn2.
  assert (H1 : Api.project_create (co_call o1 (projectKey st))
               = Raise (AuthError (Api.reason r1))).
  { unfold Api.project_create, Api.json_endpoint, Api._request.
    rewrite Hc1. simpl. by rewrite (classify_auth r1 Hs1). }
  assert (H2 : Api.project_create (co_call o2 (projectKey st))
               = Ok (Api.body r2)).
  { unfold Api.project_create, Api.json_endpoint, Api._request.
    rewrite Hc2. simpl. by rewrite (classify_success r2 Hs2). }
  split; [exact H1|].
  unfold _wait_until_project_create. cbn [wait_create_loop].
  rewrite H1, H2. cbn [is_ValidationError is_ClientError].
  destruct (Z.ltb_spec (t0 + timeout st) (co_now o1)) as [?|_]; [lia|].
  destruct (Z.ltb_spec (t0 + timeout st) (co_now o2)) as [?|_]; [lia|].
  done.
Qed.

Lemma X4_project_creation_retries_auth_error_witness :
  _wait_until_project_create Examples.local_linux [] 0
    [Examples.create_answer 401 [] 1; Examples.create_answer 200 [] 7]
  = Finished tt 2 [EvSleep 5].
Proof.
  apply (X4_project_creation_retries_auth_error Examples.local_linux [] 0
           (Examples.create_answer 401 [] 1)
           (Examples.create_answer 200 [] 7) []
           (Api.mk_response 401 "" [] tt) (Api.mk_response 200 "" [] tt)).
  - reflexivity.
  - by left.
  - vm_compute. congruence.
  - reflexivity.
  - reflexivity.
  - vm_compute. congruence.
Defined.

(** X5. An exception of project creation that is no ClientError, as
    the ServerError for a status from 500 on or an exception of the
    session call itself, leaves the loop at once as it is, at the first
    call and at any later one: no retry, no teardown of the local
    server, whatever the clock and the count of calls show. *)
Theorem X5_project_creation_server_error_escapes
    {B : Type} (st : SonarQube) (procs : list proc) (t0 : Z)
    (o : create_obs B) (rest : list (create_obs B)) (e : exn) :
  Api.project_create (co_call o (projectKey st)) = Raise e ->
  is_ClientError e = false ->
  _wait_until_project_create st procs t0 (o :: rest) = Failed e 1 []
  /\ (forall deadline cnt polls log,
        wait_create_loop st procs deadline cnt polls log (o :: rest)
        = Failed e (S polls) log)
  /\ (forall r : Api.http_response B,
        co_call o (projectKey st) = Ok r -> 500 <= Api.status_code r ->
        e = ServerError (Api.reason r))
  /\ (forall e' : exn, co_call o (projectKey st) = Raise e' -> e = e').
Proof.
  intros Hc He.
  assert (Hv : is_ValidationError e = false) by (by destruct e).
  assert (Hloop : forall deadline cnt polls log,
            wait_create_loop st procs deadline cnt polls log (o :: rest)
            = Failed e (S polls) log).
  { intros. cbn [wait_create_loop]. by rewrite Hc, Hv, He. }
  split_and!; [apply Hloop | exact Hloop | |].
  - intros r Hr Hs.
    unfold Api.project_create, Api.json_endpoint, Api._request in Hc.
    rewrite Hr in Hc. simpl in Hc. rewrite (classify_server r Hs) in Hc.
    simpl in Hc. by injection Hc as <-.
  - intros e' He'.
    unfold Api.project_create, Api.json_endpoint, Api._request in Hc.
    rewrite He' in Hc. simpl in Hc. by injection Hc as <-.
Qed.

Lemma X5_project_creation_server_error_escapes_witness :
  _wait_until_project_create Examples.local_linux [Examples.java_proc] 0
    [mk_create_obs (fun _ => Ok (Api.mk_response 503 "Service Unavailable"
                                   [] tt)) 1]
  = Failed (ServerError "Service Unavailable") 1 []
  /\ _wait_until_project_create Examples.local_linux [Examples.java_proc] 0
       [mk_create_obs
          (fun _ => @Raise (Api.http_response unit)
                      (OtherError "ConnectionError")) 1]
     = Failed (OtherError "ConnectionError") 1 [].
Proof.
  split.
  - apply (X5_project_creation_server_error_escapes Examples.local_linux
             [Examples.java_proc] 0
             (mk_create_obs
                (fun _ => Ok (Api.mk_response 503 "Service Unavailable"
                                [] tt)) 1)
             [] (ServerError "Service Unavailable")); reflexivity.
  - apply (X5_project_creation_server_error_escapes Examples.local_linux
             [Examples.java_proc] 0
             (mk_create_obs
                (fun _ => @Raise (Api.http_response unit)
                            (OtherError "ConnectionError")) 1)
             [] (OtherError "ConnectionError")); reflexivity.
Defined.



(** X7. Without a report handle the poller asks the server nothing: a
    path that is unset, empty or does not exist raises AnalyzeTaskError
    before any query, after the teardown of a local server; a handle of
    fewer than five lines raises the IndexError of the line lookup, with
    no teardown. *)
Theorem X7_report_handle_missing_or_short
    (st : SonarQube) (procs : list proc) (t0 : Z) (obs : list task_obs) :
  (forall sonar_report content,
     sonar_report = None \/ sonar_report = Some "" \/ content = None ->
     exists msg,
       _wait_until_task_succeed st procs sonar_report content t0 obs
       = Failed (AnalyzeTaskError msg) 0
           (if model_eqb (model st) LOCAL_MODEL then _kill_sonar procs
            else []))
  /\ (forall path lines,
        PyStr.nonempty path = true ->
        (length lines < 5)%nat ->
        _wait_until_task_succeed st procs (Some path) (Some lines) t0 obs
        = Failed (OtherError "IndexError") 0 []).
Proof.
  split.
  - intros sonar_report content H. unfold _wait_until_task_succeed.
    assert (Hm : match sonar_report, content with
                 | Some path, Some _ => negb (PyStr.nonempty path)
                 | _, _ => true
                 end = true).
    { destruct H as [->|[->| ->]]; [done | by destruct content |].
      by destruct sonar_report. }
    rewrite Hm. unfold _raise_error. by eexists.
  - intros path lines Hpath Hlen. unfold _wait_until_task_succeed.
    rewrite Hpath. cbn [negb from_option id]. unfold read_task_id.
    by rewrite lookup_ge_None_2 by lia.
Qed.

Lemma X7_report_handle_missing_or_short_witness :
  (exists msg,
     _wait_until_task_succeed Examples.local_linux [Examples.java_proc]
       (Some "/data/src/.scannerwork/report-task.txt") None 0
       [Examples.task_answer "SUCCESS" None 5]
     = Failed (AnalyzeTaskError msg) 0 [EvKillSonar (Some 4711)])
  /\ _wait_until_task_succeed Examples.local_linux [Examples.java_proc]
       (Some "/data/src/.scannerwork/report-task.txt")
       (Some (take 4 Examples.report_task)) 0
       [Examples.task_answer "SUCCESS" None 5]
     = Failed (OtherError "IndexError") 0 [].
Proof.
  destruct (X7_report_handle_missing_or_short Examples.local_linux
              [Examples.java_proc] 0 [Examples.task_answer "SUCCESS" None 5])
    as [Hmissing Hshort].
  split.
  - apply (Hmissing (Some "/data/src/.scannerwork/report-task.txt") None).
    by right; right.
  - apply Hshort; [reflexivity | simpl; lia].
Defined.

(* ===================================================================== *)
(** * More on the string helpers                                          *)
(* ===================================================================== *)

Section SplitStripFacts.

Implicit Types (s t u : string) (c a : ascii).
#[local] Arguments Ascii.eqb : simpl never.
#[local] Arguments PyStr.is_space : simpl never.

Lemma append_nil_l_string s : EmptyString +:+ s = s.
Proof. reflexivity. Qed.

Lemma split_nonempty c s : PyStr.split c s <> [].
Proof.
  destruct s as [|a s]; simpl; [done|].
  destruct (Ascii.eqb a c); [done|]. by destruct (PyStr.split c s).
Qed.

Lemma split_lacks c s :
  Expected.lacks c s = true -> PyStr.split c s = [s].
Proof.
  induction s as [|a s IH]; [done|].
  unfold Expected.lacks. simpl.
  intros [Ha Hs]%andb_true_iff. apply negb_true_iff in Ha.
  rewrite Ha. unfold Expected.lacks in IH. by rewrite IH.
Qed.

(** Splitting at a separator splits the text before it and the text
    after it. *)
Lemma split_app_sep c s t :
  PyStr.split c (s +:+ String c t) = PyStr.split c s ++ PyStr.split c t.
Proof.
  induction s as [|a s IH].
  - simpl. rewrite ?append_nil_l_string. cbn [PyStr.split].
    by rewrite Ascii.eqb_refl.
  - rewrite append_cons. cbn [PyStr.split]. rewrite IH.
    destruct (Ascii.eqb a c); [done|].
    pose proof (split_nonempty c s) as Hne.
    by destruct (PyStr.split c s).
Qed.

Lemma split_last_app_sep c s t :
  Expected.lacks c t = true -> PyStr.split_last c (s +:+ String c t) = t.
Proof.
  intros Ht. unfold PyStr.split_last.
  rewrite split_app_sep, (split_lacks c t Ht).
  apply List.last_last.
Qed.

Lemma join_cons sep x (l : list string) :
  l <> [] -> PyStr.join sep (x :: l) = x +:+ sep +:+ PyStr.join sep l.
Proof. by destruct l. Qed.

(** Joining what a split gave restores the text. *)
Lemma join_split c s :
  PyStr.join (String c EmptyString) (PyStr.split c s) = s.
Proof.
  induction s as [|a s IH]; [done|].
  cbn [PyStr.split].
  destruct (Ascii.eqb_spec a c) as [->|Hne].
  - rewrite join_cons by apply split_nonempty. by rewrite IH.
  - pose proof (split_nonempty c s) as Hn.
    destruct (PyStr.split c s) as [|x l] eqn:Hs; [done|].
    destruct l as [|y l].
    + cbn [PyStr.join] in *. by rewrite IH.
    + rewrite join_cons in IH by done. rewrite join_cons by done.
      by rewrite append_cons, IH.
Qed.

Lemma starts_char_cont s :
  Expected.starts_char s = negb (PyStr.starts_cont s).
Proof. by destruct s. Qed.

Lemma append_nil_r_string s : s +:+ EmptyString = s.
Proof. induction s as [|a s IH]; [done|]. by rewrite append_cons, IH. Qed.

(** A character in front of a text that starts with a character is the
    first character of the whole. *)
Lemma chars_cons_char (ch : string) s :
  Expected.is_char ch = true -> PyStr.starts_cont s = false ->
  PyStr.chars (ch +:+ s) = ch :: PyStr.chars s.
Proof.
  destruct ch as [|a r]; [done|]. cbn [Expected.is_char].
  revert a. induction r as [|b r IH]; intros a Hr Hs.
  - rewrite append_cons, append_nil_l_string. cbn [PyStr.chars].
    rewrite Hs. by destruct (PyStr.chars s).
  - cbn [list_ascii_of_string forallb] in Hr.
    apply andb_true_iff in Hr as [Hb Hr].
    rewrite append_cons. cbn [PyStr.chars].
    rewrite (IH b Hr Hs). rewrite append_cons. cbn [PyStr.starts_cont].
    by rewrite Hb.
Qed.

Lemma chars_byte a s :
  PyStr.starts_cont s = false ->
  PyStr.chars (String a s) = String a EmptyString :: PyStr.chars s.
Proof.
  intros Hs. by apply (chars_cons_char (String a EmptyString) s).
Qed.

Lemma unchars_app (l1 l2 : list string) :
  PyStr.unchars (l1 ++ l2) = PyStr.unchars l1 +:+ PyStr.unchars l2.
Proof.
  induction l1 as [|c l1 IH]; [done|].
  cbn [app PyStr.unchars foldr]. fold (PyStr.unchars (l1 ++ l2)).
  fold (PyStr.unchars l1). by rewrite IH, append_assoc.
Qed.

Lemma unchars_chars s : PyStr.unchars (PyStr.chars s) = s.
Proof.
  induction s as [|a s IH]; [done|]. cbn [PyStr.chars].
  destruct (PyStr.chars s) as [|c cs]; [by destruct s|].
  destruct (PyStr.starts_cont s); cbn [PyStr.unchars foldr] in *;
    by rewrite ?append_cons, ?append_nil_l_string, IH.
Qed.

(** The characters of two texts, when the second starts with one. *)
Lemma chars_app s t :
  PyStr.starts_cont t = false ->
  PyStr.chars (s +:+ t) = PyStr.chars s ++ PyStr.chars t.
Proof.
  intros Ht. induction s as [|a s IH]; [done|].
  rewrite append_cons. cbn [PyStr.chars]. rewrite IH.
  assert (Hst : PyStr.chars s = [] -> s = EmptyString).
  { clear. destruct s as [|b s]; [done|]. cbn [PyStr.chars].
    destruct (PyStr.chars s); [done|]. by destruct (PyStr.starts_cont _). }
  destruct (PyStr.chars s) as [|c cs] eqn:Hs.
  - rewrite (Hst eq_refl), append_nil_l_string, Ht. cbn [app].
    by destruct (PyStr.chars t).
  - assert (Hsc : PyStr.starts_cont (s +:+ t) = PyStr.starts_cont s).
    { destruct s; [done|]. by rewrite append_cons. }
    rewrite Hsc. cbn [app]. by destruct (PyStr.starts_cont s).
Qed.

Lemma skip_spaces_app (l1 : list string) x l2 :
  PyStr.is_space_char x = false ->
  PyStr.skip_spaces (l1 ++ x :: l2) = PyStr.skip_spaces l1 ++ x :: l2.
Proof.
  intros Hx. induction l1 as [|c l1 IH]; simpl; [by rewrite Hx|].
  by destruct (PyStr.is_space_char c).
Qed.

Lemma skip_spaces_none (l : list string) x r :
  Forall (fun ch : string => PyStr.is_space_char ch = false) l ->
  PyStr.is_space_char x = false ->
  PyStr.skip_spaces (l ++ x :: r) = l ++ x :: r.
Proof.
  intros Hl Hx. destruct Hl as [|c l Hc _]; simpl; [by rewrite Hx|].
  by rewrite Hc.
Qed.

Lemma no_space_Forall s :
  Expected.no_space s = true ->
  Forall (fun ch : string => PyStr.is_space_char ch = false) (PyStr.chars s).
Proof.
  unfold Expected.no_space. intros H. apply Forall_forall. intros c Hc.
  apply negb_true_iff.
  by apply (proj1 (forallb_forall _ _) H), list_elem_of_In.
Qed.

(** The line [key=value], ended by a line feed, is stripped to the key
    without its leading white space, the equals sign and the value,
    when the value holds no white space. *)
Lemma strip_key_value key v :
  Expected.no_space v = true -> Expected.starts_char v = true ->
  exists key',
    PyStr.strip (key +:+ "=" +:+ v +:+ nl) = key' +:+ String "=" v.
Proof.
  intros Hsp Hst. rewrite starts_char_cont in Hst.
  apply negb_true_iff in Hst.
  assert (Hv : PyStr.chars (v +:+ nl) = PyStr.chars v ++ [nl])
    by (by rewrite chars_app).
  assert (Hstart : PyStr.starts_cont (v +:+ nl) = false).
  { destruct v; [done|]. by rewrite append_cons. }
  assert (Hc : PyStr.chars (key +:+ "=" +:+ v +:+ nl)
               = PyStr.chars key ++ "=" :: PyStr.chars v ++ [nl]).
  { rewrite chars_app by done.
    change ("=" +:+ v +:+ nl) with (String "=" (v +:+ nl)).
    by rewrite chars_byte, Hv. }
  exists (PyStr.unchars (PyStr.skip_spaces (PyStr.chars key))).
  unfold PyStr.strip. rewrite Hc.
  rewrite skip_spaces_app by done.
  rewrite app_comm_cons, app_assoc, rev_unit.
  cbn [PyStr.skip_spaces].
  change (PyStr.is_space_char nl) with true. cbv iota.
  rewrite rev_app_distr. cbn [rev]. rewrite <- app_assoc. cbn [app].
  rewrite skip_spaces_none;
    [|apply Forall_forall; intros c Hc'%list_elem_of_In%in_rev;
      apply list_elem_of_In in Hc';
      by apply (proj1 (Forall_forall _ _) (no_space_Forall v Hsp))
    |done].
  rewrite rev_app_distr. cbn [rev]. rewrite !rev_involutive.
  rewrite <- app_assoc. cbn [app].
  rewrite unchars_app. cbn [PyStr.unchars foldr].
  fold (PyStr.unchars (PyStr.chars v)). by rewrite unchars_chars.
Qed.

End SplitStripFacts.

(** X8. The task id is read back from a report handle: when the fifth
    line is a key, an equals sign and an id that holds neither an equals
    sign nor white space of any script, ended by a line feed, the poller
    reads exactly that id, whatever the other lines hold. *)
Theorem X8_task_id_round_trip
    (before : list string) (key tid : string) (after : list string) :
  length before = 4%nat ->
  Expected.lacks "=" tid = true ->
  Expected.no_space tid = true ->
  Expected.starts_char tid = true ->
  read_task_id (before ++ (key +:+ "=" +:+ tid +:+ nl) :: after) = Ok tid.
Proof.
  intros Hlen Heq Hsp Hst. unfold read_task_id.
  rewrite list_lookup_middle by done.
  destruct (strip_key_value key tid Hsp Hst) as [key' ->].
  by rewrite split_last_app_sep.
Qed.

Lemma X8_task_id_round_trip_witness :
  read_task_id
    (["projectKey=test" +:+ nl; "serverUrl=http://localhost:9000" +:+ nl;
      "serverVersion=8.9.8" +:+ nl; "dashboardUrl=x" +:+ nl]
       ++ ("ceTaskId" +:+ "=" +:+ "AYd-3kQ_x1" +:+ nl) :: [])
  = Ok "AYd-3kQ_x1".
Proof.
  apply X8_task_id_round_trip; reflexivity.
Defined.

Section RestartPatternFacts.

Implicit Types (s t : string).
#[local] Arguments Ascii.eqb : simpl never.

Lemma startswith_app_self s t : PyStr.startswith (s +:+ t) s = true.
Proof.
  induction s as [|a s IH]; [by destruct t|].
  rewrite append_cons. simpl. by rewrite Ascii.eqb_refl, IH.
Qed.

Lemma dotstar_then_app suf x y :
  Expected.lacks "010" x = true ->
  dotstar_then suf (x +:+ suf +:+ y) = true.
Proof.
  induction x as [|a x IH].
  - intros _. rewrite ?append_nil_l_string.
    destruct (suf +:+ y) eqn:E; simpl; rewrite <- E;
      by rewrite startswith_app_self.
  - unfold Expected.lacks. simpl.
    intros [Ha Hx]%andb_true_iff. apply negb_true_iff in Ha.
    rewrite ?append_cons. cbn [dotstar_then]. rewrite ?Ha.
    unfold Expected.lacks in IH. rewrite IH by done. apply orb_true_r.
Qed.

End RestartPatternFacts.

(** X9. The pattern of the scheduler that needs a restart is matched
    without regard to the case of letters, for any thread name on one
    line, and with any text after it; the message then gets the restart
    class before the other classes are tried. *)
Theorem X9_restart_pattern (msg x y : string) :
  PyStr.lower msg
  = "load called twice for thread '" +:+ x
      +:+ "' or state wasn't cleared last time it was used" +:+ y ->
  Expected.lacks "010" x = true ->
  matches_load_twice msg = true /\ failed_task_msg msg = msg_restart.
Proof.
  intros Hlow Hx.
  assert (Hm : matches_load_twice msg = true).
  { unfold matches_load_twice. rewrite Hlow.
    rewrite startswith_app_self.
    change (String.length "load called twice for thread '") with (30 + 0)%nat.
    rewrite (drop_append_add "load called twice for thread '" _ 0), drop_0.
    by rewrite dotstar_then_app. }
  split; [exact Hm|]. unfold failed_task_msg. by rewrite Hm.
Qed.

Lemma X9_restart_pattern_witness :
  failed_task_msg
    "Load called twice for thread 'Worker 0 (CE)' or state wasn't cleared last time it was used"
  = msg_restart.
Proof.
  apply (X9_restart_pattern _ "worker 0 (ce)" ""); reflexivity.
Defined.

(* ===================================================================== *)
(** * More on the issue extractor                                         *)
(* ===================================================================== *)

Section ExtractorMoreFacts.

Implicit Types (env : extract_env) (i : issue).

Lemma extract_loop_processed env acc pre rest stream_end :
  forallb (Expected.processed env) pre = true ->
  extract_loop env acc (pre ++ rest) stream_end
  = extract_loop env (acc ++ Expected.findings_so_far env pre) rest
      stream_end.
Proof.
  revert acc. induction pre as [|i pre IH]; intros acc.
  - intros _. unfold Expected.findings_so_far. simpl. by rewrite app_nil_r.
  - cbn [forallb]. intros [Hi Hpre]%andb_true_iff.
    unfold Expected.processed in Hi.
    unfold Expected.findings_so_far. rewrite fmap_cons.
    cbn [app extract_loop concat].
    fold (Expected.findings_so_far env pre).
    destruct (skipped env i); [by rewrite IH|].
    destruct (findings_of_issue env i) as [fs|e]; [|done].
    by rewrite IH, app_assoc.
Qed.

Lemma traverse_Raise {A B} (f : A -> res B) (e : exn) (l : list A) :
  (forall x e', f x = Raise e' -> e' = e) ->
  Exists (fun x => exists e', f x = Raise e') l ->
  traverse f l = Raise e.
Proof.
  intros Hsame. induction 1 as [x l [e' Hx]|x l _ IH]; simpl.
  - rewrite Hx. simpl. by rewrite (Hsame x e' Hx).
  - destruct (f x) as [y|e'] eqn:Hx; simpl.
    + by rewrite IH.
    + by rewrite (Hsame x e' Hx).
Qed.

End ExtractorMoreFacts.

(** X10. Outside quality mode and with a rule list that is not empty,
    every finding of the extractor has a rule of the list: an issue of
    another rule that the server sends all the same is left out. *)
Theorem X10_findings_obey_rule_filter
    (env : extract_env) (stream : list issue) (stream_end : option exn)
    (out : list finding) (f : finding) :
  is_quality env = false ->
  rules env <> [] ->
  extract_loop env [] stream stream_end = Ok out ->
  f ∈ out ->
  mem (f_rule f) (rules env) = true.
Proof.
  intros Hq Hr Hout Hf.
  destruct (extract_loop_elem _ _ _ _ _ _ Hout Hf)
    as [Hnil|(i & fs & _ & Hskip & Hfs & Hin)].
  { by apply elem_of_nil in Hnil. }
  apply findings_of_issue_fields in Hfs.
  rewrite Forall_forall in Hfs. destruct (Hfs f Hin) as (_ & -> & _).
  unfold skipped in Hskip. rewrite Hq in Hskip.
  destruct (rules env) as [|r rs] eqn:Hrules; [done|].
  simpl in Hskip. by apply negb_false_iff in Hskip.
Qed.

Lemma X10_findings_obey_rule_filter_witness :
  extract_loop Examples.env_build []
    [Examples.plain_issue "java:S100" "proj:src/Foo.java" "Rename.";
     Examples.plain_issue "java:S999" "proj:src/Bar.java" "Other."]
    None
  = Ok [mk_finding "app/src/Foo.java" "java:S100" "Rename." 3 7 []]
  /\ mem "java:S100" (rules Examples.env_build) = true.
Proof.
  split; [reflexivity|].
  apply (X10_findings_obey_rule_filter Examples.env_build
           [Examples.plain_issue "java:S100" "proj:src/Foo.java" "Rename.";
            Examples.plain_issue "java:S999" "proj:src/Bar.java" "Other."]
           None
           [mk_finding "app/src/Foo.java" "java:S100" "Rename." 3 7 []]
           (mk_finding "app/src/Foo.java" "java:S100" "Rename." 3 7 [])).
  - reflexivity.
  - done.
  - reflexivity.
  - apply list_elem_of_singleton. reflexivity.
Defined.

(** X11. The first exception decides what the extractor gives. When the
    issues before it were skipped or made their findings, an exception
    raised for an issue, or by the search after the last issue read,
    ends the loop: a ValidationError leaves the findings made so far as
    the result, silently without the issues that follow, and any other
    exception leaves the scan. With no exception the result is the
    findings of all issues in order. *)
Theorem X11_first_exception_decides
    (env : extract_env) (pre : list issue) (i : issue) (rest : list issue)
    (stream_end : option exn) (e : exn) :
  forallb (Expected.processed env) pre = true ->
  (skipped env i = false -> findings_of_issue env i = Raise e ->
   extract_loop env [] (pre ++ i :: rest) stream_end
   = Expected.on_exception (Expected.findings_so_far env pre) e)
  /\ extract_loop env [] pre (Some e)
     = Expected.on_exception (Expected.findings_so_far env pre) e
  /\ extract_loop env [] pre None = Ok (Expected.findings_so_far env pre).
Proof.
  intros Hpre. split; [|split].
  - intros Hskip Hi. rewrite extract_loop_processed by done.
    cbn [extract_loop app]. by rewrite Hskip, Hi.
  - rewrite <- (app_nil_r pre) at 1.
    by rewrite extract_loop_processed.
  - rewrite <- (app_nil_r pre) at 1.
    by rewrite extract_loop_processed.
Qed.

Lemma X11_first_exception_decides_witness :
  extract_loop
    (mk_extract_env "/data/src" None [] false
       (fun _ => Examples.answer 400 Examples.two_blocks))
    []
    [Examples.plain_issue "java:S100" "proj:src/Foo.java" "Rename.";
     Examples.dupl_issue;
     Examples.plain_issue "java:S100" "proj:src/Bar.java" "Rename."]
    None
  = Ok [mk_finding "src/Foo.java" "java:S100" "Rename." 3 7 []].
Proof.
  apply (proj1 (X11_first_exception_decides
                  (mk_extract_env "/data/src" None [] false
                     (fun _ => Examples.answer 400 Examples.two_blocks))
                  [Examples.plain_issue "java:S100" "proj:src/Foo.java"
                     "Rename."]
                  Examples.dupl_issue
                  [Examples.plain_issue "java:S100" "proj:src/Bar.java"
                     "Rename."]
                  None (ValidationError "") eq_refl)).
  - reflexivity.
  - reflexivity.
Defined.

(** X12. An issue of any other rule than the duplicated blocks gives
    one finding, with line and column 0 when the issue has no text
    range, and one reference per location of its flows, in their order;
    the path of a reference is the component of the location after its
    last colon, as it is. A location without a text range makes the
    issue raise KeyError. No duplication lookup is made. *)
Theorem X12_plain_issue_one_finding (env : extract_env) (i : issue) :
  PyStr.endswith (i_rule i) "DuplicatedBlocks" = false ->
  (Forall (fun l => is_Some (loc_textRange l)) (concat (i_flows i)) ->
   findings_of_issue env i
   = Ok [mk_finding
           (issue_path (SOURCE_DIR env)
              (build_cwd_of (SOURCE_DIR env) (BUILD_CWD env))
              (i_component i))
           (i_rule i) (i_message i)
           (default 0 (startLine <$> i_textRange i))
           (default 0 (startOffset <$> i_textRange i))
           (Expected.reference_of <$> concat (i_flows i))])
  /\ (Exists (fun l => loc_textRange l = None) (concat (i_flows i)) ->
      findings_of_issue env i = Raise (KeyError "textRange")).
Proof.
  intros Hrule. unfold findings_of_issue. rewrite Hrule. split.
  - intros Hall.
    rewrite (traverse_Ok_map location_ref Expected.reference_of); [done|].
    eapply Forall_impl; [exact Hall|]. intros l [tr Htr].
    unfold location_ref, Expected.reference_of. by rewrite Htr.
  - intros Hex.
    rewrite (traverse_Raise location_ref (KeyError "textRange")); [done| |].
    + intros l e'. unfold location_ref.
      destruct (loc_textRange l); [done|]. by intros [= <-].
    + eapply Exists_impl; [exact Hex|]. intros l Hl.
      exists (KeyError "textRange"). unfold location_ref. by rewrite Hl.
Qed.

Lemma X12_plain_issue_one_finding_witness :
  findings_of_issue Examples.env_build
    (mk_issue "java:S2259" "proj:src/Foo.java" "NPE." None
       [[mk_location (Some (mk_range 10 2)) None "proj:src/Foo.java";
         mk_location (Some (mk_range 12 4)) (Some "here") "proj:src/Bar.java"]])
  = Ok [mk_finding "app/src/Foo.java" "java:S2259" "NPE." 0 0
          [mk_reference 10 2 "" None "src/Foo.java";
           mk_reference 12 4 "here" None "src/Bar.java"]].
Proof.
  apply (proj1 (X12_plain_issue_one_finding Examples.env_build
                  (mk_issue "java:S2259" "proj:src/Foo.java" "NPE." None
                     [[mk_location (Some (mk_range 10 2)) None
                         "proj:src/Foo.java";
                       mk_location (Some (mk_range 12 4)) (Some "here")
                         "proj:src/Bar.java"]])
                  eq_refl)).
  repeat constructor; by eexists.
Defined.

(* ===================================================================== *)
(** * Pagination of the issue search                                      *)
(* ===================================================================== *)

Section PaginationFacts.

Context {I : Type}.
Implicit Types (pages : list (list I)).

(** From a page numbered [k] on, the generator reads the pages that
    follow as long as the last page read leaves issues to read. *)
Lemma get_issues_from_pages (k ps total : Z) pages
    (rest : list (res (Api.http_response (Api.issues_page I)))) :
  (forall j : nat, (j < length pages)%nat -> (k + Z.of_nat j) * ps < total) ->
  total <= (k + Z.of_nat (length pages)) * ps ->
  Api.get_issues_from k ps total
    (Expected.page_answers (k + 1) ps total pages ++ rest)
  = (concat pages, None, false).
Proof.
  revert k. induction pages as [|pg pages IH]; intros k Hlt Hge.
  - simpl in *. rewrite Z.add_0_r in Hge.
    destruct rest; simpl;
      by destruct (Z.ltb_spec (k * ps) total) as [?|_]; [lia|].
  - cbn [Expected.page_answers app Api.get_issues_from].
    pose proof (Hlt 0%nat ltac:(simpl; lia)) as H0.
    rewrite Z.add_0_r in H0.
    destruct (Z.ltb_spec (k * ps) total) as [_|?]; [|lia].
    unfold Api.json_endpoint, Api._request. simpl.
    rewrite IH; [done | |].
    + intros j Hj. specialize (Hlt (S j) ltac:(simpl; lia)). lia.
    + cbn [length] in Hge. lia.
Qed.

End PaginationFacts.

(** X13. Against a server that numbers its pages from 1 and reports the
    same page size and total with each, the issue search reads page
    after page until the pages read cover the total, and yields their
    issues in order: the first page is always asked for, a further one
    only while page number times page size is below the total, and
    nothing is asked after the last. *)
Theorem X13_issue_search_reads_all_pages
    {I : Type} (ps total : Z) (pg : list I) (pages : list (list I))
    (rest : list (res (Api.http_response (Api.issues_page I)))) :
  (forall j : nat, (j < length pages)%nat -> (1 + Z.of_nat j) * ps < total) ->
  total <= (1 + Z.of_nat (length pages)) * ps ->
  Api.get_issues (Expected.page_answers 1 ps total (pg :: pages) ++ rest)
  = (concat (pg :: pages), None, false).
Proof.
  intros Hlt Hge. unfold Api.get_issues.
  cbn [Expected.page_answers app Api.get_issues_from].
  change (1 * 1 <? 2) with true. cbv iota.
  unfold Api.json_endpoint, Api._request. simpl.
  by rewrite (get_issues_from_pages 1 ps total pages rest Hlt Hge).
Qed.

Lemma X13_issue_search_reads_all_pages_witness :
  Api.get_issues
    (Expected.page_answers 1 2 5 [[1%nat; 2%nat]; [3%nat; 4%nat]; [5%nat]]
       ++ [Raise (ServerError "never asked")])
  = ([1%nat; 2%nat; 3%nat; 4%nat; 5%nat], None, false).
Proof.
  apply (X13_issue_search_reads_all_pages 2 5 [1%nat; 2%nat]
           [[3%nat; 4%nat]; [5%nat]]).
  - intros j Hj. simpl in Hj.
    destruct j as [|[|j]]; simpl; lia.
  - simpl. lia.
Defined.


Lemma extract_loop_end (env : extract_env) (pre : list issue) (e : exn) :
  forallb (Expected.processed env) pre = true ->
  extract_loop env [] pre (Some e)
  = Expected.on_exception (Expected.findings_so_far env pre) e
  /\ extract_loop env [] pre None = Ok (Expected.findings_so_far env pre).
Proof.
  intros Hpre. split.
  - rewrite <- (app_nil_r pre) at 1. by rewrite extract_loop_processed.
  - rewrite <- (app_nil_r pre) at 1. by rewrite extract_loop_processed.
Qed.

(** X14. A refused search does not always fail the scan. When the first
    answer of the issue search is a 400, the extractor returns no
    findings and no error; when a later page is answered with 400, it
    returns the findings of the pages before. An answer from 500 on
    leaves the scan with ServerError. *)
Theorem X14_refused_issue_search
    (env : extract_env) (ps total : Z) (pg : list issue)
    (r : Api.http_response (Api.issues_page issue))
    (rest : list (res (Api.http_response (Api.issues_page issue)))) :
  forallb (Expected.processed env) pg = true ->
  1 * ps < total ->
  (Api.status_code r = 400 ->
   extract_issues env (Ok r :: rest) = Some (Ok [])
   /\ extract_issues env
        (Expected.page_answers 1 ps total [pg] ++ Ok r :: rest)
      = Some (Ok (Expected.findings_so_far env pg)))
  /\ (500 <= Api.status_code r ->
      extract_issues env (Ok r :: rest)
      = Some (Raise (ServerError (Api.reason r)))).
Proof.
  intros Hpg Hmore. split.
  - intros H400. split.
    + unfold extract_issues, Api.get_issues. cbn [Api.get_issues_from].
      change (1 * 1 <? 2) with true. cbv iota.
      unfold Api.json_endpoint, Api._request. simpl.
      by rewrite (classify_400 r H400).
    + unfold extract_issues, Api.get_issues.
      cbn [Expected.page_answers app Api.get_issues_from].
      change (1 * 1 <? 2) with true. cbv iota.
      unfold Api.json_endpoint, Api._request. simpl.
      destruct (Z.ltb_spec (1 * ps) total) as [_|?]; [|lia].
      rewrite (classify_400 r H400). simpl. rewrite app_nil_r.
      by destruct (extract_loop_end env pg
                     (ValidationError (PyStr.join ", " (Api.errors r))) Hpg)
        as [-> _].
  - intros H500.
    unfold extract_issues, Api.get_issues. cbn [Api.get_issues_from].
    change (1 * 1 <? 2) with true. cbv iota.
    unfold Api.json_endpoint, Api._request. simpl.
    by rewrite (classify_server r H500).
Qed.

Lemma X14_refused_issue_search_witness :
  extract_issues Examples.env_build
    [Examples.answer 400 (Api.mk_page 1 100 0 [])] = Some (Ok [])
  /\ extract_issues Examples.env_build
       [Examples.answer 503 (Api.mk_page 1 100 0 [])]
     = Some (Raise (ServerError "")).
Proof.
  destruct (X14_refused_issue_search Examples.env_build 1 2 []
              (Api.mk_response 400 "" [] (Api.mk_page 1 100 0 [])) [])
    as [H400 _]; [reflexivity | lia |].
  destruct (X14_refused_issue_search Examples.env_build 1 2 []
              (Api.mk_response 503 "" [] (Api.mk_page 1 100 0 [])) [])
    as [_ H500]; [reflexivity | lia |].
  split.
  - apply H400. reflexivity.
  - apply H500. vm_compute. congruence.
Defined.

(* ===================================================================== *)
(** * More on the quality profiles                                        *)
(* ===================================================================== *)

Section ProfileMoreFacts.

Variable cfg : string -> string -> res (list (string * string)).
Implicit Types (d : gmap string string) (ps : list parameter)
  (r : rule_elem) (doc : profile_doc) (fs : gmap string profile_doc)
  (paths : list (string * string)).

Lemma override_parameters_idem d ps :
  override_parameters d (override_parameters d ps)
  = override_parameters d ps.
Proof.
  induction ps as [|pa ps IH]; [done|].
  unfold override_parameters in *. cbn [List.map]. rewrite IH. f_equal.
  destruct (d !! p_key pa) as [v|] eqn:Hd; simpl; by rewrite Hd.
Qed.

(** A rule that was kept is kept as it is when it is processed again. *)
Lemma process_rule_idem rules rule_list r r' :
  process_rule cfg rules rule_list r = Ok (Some r') ->
  process_rule cfg rules rule_list r' = Ok (Some r').
Proof.
  intros H.
  assert (Hname : real_name r' = real_name r).
  { apply process_rule_kept in H as (_ & H1 & H2 & _).
    unfold real_name. by rewrite H1, H2. }
  revert H. unfold process_rule. rewrite Hname.
  destruct (mem (real_name r) rules); [|done]. cbn [negb].
  destruct (find_rule_param rule_list (real_name r)) as [rp|];
    [|by intros [= <-]].
  destruct (PyStr.nonempty rp); cbn [negb]; [|by intros [= <-]].
  destruct (ConfigReader_read cfg _ "sq") as [d|e]; [|done]. simpl.
  destruct (decide (d = ∅)); [by intros [= <-]|].
  intros [= <-]. simpl. by rewrite override_parameters_idem.
Qed.

Lemma traverse_Some_omap_id {A} (f : A -> res (option A)) (l : list (option A)) :
  Forall (fun o => match o with
                   | Some x => f x = Ok (Some x)
                   | None => True
                   end) l ->
  exists rs, traverse f (omap id l) = Ok rs /\ omap id rs = omap id l.
Proof.
  induction 1 as [|o l Ho _ (rs & Hrs & Heq)]; [by exists []|].
  destruct o as [x|].
  - change (omap id (Some x :: l)) with (x :: omap id l).
    cbn [traverse]. rewrite Ho, Hrs. cbn [mbind res_bind].
    exists (Some x :: rs).
    change (omap id (Some x :: rs)) with (x :: omap id rs).
    by rewrite Heq.
  - change (omap id (None :: l)) with (omap id l). by exists rs.
Qed.

Lemma process_doc_idem rules rule_list doc doc' :
  process_doc cfg rules rule_list doc = Ok doc' ->
  process_doc cfg rules rule_list doc' = Ok doc'.
Proof.
  unfold process_doc.
  destruct (traverse _ (pd_rules doc)) as [rs|e] eqn:Hrs; [|done].
  simpl. intros [= <-]. simpl.
  apply traverse_Ok_Forall2 in Hrs.
  destruct (traverse_Some_omap_id (process_rule cfg rules rule_list) rs)
    as (rs' & Htr & Hom);
    [|rewrite Htr; cbn [mbind res_bind]; by rewrite Hom].
  clear -Hrs. induction Hrs as [|r o l rs Hr _ IH]; constructor; [|done].
  destruct o as [r'|]; [|done]. by eapply process_rule_idem.
Qed.

End ProfileMoreFacts.

(** X16. Filtering a profile document is idempotent: a document that
    the filter has written is written again unchanged, so a document kept
    for two languages, or a file of the user that an earlier run has
    filtered in place, is safe to process again. *)
Theorem X16_filter_idempotent
    (cfg : string -> string -> res (list (string * string)))
    (rules : list string) (rule_list : list rule_info)
    (doc doc' : profile_doc) :
  process_doc cfg rules rule_list doc = Ok doc' ->
  process_doc cfg rules rule_list doc' = Ok doc'.
Proof. apply process_doc_idem. Qed.

Lemma X16_filter_idempotent_witness :
  let doc' :=
    mk_doc "TCA java" "java"
      [Examples.R1;
       mk_rule "java" "S3776"
         [mk_parameter "Threshold" "20"; mk_parameter "format" "^[a-z]+$"]] in
  process_doc Examples.ini_items (pe_rules Examples.env_default)
    (pe_rule_list Examples.env_default) doc' = Ok doc'.
Proof.
  intros doc'.
  apply (X16_filter_idempotent Examples.ini_items _ _
           (mk_doc "TCA java" "java" [Examples.R1; Examples.R2; Examples.R3])).
  vm_compute. reflexivity.
Defined.

Section UserProfileFacts.

Implicit Types (fs : gmap string profile_doc).

(** The files of the user that exist only change the dictionary of kept
    paths; the first that is missing ends the loop. *)
Lemma add_user_first_missing st procs source_dir langs pre path rest
    (paths : odict) fs :
  Forall (fun p => is_Some (fs !! PosixPath.join source_dir p)) pre ->
  fs !! PosixPath.join source_dir path = None ->
  add_user st procs source_dir langs (pre ++ path :: rest) paths fs
  = (fst (_raise_error st procs
            ("自主设置的配置文件(" +:+ path
               +:+ ")不存在, 请自查，填写正确的配置文件路径。")
            (Some "config")),
     Raise (ConfigError
              ("自主设置的配置文件(" +:+ path
                 +:+ ")不存在, 请自查，填写正确的配置文件路径。"))).
Proof.
  intros Hpre Hmiss. revert paths.
  induction Hpre as [|p pre [d Hd] _ IH]; intros paths.
  - cbn [app add_user]. by rewrite Hmiss.
  - cbn [app add_user]. rewrite Hd. by destruct (negb _).
Qed.

End UserProfileFacts.

(** X17. A file of SONAR_QUALITYPROFILE that does not exist is a
    ConfigError: the loop over the files of the user stops at the first
    missing one, whatever files follow and whatever was kept before,
    after the teardown of a local server, and nothing is filtered or
    published. *)
Theorem X17_missing_user_profile
    (cfg : string -> string -> res (list (string * string)))
    (st : SonarQube) (procs : list proc) (env : profile_env)
    (fs fs2 : gmap string profile_doc) (paths2 : odict) (up : string)
    (pre : list string) (path : string) (rest : list string) :
  Expected.defaults_and_typed env fs = Ok (paths2, fs2) ->
  SONAR_QUALITYPROFILE env = Some up ->
  PyStr.nonempty up = true ->
  PyStr.split ";" up = pre ++ path :: rest ->
  Forall (fun p => is_Some (fs2 !! PosixPath.join (pe_source_dir env) p))
    pre ->
  fs2 !! PosixPath.join (pe_source_dir env) path = None ->
  _set_qualityprofiles cfg st procs env fs
  = ((if model_eqb (model st) LOCAL_MODEL then _kill_sonar procs else []),
     Raise (ConfigError
              ("自主设置的配置文件(" +:+ path
                 +:+ ")不存在, 请自查，填写正确的配置文件路径。"))).
Proof.
  intros H12 Hup Hne Hsplit Hpre Hmiss.
  unfold _set_qualityprofiles. cbv zeta.
  change ('(paths, fs1) ←
            add_defaults (pe_profiles_path env)
              (get_dir_files (pe_tool_profiles env) profile_suffix) [] fs;
          match SONAR_QUALITYPROFILE_TYPE env with
          | None => Ok (paths, fs1)
          | Some ty =>
              add_typed (pe_profiles_path env)
                (PyStr.split "," (pe_languages env))
                (get_dir_files (pe_tool_profiles env)
                   (PyStr.lower ("_" +:+ ty +:+ ".xml")))
                paths fs1
          end)
    with (Expected.defaults_and_typed env fs).
  rewrite H12, Hup, Hne, Hsplit.
  by rewrite add_user_first_missing.
Qed.

Lemma X17_missing_user_profile_witness :
  exists msg,
    _set_qualityprofiles Examples.ini_items Examples.local_linux
      [Examples.java_proc]
      (mk_profile_env "/data/src" "/task/workdir/profiles" [] [] "java"
         [Examples.default_path] None
         (Some "quality/custom.xml;quality/none.xml"))
      Examples.disk
    = ([EvKillSonar (Some 4711)], Raise (ConfigError msg)).
Proof.
  eexists.
  apply (X17_missing_user_profile Examples.ini_items Examples.local_linux
           [Examples.java_proc]
           (mk_profile_env "/data/src" "/task/workdir/profiles" [] [] "java"
              [Examples.default_path] None
              (Some "quality/custom.xml;quality/none.xml"))
           Examples.disk
           (<["/task/workdir/profiles/java_SonarQube_Profile.xml"
              := mk_doc "TCA java" "java"
                   [Examples.R1; Examples.R2; Examples.R3]]> Examples.disk)
           [("java", "/task/workdir/profiles/java_SonarQube_Profile.xml")]
           "quality/custom.xml;quality/none.xml"
           ["quality/custom.xml"] "quality/none.xml" []).
  - vm_compute. exact eq_refl.
  - reflexivity.
  - reflexivity.
  - reflexivity.
  - repeat constructor. vm_compute. by eexists.
  - vm_compute. reflexivity.
Defined.

(* ===================================================================== *)
(** * The environment and the commands of the scanner                     *)
(* ===================================================================== *)

Section CommandStringFacts.

Implicit Types (s t u old new : string) (c a : ascii) (l : list string).
#[local] Arguments Ascii.eqb : simpl never.

Lemma lacks_cons c a s :
  Expected.lacks c (String a s)
  = negb (Ascii.eqb a c) && Expected.lacks c s.
Proof. reflexivity. Qed.

Lemma lacks_app c s t :
  Expected.lacks c (s +:+ t) = Expected.lacks c s && Expected.lacks c t.
Proof.
  induction s as [|a s IH]; [done|].
  by rewrite append_cons, !lacks_cons, IH, andb_assoc.
Qed.

Lemma lacks_join c sep l :
  Expected.lacks c sep = true ->
  Forall (fun p => Expected.lacks c p = true) l ->
  Expected.lacks c (PyStr.join sep l) = true.
Proof.
  intros Hsep. induction 1 as [|x l Hx _ IH]; [done|].
  destruct l as [|y l]; [done|].
  rewrite join_cons by done. by rewrite !lacks_app, Hx, Hsep, IH.
Qed.

Lemma join_snoc sep l x :
  l <> [] -> PyStr.join sep (l ++ [x]) = PyStr.join sep l +:+ sep +:+ x.
Proof.
  induction l as [|y l IH]; [done|]. intros _.
  destruct l as [|z l].
  - reflexivity.
  - change ((y :: z :: l) ++ [x]) with (y :: ((z :: l) ++ [x])).
    rewrite join_cons by done. rewrite IH by done.
    rewrite (join_cons sep y (z :: l)) by done.
    by rewrite !append_assoc.
Qed.

(** Splitting what a join gave restores the list. *)
Lemma split_join c l :
  l <> [] ->
  Forall (fun p => Expected.lacks c p = true) l ->
  PyStr.split c (PyStr.join (String c EmptyString) l) = l.
Proof.
  intros Hne Hl. induction Hl as [|x l Hx Hl IH]; [done|].
  destruct l as [|y l].
  - by apply split_lacks.
  - rewrite join_cons by done.
    change (x +:+ String c EmptyString +:+ PyStr.join (String c EmptyString) (y :: l))
      with (x +:+ String c (PyStr.join (String c EmptyString) (y :: l))).
    rewrite split_app_sep, IH by done. by rewrite split_lacks.
Qed.

Lemma mem_app x l1 l2 : mem x (l1 ++ l2) = mem x l1 || mem x l2.
Proof. unfold mem. apply existsb_app. Qed.

Lemma nonempty_app_r s t :
  PyStr.nonempty t = true -> PyStr.nonempty (s +:+ t) = true.
Proof. destruct s; [done|]. by rewrite append_cons. Qed.

Lemma lstrip_char_lacks c s :
  Expected.lacks c s = true -> SqCmd.lstrip_char c s = s.
Proof.
  destruct s as [|a s]; [done|]. rewrite lacks_cons.
  intros [Ha _]%andb_true_iff. apply negb_true_iff in Ha.
  simpl. by rewrite Ha.
Qed.

Lemma rstrip_char_lacks c s :
  Expected.lacks c s = true -> SqCmd.rstrip_char c s = s.
Proof.
  induction s as [|a s IH]; [done|]. rewrite lacks_cons.
  intros [Ha Hs]%andb_true_iff. apply negb_true_iff in Ha.
  simpl. rewrite IH by done. destruct s; by rewrite ?Ha.
Qed.

Lemma rstrip_char_snoc c s :
  Expected.lacks c s = true ->
  SqCmd.rstrip_char c (s +:+ String c EmptyString) = s.
Proof.
  induction s as [|a s IH].
  - intros _. simpl. by rewrite Ascii.eqb_refl.
  - rewrite lacks_cons.
    intros [Ha Hs]%andb_true_iff. apply negb_true_iff in Ha.
    rewrite append_cons. cbn [SqCmd.rstrip_char]. rewrite IH by done.
    destruct s; by rewrite ?Ha.
Qed.

(** A text in quotes of a character it does not hold loses the quotes. *)
Lemma strip_char_quoted c s :
  Expected.lacks c s = true ->
  SqCmd.strip_char c (String c (s +:+ String c EmptyString)) = s.
Proof.
  intros Hs. unfold SqCmd.strip_char.
  cbn [SqCmd.lstrip_char]. rewrite Ascii.eqb_refl.
  destruct s as [|a s].
  - simpl. rewrite Ascii.eqb_refl. simpl. reflexivity.
  - rewrite lacks_cons in Hs.
    apply andb_true_iff in Hs as [Ha Hs]. apply negb_true_iff in Ha.
    rewrite append_cons. cbn [SqCmd.lstrip_char]. rewrite Ha.
    rewrite <- append_cons. apply rstrip_char_snoc.
    by rewrite lacks_cons, Ha.
Qed.

Lemma strip_char_lacks c s :
  Expected.lacks c s = true -> SqCmd.strip_char c s = s.
Proof.
  intros Hs. unfold SqCmd.strip_char.
  by rewrite lstrip_char_lacks, rstrip_char_lacks.
Qed.

(** Where the old text does not occur nothing is replaced. *)
Lemma replace_from_absent fuel old new s :
  PyStr.contains s old = false -> SqCmd.replace_from fuel old new s = s.
Proof.
  revert s. induction fuel as [|fuel IH]; intros s Hs; [done|].
  cbn [SqCmd.replace_from].
  destruct s as [|a s].
  - simpl in Hs. apply orb_false_iff in Hs as [Hs _].
    by rewrite Hs, andb_false_r.
  - cbn [PyStr.contains] in Hs. apply orb_false_iff in Hs as [Hs Hs'].
    rewrite Hs, andb_false_r. by rewrite IH.
Qed.

Lemma lacks_star_contains s :
  Expected.lacks "*" s = true ->
  PyStr.contains s "*" = false /\ PyStr.contains s ".*" = false.
Proof.
  induction s as [|a s IH]; [done|]. rewrite lacks_cons.
  intros [Ha Hs]%andb_true_iff. apply negb_true_iff in Ha.
  destruct (IH Hs) as [IH1 IH2]. cbn [PyStr.contains]. rewrite IH1, IH2.
  split.
  - simpl. rewrite Ascii.eqb_sym, Ha. reflexivity.
  - rewrite orb_false_r. simpl.
    destruct s as [|b s]; [by rewrite andb_false_r|].
    rewrite lacks_cons in Hs. apply andb_true_iff in Hs as [Hb _].
    apply negb_true_iff in Hb.
    by rewrite (Ascii.eqb_sym "*" b), Hb, andb_false_r.
Qed.

(** A key without an equals sign that starts an argument of the form
    [key=...] as another such key does, is that key. *)
Lemma startswith_key k p t :
  Expected.lacks "=" k = true -> Expected.lacks "=" p = true ->
  PyStr.startswith (k +:+ String "=" t) (p +:+ "=") = true -> k = p.
Proof.
  revert p. induction k as [|a k IH]; intros p Hk Hp.
  - rewrite ?append_nil_l_string. destruct p as [|b p]; [done|].
    rewrite append_cons. simpl. rewrite lacks_cons in Hp.
    apply andb_true_iff in Hp as [Hb _]. apply negb_true_iff in Hb.
    by rewrite Hb.
  - rewrite append_cons. rewrite lacks_cons in Hk.
    apply andb_true_iff in Hk as [Ha Hk]. apply negb_true_iff in Ha.
    destruct p as [|b p].
    + rewrite ?append_nil_l_string. simpl.
      by rewrite Ascii.eqb_sym, Ha.
    + rewrite append_cons. simpl. rewrite lacks_cons in Hp.
      apply andb_true_iff in Hp as [_ Hp].
      intros [Hab H]%andb_true_iff.
      apply Ascii.eqb_eq in Hab as ->. f_equal. by apply IH.
Qed.

End CommandStringFacts.

(** X18. With a local server the no_proxy variable lists localhost
    afterwards, whatever it held: a value that is set and not empty is
    kept as it is or gets ",localhost" at its end, and a second pass
    changes nothing. *)
Theorem X18_no_proxy_lists_localhost
    (st : SonarQube) (no_proxy : option string) :
  model st = LOCAL_MODEL ->
  exists v,
    SqCmd.set_no_proxy st no_proxy = Some v
    /\ mem "localhost" (PyStr.split "," v) = true
    /\ (forall s, no_proxy = Some s -> PyStr.nonempty s = true ->
          v = s \/ v = s +:+ ",localhost")
    /\ SqCmd.set_no_proxy st (Some v) = Some v.
Proof.
  intros Hm. unfold SqCmd.set_no_proxy. rewrite Hm. cbn [model_eqb].
  assert (Hfresh : forall x : option string,
            x = None \/ x = Some EmptyString ->
            exists v,
              Some "localhost" = Some v
              /\ mem "localhost" (PyStr.split "," v) = true
              /\ (forall s, x = Some s -> PyStr.nonempty s = true ->
                    v = s \/ v = s +:+ ",localhost")
              /\ (if mem "localhost"
                       (if PyStr.nonempty v then PyStr.split "," v else [])
                  then Some v
                  else Some (PyStr.join ","
                               ((if PyStr.nonempty v then PyStr.split "," v
                                 else []) ++ ["localhost"]))) = Some v).
  { intros x Hc. exists "localhost". split_and!; [done|done| |done].
    intros s Hs Hne. destruct Hc as [->| ->]; [done|].
    injection Hs as <-. done. }
  destruct no_proxy as [s|]; [|by apply Hfresh; left].
  destruct (PyStr.nonempty s) eqn:Hne;
    [|destruct s; [by apply Hfresh; right|done]].
  destruct (mem "localhost" (PyStr.split "," s)) eqn:Hmem.
  - exists s. split_and!; [done|done| |].
    + intros s' [= <-] _. by left.
    + by rewrite Hne, Hmem.
  - assert (Hv : PyStr.join "," (PyStr.split "," s ++ ["localhost"])
                 = s +:+ ",localhost").
    { rewrite join_snoc by apply split_nonempty. by rewrite join_split. }
    rewrite Hv. exists (s +:+ ",localhost").
    assert (Hm' : mem "localhost" (PyStr.split "," (s +:+ ",localhost"))
                  = true).
    { change (s +:+ ",localhost") with (s +:+ String "," "localhost").
      rewrite split_app_sep, mem_app. apply orb_true_r. }
    split_and!; [done|done| |].
    + intros s' [= <-] _. by right.
    + rewrite nonempty_app_r by done. by rewrite Hm'.
Qed.

Lemma X18_no_proxy_lists_localhost_witness :
  exists v,
    SqCmd.set_no_proxy Examples.local_linux (Some "127.0.0.1,.corp")
    = Some v
    /\ mem "localhost" (PyStr.split "," v) = true
    /\ (forall s, Some "127.0.0.1,.corp" = Some s ->
          PyStr.nonempty s = true ->
          v = s \/ v = s +:+ ",localhost")
    /\ SqCmd.set_no_proxy Examples.local_linux (Some v) = Some v.
Proof.
  apply (X18_no_proxy_lists_localhost Examples.local_linux
           (Some "127.0.0.1,.corp")).
  reflexivity.
Defined.

(** X19. A path without a star passes both path filters unchanged, so
    a list of such paths comes back as it was given. *)
Theorem X19_plain_paths_unchanged (path_list : list string) :
  Forall (fun p => Expected.lacks "*" p = true) path_list ->
  SqCmd._sonar_path_filter path_list = path_list
  /\ SqCmd._sonar_regex_path_filter path_list = path_list.
Proof.
  intros H. unfold SqCmd._sonar_path_filter, SqCmd._sonar_regex_path_filter.
  induction H as [|p l Hp _ [IH1 IH2]]; [done|].
  rewrite !fmap_cons, IH1, IH2.
  destruct (lacks_star_contains p Hp) as [H1 H2].
  unfold SqCmd.replace. by rewrite !replace_from_absent.
Qed.

Lemma X19_plain_paths_unchanged_witness :
  SqCmd._sonar_path_filter ["src/test"; "third_party/lib.jar"]
  = ["src/test"; "third_party/lib.jar"]
  /\ SqCmd._sonar_regex_path_filter ["src/test"; "third_party/lib.jar"]
     = ["src/test"; "third_party/lib.jar"].
Proof.
  apply X19_plain_paths_unchanged. repeat constructor.
Defined.

(** X20. An argument [-Dkey=value] becomes [/d:key="value"] for MSBuild
    when key and value hold no equals sign, and the project key becomes
    [/k:"value"]; what follows a second equals sign of the argument is
    dropped. *)
Theorem X20_msbuild_argument (k v rest : string) :
  Expected.lacks "=" k = true ->
  Expected.lacks "=" v = true ->
  k <> "sonar.projectKey" ->
  SqCmd.vs_arg ("-D" +:+ k +:+ "=" +:+ v)
  = Ok ("/d:" +:+ k +:+ "=" +:+ SqCmd.dq +:+ v +:+ SqCmd.dq)
  /\ SqCmd.vs_arg ("-D" +:+ k +:+ "=" +:+ v +:+ "=" +:+ rest)
     = Ok ("/d:" +:+ k +:+ "=" +:+ SqCmd.dq +:+ v +:+ SqCmd.dq)
  /\ SqCmd.vs_arg ("-Dsonar.projectKey=" +:+ v)
     = Ok ("/k:" +:+ SqCmd.dq +:+ v +:+ SqCmd.dq)
  /\ SqCmd.vs_arg ("-Dsonar.projectKey=" +:+ v +:+ "=" +:+ rest)
     = Ok ("/k:" +:+ SqCmd.dq +:+ v +:+ SqCmd.dq).
Proof.
  intros Hk Hv Hkey.
  assert (Hsplit : forall pre t,
            Expected.lacks "=" pre = true ->
            PyStr.split "=" (pre +:+ "=" +:+ v +:+ t)
            = pre :: PyStr.split "=" (v +:+ t)).
  { intros pre t Hpre.
    change (pre +:+ "=" +:+ v +:+ t) with (pre +:+ String "=" (v +:+ t)).
    by rewrite split_app_sep, split_lacks. }
  assert (Hsplit0 : forall pre,
            Expected.lacks "=" pre = true ->
            PyStr.split "=" (pre +:+ "=" +:+ v) = [pre; v]).
  { intros pre Hpre.
    change (pre +:+ "=" +:+ v) with (pre +:+ String "=" v).
    by rewrite split_app_sep, !split_lacks. }
  assert (Hv2 : PyStr.split "=" (v +:+ "=" +:+ rest)
                = v :: PyStr.split "=" rest).
  { change (v +:+ "=" +:+ rest) with (v +:+ String "=" rest).
    by rewrite split_app_sep, split_lacks. }
  assert (Hno : forall t,
            PyStr.startswith ("-D" +:+ k +:+ "=" +:+ t) "-Dsonar.projectKey="
            = false).
  { intros t. apply not_true_is_false. intros H. apply Hkey.
    change ("-D" +:+ k +:+ "=" +:+ t)
      with (String "-" (String "D" (k +:+ String "=" t))) in H.
    change "-Dsonar.projectKey="
      with (String "-" (String "D" ("sonar.projectKey" +:+ "="))) in H.
    cbn [PyStr.startswith] in H. rewrite !Ascii.eqb_refl in H.
    by apply (startswith_key k "sonar.projectKey" t). }
  assert (Hd : forall t, PyStr.startswith ("-D" +:+ k +:+ t) "-D" = true).
  { intros t. apply (startswith_app_self "-D"). }
  assert (HkD : Expected.lacks "=" ("-D" +:+ k) = true).
  { by rewrite lacks_app, Hk. }
  assert (Hrw : forall t, "-D" +:+ k +:+ "=" +:+ v +:+ t
                          = ("-D" +:+ k) +:+ "=" +:+ v +:+ t).
  { intros t. by rewrite append_assoc. }
  split_and!.
  - unfold SqCmd.vs_arg. rewrite (Hno v), (Hd ("=" +:+ v)).
    rewrite <- append_assoc, Hsplit0 by done. reflexivity.
  - unfold SqCmd.vs_arg. rewrite Hno, Hd.
    rewrite Hrw, Hsplit, Hv2 by done. reflexivity.
  - unfold SqCmd.vs_arg.
    rewrite (startswith_app_self "-Dsonar.projectKey=").
    change ("-Dsonar.projectKey=" +:+ v)
      with ("-Dsonar.projectKey" +:+ "=" +:+ v).
    rewrite Hsplit0 by done. reflexivity.
  - unfold SqCmd.vs_arg.
    rewrite (startswith_app_self "-Dsonar.projectKey=").
    change ("-Dsonar.projectKey=" +:+ v +:+ "=" +:+ rest)
      with ("-Dsonar.projectKey" +:+ "=" +:+ v +:+ "=" +:+ rest).
    rewrite Hsplit, Hv2 by done. reflexivity.
Qed.

Lemma X20_msbuild_argument_witness :
  SqCmd.vs_arg ("-D" +:+ "sonar.login" +:+ "=" +:+ "admin")
  = Ok ("/d:" +:+ "sonar.login" +:+ "=" +:+ SqCmd.dq +:+ "admin"
          +:+ SqCmd.dq)
  /\ SqCmd.vs_arg
       ("-D" +:+ "sonar.login" +:+ "=" +:+ "admin" +:+ "=" +:+ "x=y")
     = Ok ("/d:" +:+ "sonar.login" +:+ "=" +:+ SqCmd.dq +:+ "admin"
             +:+ SqCmd.dq)
  /\ SqCmd.vs_arg ("-Dsonar.projectKey=" +:+ "admin")
     = Ok ("/k:" +:+ SqCmd.dq +:+ "admin" +:+ SqCmd.dq)
  /\ SqCmd.vs_arg ("-Dsonar.projectKey=" +:+ "admin" +:+ "=" +:+ "x=y")
     = Ok ("/k:" +:+ SqCmd.dq +:+ "admin" +:+ SqCmd.dq).
Proof.
  apply X20_msbuild_argument; [reflexivity | reflexivity | discriminate].
Defined.

(** X21. The parameters of SQ_CLIENT_PARAMS, separated by semicolons
    and put in double quotes or not, are added after the eight common
    arguments, one argument each and in their order. *)
Theorem X21_client_parameters_appended
    (st : SonarQube) (scannerwork : string) (ps : list string) :
  ps <> [] ->
  Forall (fun p => Expected.lacks ";" p = true) ps ->
  Forall (fun p => Expected.lacks "034" p = true) ps ->
  SqCmd._get_common_cmds st scannerwork
    (Some (SqCmd.dq +:+ PyStr.join ";" ps +:+ SqCmd.dq))
  = SqCmd._get_common_cmds st scannerwork None ++ ps
  /\ (PyStr.nonempty (PyStr.join ";" ps) = true ->
      SqCmd._get_common_cmds st scannerwork (Some (PyStr.join ";" ps))
      = SqCmd._get_common_cmds st scannerwork None ++ ps).
Proof.
  intros Hne Hsemi Hdq.
  assert (Hj : Expected.lacks "034" (PyStr.join ";" ps) = true).
  { by apply lacks_join. }
  unfold SqCmd._get_common_cmds. split.
  - change (SqCmd.dq +:+ PyStr.join ";" ps +:+ SqCmd.dq)
      with (String "034" (PyStr.join ";" ps +:+ String "034" EmptyString)).
    cbn [PyStr.nonempty]. rewrite strip_char_quoted by done.
    rewrite split_join by done. by rewrite app_nil_r.
  - intros ->. rewrite strip_char_lacks by done.
    rewrite split_join by done. by rewrite app_nil_r.
Qed.

Lemma X21_client_parameters_appended_witness :
  SqCmd._get_common_cmds Examples.local_linux "/task/workdir/scannerwork"
    (Some (SqCmd.dq
             +:+ PyStr.join ";"
                   ["-Dsonar.javascript.globals=";
                    "-Dsonar.javascript.environments="]
             +:+ SqCmd.dq))
  = SqCmd._get_common_cmds Examples.local_linux "/task/workdir/scannerwork"
      None
    ++ ["-Dsonar.javascript.globals="; "-Dsonar.javascript.environments="]
  /\ (PyStr.nonempty
        (PyStr.join ";"
           ["-Dsonar.javascript.globals=";
            "-Dsonar.javascript.environments="]) = true ->
      SqCmd._get_common_cmds Examples.local_linux
        "/task/workdir/scannerwork"
        (Some (PyStr.join ";"
                 ["-Dsonar.javascript.globals=";
                  "-Dsonar.javascript.environments="]))
      = SqCmd._get_common_cmds Examples.local_linux
          "/task/workdir/scannerwork" None
        ++ ["-Dsonar.javascript.globals=";
            "-Dsonar.javascript.environments="]).
Proof.
  apply X21_client_parameters_appended;
    [discriminate | repeat constructor | repeat constructor].
Defined.

Section CommandFacts.

Context (shlex_split : string -> list string)
        (repr_bytes : string -> string)
        (outcome : list string -> string -> option SqCmd.finished).
Implicit Types (st : SonarQube) (procs : list proc) (env : SqCmd.scan_env).
#[local] Arguments Ascii.eqb : simpl never.

Lemma step_raise_eq {A} st procs msg err_type :
  @SqCmd.step_raise A st procs msg err_type
  = (Expected.teardown st procs,
     Raise (snd (_raise_error st procs msg (Some err_type)))).
Proof. reflexivity. Qed.

Lemma step_bind_Ok {A B} (m : SqCmd.step A) (k : A -> SqCmd.step B) a :
  m.2 = Ok a -> SqCmd.step_bind m k = (m.1 ++ (k a).1, (k a).2).
Proof. destruct m as [acts r]. simpl. intros ->. by destruct (k a). Qed.

Lemma step_bind_Raise {A B} (m : SqCmd.step A) (k : A -> SqCmd.step B) e :
  m.2 = Raise e -> SqCmd.step_bind m k = (m.1, Raise e).
Proof. destruct m as [acts r]. simpl. by intros ->. Qed.

Lemma step_bind_pure {A B} pre (a : A) (k : A -> SqCmd.step B) :
  SqCmd.step_bind (pre, Ok a) k = (pre ++ (k a).1, (k a).2).
Proof. simpl. by destruct (k a). Qed.

Lemma step_bind_ret {B} (m : SqCmd.step unit) (b : B) :
  SqCmd.step_bind m (fun _ => ([], Ok b))
  = (m.1, match m.2 with Ok _ => Ok b | Raise e => Raise e end).
Proof.
  destruct m as [acts [[]|e]]; simpl; by rewrite ?app_nil_r.
Qed.

Lemma commands_app a b :
  Expected.commands (a ++ b) = Expected.commands a ++ Expected.commands b.
Proof. unfold Expected.commands. apply omap_app. Qed.

Lemma written_app a b :
  Expected.written (a ++ b) = Expected.written a ++ Expected.written b.
Proof. unfold Expected.written. apply omap_app. Qed.

Lemma commands_teardown st procs :
  Expected.commands (Expected.teardown st procs) = [].
Proof.
  unfold Expected.teardown, _kill_sonar.
  by destruct (model_eqb _ _).
Qed.

Lemma written_teardown st procs :
  Expected.written (Expected.teardown st procs) = [].
Proof.
  unfold Expected.teardown, _kill_sonar.
  by destruct (model_eqb _ _).
Qed.

(** What [run_cmd] starts, writes and gives. *)
Lemma run_cmd_spec st procs command cwd cmd_type :
  Expected.commands
    (SqCmd.run_cmd repr_bytes outcome st procs command cwd cmd_type).1
  = [command]
  /\ Expected.written
       (SqCmd.run_cmd repr_bytes outcome st procs command cwd cmd_type).1
     = []
  /\ (SqCmd.run_cmd repr_bytes outcome st procs command cwd cmd_type).2
     = if Expected.succeeded (outcome command cwd) then Ok tt
       else match cmd_type with
            | Some "compile" => Raise (CompileTaskError SqCmd.msg_compile)
            | Some "analyze" => Raise (AnalyzeTaskError SqCmd.msg_analyze)
            | _ => Ok tt
            end.
Proof.
  assert (Hfail : forall ran,
    Expected.commands [ran] = [command] -> Expected.written [ran] = [] ->
    let m := SqCmd.step_bind
      ([SqCmd.Did (EvPrint ("[warning] run cmd: "
                              +:+ PyStr.join " " command));
        SqCmd.Did (EvPrint "[warning] Start cmd...")] ++ [ran], Ok tt)
      (fun _ : unit =>
         match cmd_type with
         | Some "compile" =>
             SqCmd.step_raise st procs SqCmd.msg_compile "compile"
         | Some "analyze" =>
             SqCmd.step_raise st procs SqCmd.msg_analyze "analyze"
         | _ => ([], Ok tt)
         end) in
    Expected.commands m.1 = [command] /\ Expected.written m.1 = []
    /\ m.2 = match cmd_type with
             | Some "compile" => Raise (CompileTaskError SqCmd.msg_compile)
             | Some "analyze" => Raise (AnalyzeTaskError SqCmd.msg_analyze)
             | _ => Ok tt
             end).
  { intros ran Hc Hw m. subst m.
    assert (Hc' : forall t, Expected.commands
              ([SqCmd.Did (EvPrint ("[warning] run cmd: "
                                      +:+ PyStr.join " " command));
                SqCmd.Did (EvPrint "[warning] Start cmd...")] ++ [ran] ++ t)
              = command :: Expected.commands t).
    { intros t. rewrite !commands_app, Hc. done. }
    assert (Hw' : forall t, Expected.written
              ([SqCmd.Did (EvPrint ("[warning] run cmd: "
                                      +:+ PyStr.join " " command));
                SqCmd.Did (EvPrint "[warning] Start cmd...")] ++ [ran] ++ t)
              = Expected.written t).
    { intros t. rewrite !written_app, Hw. done. }
    destruct cmd_type as [ty|]; [|cbn [SqCmd.step_bind fst snd];
      rewrite <- app_assoc, Hc', Hw'; done].
    destruct (decide (ty = "compile")) as [->|Hcomp].
    { rewrite step_raise_eq. cbn [SqCmd.step_bind fst snd].
      rewrite <- app_assoc, Hc', Hw', commands_teardown, written_teardown.
      done. }
    destruct (decide (ty = "analyze")) as [->|Hana].
    { rewrite step_raise_eq. cbn [SqCmd.step_bind fst snd].
      rewrite <- app_assoc, Hc', Hw', commands_teardown, written_teardown.
      done. }
    assert (He : forall X (x y z : X),
              match ty with
              | "compile" => x | "analyze" => y | _ => z end = z).
    { intros X x y z. repeat (case_match; try done); subst; done. }
    rewrite !He. cbn [SqCmd.step_bind fst snd].
    rewrite <- app_assoc, Hc', Hw'. done. }
  unfold SqCmd.run_cmd, Expected.succeeded.
  destruct (outcome command cwd) as [f|].
  - destruct (SqCmd.returncode f =? 0); cbn [negb].
    + cbn [SqCmd.step_bind fst snd]. done.
    + by apply Hfail.
  - by apply Hfail.
Qed.

Lemma vs_arg_Raise c e :
  SqCmd.vs_arg c = Raise e -> e = OtherError "IndexError".
Proof.
  unfold SqCmd.vs_arg. repeat case_match; congruence.
Qed.

Lemma vs_arg_without_value c :
  PyStr.startswith c "-D" = true -> Expected.lacks "=" c = true ->
  SqCmd.vs_arg c = Raise (OtherError "IndexError").
Proof.
  intros Hd Hl. unfold SqCmd.vs_arg.
  rewrite (split_lacks "=" c Hl). cbn [lookup list_lookup].
  by destruct (PyStr.startswith c "-Dsonar.projectKey="); rewrite ?Hd.
Qed.

Lemma mem_cons x y l : mem x (y :: l) = String.eqb x y || mem x l.
Proof. reflexivity. Qed.

Lemma err_reader_kill st procs lines rest chunk :
  model st = LOCAL_MODEL ->
  In chunk lines -> Expected.scanner_signature chunk = true ->
  In (EvKillSonar (pid <$> List.find is_sonar_proc procs))
    (SqCmd.err_reader repr_bytes st procs lines rest).
Proof.
  intros Hm Hin Hsig.
  assert (Hh : forall c,
            (SqCmd.__handle st procs c).2 = None
            /\ Expected.scanner_signature c = false
            \/ (exists e, (SqCmd.__handle st procs c).2 = Some e)
               /\ In (EvKillSonar (pid <$> List.find is_sonar_proc procs))
                    (SqCmd.__handle st procs c).1).
  { intros c. unfold SqCmd.__handle, Expected.scanner_signature,
      _raise_error, _kill_sonar.
    rewrite Hm. cbn [model_eqb].
    destruct (PyStr.contains c _).
    - right. split; [by eexists|]. cbn [fst]. right. by left.
    - destruct (PyStr.contains c _).
      + right. split; [by eexists|]. cbn [fst]. right. by left.
      + by left. }
  induction lines as [|c cs IH]; [done|].
  cbn [SqCmd.err_reader].
  destruct Hin as [->|Hin].
  - assert (Hne : PyStr.nonempty chunk = true).
    { destruct chunk; [|done]. by vm_compute in Hsig. }
    rewrite Hne.
    destruct (Hh chunk) as [[_ Hf]|[[e He] Hk]]; [congruence|].
    destruct (SqCmd.__handle st procs chunk) as [evs r].
    cbn [fst snd] in *. by subst r.
  - destruct (PyStr.nonempty c); [|by apply IH].
    destruct (Hh c) as [[Hn _]|[[e He] Hk]];
      destruct (SqCmd.__handle st procs c) as [evs r];
      cbn [fst snd] in *; subst r; [|done].
    apply in_or_app. right. by apply IH.
Qed.

End CommandFacts.

(** X22. The path filters only add to the common arguments: the
    arguments that are there stay in their order, at most two are put
    after them, the inclusions before the exclusions, and none when no
    filter list has an entry. *)
Theorem X22_filter_arguments_appended
    (pf : SqCmd.path_filters) (com_cmd : list string) :
  exists extra,
    SqCmd._add_sonar_filter_path pf com_cmd = com_cmd ++ extra
    /\ (length extra <= 2)%nat
    /\ (extra = []
        <-> SqCmd.wildcard_inclusion pf ++ SqCmd.re_inclusion pf
              ++ SqCmd.lint_inclusion pf ++ SqCmd.wildcard_exclusion pf
              ++ SqCmd.re_exclusion pf ++ SqCmd.lint_exclusion pf = [])
    /\ (forall i j a b,
          extra !! i = Some a -> extra !! j = Some b ->
          PyStr.startswith a "-Dsonar.exclusions=" = true ->
          PyStr.startswith b "-Dsonar.inclusions=" = true -> (j < i)%nat).
Proof.
  unfold SqCmd._add_sonar_filter_path.
  set (inc := (if SqCmd.truthy (SqCmd.wildcard_inclusion pf) then _ else _)
              ++ _).
  set (exc := (if SqCmd.truthy (SqCmd.wildcard_exclusion pf) then _ else _)
              ++ _).
  assert (Hinc : SqCmd.truthy inc = false
                 <-> SqCmd.wildcard_inclusion pf ++ SqCmd.re_inclusion pf
                       ++ SqCmd.lint_inclusion pf = []).
  { subst inc. unfold SqCmd._sonar_path_filter, SqCmd._sonar_regex_path_filter.
    destruct (SqCmd.wildcard_inclusion pf), (SqCmd.re_inclusion pf),
      (SqCmd.lint_inclusion pf); simpl; split; done. }
  assert (Hexc : SqCmd.truthy exc = false
                 <-> SqCmd.wildcard_exclusion pf ++ SqCmd.re_exclusion pf
                       ++ SqCmd.lint_exclusion pf = []).
  { subst exc. unfold SqCmd._sonar_path_filter, SqCmd._sonar_regex_path_filter.
    destruct (SqCmd.wildcard_exclusion pf), (SqCmd.re_exclusion pf),
      (SqCmd.lint_exclusion pf); simpl; split; done. }
  assert (Hall : SqCmd.wildcard_inclusion pf ++ SqCmd.re_inclusion pf
                   ++ SqCmd.lint_inclusion pf ++ SqCmd.wildcard_exclusion pf
                   ++ SqCmd.re_exclusion pf ++ SqCmd.lint_exclusion pf = []
                 <-> SqCmd.truthy inc = false /\ SqCmd.truthy exc = false).
  { rewrite Hinc, Hexc, !app_nil. tauto. }
  clearbody inc exc.
  assert (Hi : forall t, PyStr.startswith ("-Dsonar.inclusions=" +:+ t)
                           "-Dsonar.exclusions=" = false).
  { intros t. by destruct t. }
  assert (He : forall t, PyStr.startswith ("-Dsonar.exclusions=" +:+ t)
                           "-Dsonar.inclusions=" = false).
  { intros t. by destruct t. }
  destruct (SqCmd.truthy inc) eqn:Ei, (SqCmd.truthy exc) eqn:Ee.
  - eexists [_; _]. rewrite <- app_assoc. split_and!; [done|simpl; lia| |].
    + rewrite Hall. split; [done|]. by intros [? _].
    + intros [|[|i]] [|[|j]] a b; simpl; intros [= <-] [= <-] Ha Hb;
        try lia; by rewrite ?Hi, ?He in *.
  - eexists [_]. split_and!; [done|simpl; lia| |].
    + rewrite Hall. split; [done|]. by intros [? _].
    + intros [|i] [|j] a b; simpl; intros [= <-] [= <-] Ha Hb;
        by rewrite ?Hi, ?He in *.
  - eexists [_]. split_and!; [done|simpl; lia| |].
    + rewrite Hall. split; [done|]. by intros [_ ?].
    + intros [|i] [|j] a b; simpl; intros [= <-] [= <-] Ha Hb;
        by rewrite ?Hi, ?He in *.
  - exists []. rewrite app_nil_r. split_and!; [done|simpl; lia| |].
    + by rewrite Hall.
    + by intros [|i].
Qed.

(** X23. The C# scan turns the common arguments into those of MSBuild
    before it starts anything: an argument that begins with -D and has
    no equals sign ends the scan with an IndexError, with no command
    started, nothing written and no teardown of the server. *)
Theorem X23_msbuild_argument_without_value
    (shlex_split : string -> list string)
    (repr_bytes : string -> string)
    (outcome : list string -> string -> option SqCmd.finished)
    (st : SonarQube) (procs : list proc) (env : SqCmd.scan_env)
    (com_cmd : list string) (build_cmd : option string)
    (build_cwd : string) (c : string) :
  SqCmd.given build_cmd = true ->
  In c com_cmd ->
  PyStr.startswith c "-D" = true ->
  Expected.lacks "=" c = true ->
  SqCmd.scan_cs_proj shlex_split repr_bytes outcome st procs env com_cmd
    build_cmd build_cwd
  = ([], Raise (OtherError "IndexError")).
Proof.
  intros Hg Hin Hd Hl. unfold SqCmd.scan_cs_proj. rewrite Hg. cbn [negb].
  unfold SqCmd.change_to_vs_cmd.
  rewrite (traverse_Raise SqCmd.vs_arg (OtherError "IndexError")).
  - reflexivity.
  - intros x e'. apply vs_arg_Raise.
  - apply Exists_exists. exists c. split; [by apply list_elem_of_In|].
    eexists. by apply vs_arg_without_value.
Qed.

Lemma X23_msbuild_argument_without_value_witness :
  SqCmd.scan_cs_proj (PyStr.split " ") (fun b => b) (fun _ _ => None)
    Examples.local_linux [Examples.java_proc]
    (SqCmd.mk_scan_env None None None None None None None false false
       "/data/src/build.sh" "/task/workdir/scannerwork" false)
    ["-Dsonar.projectKey=test"; "-Dsonar.verbose"]
    (Some "msbuild app.sln") "/data/src"
  = ([], Raise (OtherError "IndexError")).
Proof.
  apply (X23_msbuild_argument_without_value _ _ _ _ _ _ _ _ _
           "-Dsonar.verbose"); [reflexivity | | reflexivity | reflexivity].
  right. by left.
Defined.

(** X24. A build type that is none of any, no_build, gradle, maven,
    mvn and ant, whatever the case of its letters, ends the Java scan
    with the ConfigError on SONAR_BUILD_TYPE: no command is started, and
    a local server is torn down first. *)
Theorem X24_unsupported_build_type
    (shlex_split : string -> list string)
    (repr_bytes : string -> string)
    (outcome : list string -> string -> option SqCmd.finished)
    (st : SonarQube) (procs : list proc) (env : SqCmd.scan_env)
    (com_cmd : list string) (build_type build_cwd : string)
    (build_cmd : option string) :
  mem (PyStr.lower build_type)
    ["any"; "no_build"; "gradle"; "maven"; "mvn"; "ant"] = false ->
  SqCmd.scan_java_proj shlex_split repr_bytes outcome st procs env com_cmd
    build_type build_cwd build_cmd
  = (SqCmd.Did
       <$> (if model_eqb (model st) LOCAL_MODEL then _kill_sonar procs
            else []),
     Raise (ConfigError SqCmd.msg_build_type)).
Proof.
  rewrite !mem_cons. intros H.
  repeat (apply orb_false_iff in H as [?E H]).
  unfold SqCmd.scan_java_proj. cbv zeta. rewrite !mem_cons.
  rewrite E, E0, E1, E2, E3, E4. reflexivity.
Qed.

Lemma X24_unsupported_build_type_witness :
  SqCmd.scan_java_proj (PyStr.split " ") (fun b => b) (fun _ _ => None)
    Examples.local_linux [Examples.java_proc]
    (SqCmd.mk_scan_env None None None None None None None false false
       "/data/src/build.sh" "/task/workdir/scannerwork" false)
    ["-Dsonar.projectKey=test"] "Bazel" "/data/src" (Some "bazel build //...")
  = (SqCmd.Did
       <$> (if model_eqb (model Examples.local_linux) LOCAL_MODEL
            then _kill_sonar [Examples.java_proc] else []),
     Raise (ConfigError SqCmd.msg_build_type)).
Proof.
  apply X24_unsupported_build_type. reflexivity.
Defined.

(** X25. With the build types gradle and ant the Java scan needs a
    build command: without one it raises the CompileTaskError that asks
    for it, before any command is started and after the teardown of a
    local server. *)
Theorem X25_build_command_required
    (shlex_split : string -> list string)
    (repr_bytes : string -> string)
    (outcome : list string -> string -> option SqCmd.finished)
    (st : SonarQube) (procs : list proc) (env : SqCmd.scan_env)
    (com_cmd : list string) (build_type build_cwd : string)
    (build_cmd : option string) :
  mem (PyStr.lower build_type) ["gradle"; "ant"] = true ->
  SqCmd.given build_cmd = false ->
  SqCmd.scan_java_proj shlex_split repr_bytes outcome st procs env com_cmd
    build_type build_cwd build_cmd
  = (SqCmd.Did
       <$> (if model_eqb (model st) LOCAL_MODEL then _kill_sonar procs
            else []),
     Raise (CompileTaskError SqCmd.msg_java_build_cmd)).
Proof.
  rewrite !mem_cons. intros H Hg.
  unfold SqCmd.scan_java_proj. cbv zeta. rewrite !mem_cons, Hg.
  apply orb_true_iff in H as [H|H].
  - apply String.eqb_eq in H as ->. reflexivity.
  - apply orb_true_iff in H as [H|H]; [|done].
    apply String.eqb_eq in H as ->. reflexivity.
Qed.

Lemma X25_build_command_required_witness :
  SqCmd.scan_java_proj (PyStr.split " ") (fun b => b) (fun _ _ => None)
    Examples.local_linux [Examples.java_proc]
    (SqCmd.mk_scan_env None None None None None None None false false
       "/data/src/build.sh" "/task/workdir/scannerwork" false)
    ["-Dsonar.projectKey=test"] "Gradle" "/data/src" None
  = (SqCmd.Did
       <$> (if model_eqb (model Examples.local_linux) LOCAL_MODEL
            then _kill_sonar [Examples.java_proc] else []),
     Raise (CompileTaskError SqCmd.msg_java_build_cmd)).
Proof.
  apply X25_build_command_required; reflexivity.
Defined.

(** X26. With the build type maven or mvn the Java scan starts one
    command, the build command or mvn when none is given, followed by
    sonar:sonar, the binaries and the common arguments; it gives no
    report path when the command ends with return code 0, and the
    CompileTaskError of a failed build otherwise. *)
Theorem X26_maven_gives_no_report
    (shlex_split : string -> list string)
    (repr_bytes : string -> string)
    (outcome : list string -> string -> option SqCmd.finished)
    (st : SonarQube) (procs : list proc) (env : SqCmd.scan_env)
    (com_cmd : list string) (build_type build_cwd : string)
    (build_cmd : option string) :
  mem (PyStr.lower build_type) ["maven"; "mvn"] = true ->
  let run :=
    SqCmd.scan_java_proj shlex_split repr_bytes outcome st procs env com_cmd
      build_type build_cwd build_cmd in
  let command :=
    SqCmd._change_to_win_cmd (SqCmd.win32 env)
      ((if SqCmd.given build_cmd then shlex_split (default "" build_cmd)
        else ["mvn"])
         ++ ["sonar:sonar";
             "-Dsonar.java.binaries=" +:+ default "**/*" (SqCmd.SONAR_BIN env)]
         ++ com_cmd) in
  Expected.commands run.1 = [command]
  /\ run.2 = if Expected.succeeded (outcome command build_cwd) then Ok None
             else Raise (CompileTaskError SqCmd.msg_compile).
Proof.
  intros Hm run command. subst run.
  unfold SqCmd.scan_java_proj. cbv zeta.
  assert (Hty : PyStr.lower build_type = "maven"
                \/ PyStr.lower build_type = "mvn").
  { rewrite !mem_cons in Hm.
    apply orb_true_iff in Hm as [H|H]; [left; by apply String.eqb_eq|].
    apply orb_true_iff in H as [H|H]; [right; by apply String.eqb_eq|done]. }
  assert (Hsel : forall X (a b c d : X),
            (if mem (PyStr.lower build_type) ["any"; "no_build"] then a
             else if mem (PyStr.lower build_type) ["gradle"] then b
             else if mem (PyStr.lower build_type) ["maven"; "mvn"] then c
             else d) = c).
  { intros X a b c d. by destruct Hty as [-> | ->]. }
  rewrite Hsel.
  pose proof (run_cmd_spec repr_bytes outcome st procs command build_cwd
                (Some "compile")) as (Hc & _ & Hr).
  assert (Hrun : forall pre,
            SqCmd.step_bind
              (pre,
               Ok (if SqCmd.given build_cmd
                   then shlex_split (default "" build_cmd) else ["mvn"]))
              (fun compile_cmd =>
                 SqCmd.step_bind
                   (SqCmd.run_cmd repr_bytes outcome st procs
                      (SqCmd._change_to_win_cmd (SqCmd.win32 env)
                         (compile_cmd
                            ++ ["sonar:sonar";
                                "-Dsonar.java.binaries="
                                  +:+ default "**/*" (SqCmd.SONAR_BIN env)]
                            ++ com_cmd))
                      build_cwd (Some "compile"))
                   (fun _ => ([], Ok (@None string))))
            = (pre ++ (SqCmd.run_cmd repr_bytes outcome st procs command
                         build_cwd (Some "compile")).1,
               if Expected.succeeded (outcome command build_cwd)
               then Ok None
               else Raise (CompileTaskError SqCmd.msg_compile))).
  { intros pre. rewrite step_bind_pure. cbv beta.
    fold command. rewrite step_bind_ret. cbn [fst snd]. rewrite Hr.
    by destruct (Expected.succeeded _). }
  destruct (SqCmd.given build_cmd) eqn:Hg; rewrite Hrun; cbn [fst snd];
    rewrite commands_app, Hc; done.
Qed.

Lemma X26_maven_gives_no_report_witness :
  let run :=
    SqCmd.scan_java_proj (PyStr.split " ") (fun b => b)
      (fun _ _ => Some (SqCmd.mk_finished 0 [] "" [] ""))
      Examples.local_linux [Examples.java_proc]
      (SqCmd.mk_scan_env None None None None None None None false false
         "/data/src/build.sh" "/task/workdir/scannerwork" true)
      ["-Dsonar.projectKey=test"] "Maven" "/data/src" None in
  Expected.commands run.1
  = [["mvn"; "sonar:sonar"; "-Dsonar.java.binaries=**/*";
      "-Dsonar.projectKey=test"]]
  /\ run.2 = Ok None.
Proof.
  apply (X26_maven_gives_no_report (PyStr.split " ") (fun b => b)
           (fun _ _ => Some (SqCmd.mk_finished 0 [] "" [] ""))
           Examples.local_linux [Examples.java_proc]
           (SqCmd.mk_scan_env None None None None None None None false false
              "/data/src/build.sh" "/task/workdir/scannerwork" true)
           ["-Dsonar.projectKey=test"] "Maven" "/data/src" None).
  reflexivity.
Defined.

Section ScanFacts.

Context (shlex_split : string -> list string)
        (repr_bytes : string -> string)
        (outcome : list string -> string -> option SqCmd.finished).

(** A step that gives nothing, followed by the rest. *)
Lemma step_bind_guard {B} (m : SqCmd.step unit) (k : unit -> SqCmd.step B)
    (b : bool) (e : exn) :
  m.2 = (if b then Ok tt else Raise e) ->
  SqCmd.step_bind m k
  = if b then (m.1 ++ (k tt).1, (k tt).2) else (m.1, Raise e).
Proof.
  destruct m as [acts r]. cbn [fst snd]. intros ->.
  destruct b; simpl; [by destruct (k tt)|done].
Qed.

Lemma run_cmd_compile st procs command cwd :
  (SqCmd.run_cmd repr_bytes outcome st procs command cwd (Some "compile")).2
  = if Expected.succeeded (outcome command cwd) then Ok tt
    else Raise (CompileTaskError SqCmd.msg_compile).
Proof. apply run_cmd_spec. Qed.

Lemma run_cmd_analyze st procs command cwd :
  (SqCmd.run_cmd repr_bytes outcome st procs command cwd (Some "analyze")).2
  = if Expected.succeeded (outcome command cwd) then Ok tt
    else Raise (AnalyzeTaskError SqCmd.msg_analyze).
Proof. apply run_cmd_spec. Qed.

Lemma run_cmd_unchecked st procs command cwd :
  (SqCmd.run_cmd repr_bytes outcome st procs command cwd None).2 = Ok tt.
Proof.
  pose proof (run_cmd_spec repr_bytes outcome st procs command cwd None)
    as (_ & _ & ->).
  by destruct (Expected.succeeded _).
Qed.

Lemma run_cmd_commands st procs command cwd ty :
  Expected.commands
    (SqCmd.run_cmd repr_bytes outcome st procs command cwd ty).1
  = [command].
Proof. apply run_cmd_spec. Qed.

Lemma run_cmd_written st procs command cwd ty :
  Expected.written
    (SqCmd.run_cmd repr_bytes outcome st procs command cwd ty).1
  = [].
Proof. apply run_cmd_spec. Qed.

End ScanFacts.

(** X27. With the build type any or no_build the Java scan starts the
    build command first when SQ_JAVA_BUILD and a build command are
    given, and then always the scanner, whose arguments hold every
    common argument: how the build ended is not looked at, and the
    return code of the scanner alone decides between the path of the
    report and the AnalyzeTaskError of a failed analysis. *)
Theorem X27_scan_decided_by_scanner
    (shlex_split : string -> list string)
    (repr_bytes : string -> string)
    (outcome : list string -> string -> option SqCmd.finished)
    (st : SonarQube) (procs : list proc) (env : SqCmd.scan_env)
    (com_cmd : list string) (build_type build_cwd : string)
    (build_cmd : option string) :
  mem (PyStr.lower build_type) ["any"; "no_build"] = true ->
  let run :=
    SqCmd.scan_java_proj shlex_split repr_bytes outcome st procs env com_cmd
      build_type build_cwd build_cmd in
  exists scan_cmd,
    Expected.commands run.1
    = (if SqCmd.given (SqCmd.SQ_JAVA_BUILD env) && SqCmd.given build_cmd
       then [shlex_split (default "" build_cmd)] else [])
      ++ [scan_cmd]
    /\ head scan_cmd = Some "sonar-scanner"
    /\ (forall c, In c com_cmd ->
          In (if SqCmd.win32 env then SqCmd.win_arg c else c) scan_cmd)
    /\ run.2
       = if Expected.succeeded (outcome scan_cmd build_cwd)
         then Ok (SqCmd.report_in env
                    (PosixPath.join (PosixPath.join build_cwd ".scannerwork")
                       "report-task.txt"))
         else Raise (AnalyzeTaskError SqCmd.msg_analyze).
Proof.
  intros Hm run. subst run. unfold SqCmd.scan_java_proj. cbv zeta.
  rewrite Hm.
  set (scan_cmd := SqCmd._change_to_win_cmd (SqCmd.win32 env) _).
  set (pre := if SqCmd.given (SqCmd.SQ_JAVA_BUILD env)
                 && SqCmd.given build_cmd then _ else _).
  assert (Hpre : pre.2 = Ok tt).
  { subst pre. destruct (_ && _); [|done]. apply run_cmd_unchecked. }
  assert (Hprec : Expected.commands pre.1
                  = if SqCmd.given (SqCmd.SQ_JAVA_BUILD env)
                       && SqCmd.given build_cmd
                    then [shlex_split (default "" build_cmd)] else []).
  { subst pre. destruct (_ && _); [|done]. apply run_cmd_commands. }
  rewrite (step_bind_Ok pre _ tt Hpre). cbv beta.
  rewrite step_bind_ret. cbn [fst snd].
  rewrite run_cmd_analyze, commands_app, Hprec, run_cmd_commands.
  exists scan_cmd. split_and!.
  - done.
  - subst scan_cmd. unfold SqCmd._change_to_win_cmd.
    by destruct (SqCmd.win32 env).
  - intros c Hc. subst scan_cmd. unfold SqCmd._change_to_win_cmd.
    destruct (SqCmd.win32 env); cbn [negb].
    + apply list_elem_of_In, list_elem_of_fmap_2, list_elem_of_In.
      apply in_or_app. right. apply in_or_app. by left.
    + apply in_or_app. right. apply in_or_app. by left.
  - by destruct (Expected.succeeded _).
Qed.

Lemma X27_scan_decided_by_scanner_witness :
  let run :=
    SqCmd.scan_java_proj (PyStr.split " ") (fun b => b)
      (fun c _ =>
         match c with
         | "sonar-scanner" :: _ => Some (SqCmd.mk_finished 0 [] "" [] "")
         | _ => Some (SqCmd.mk_finished 2 [] "" [] "")
         end)
      Examples.local_linux [Examples.java_proc]
      (SqCmd.mk_scan_env (Some "1") None None None None None None false
         false "/data/src/build.sh" "/task/workdir/scannerwork" true)
      ["-Dsonar.projectKey=test"] "no_build" "/data/src"
      (Some "mvn compile") in
  exists scan_cmd,
    Expected.commands run.1 = [["mvn"; "compile"]] ++ [scan_cmd]
    /\ head scan_cmd = Some "sonar-scanner"
    /\ (forall c, In c ["-Dsonar.projectKey=test"] -> In c scan_cmd)
    /\ run.2 = Ok (Some "/task/workdir/scannerwork/report-task.txt").
Proof.
  destruct (X27_scan_decided_by_scanner (PyStr.split " ") (fun b => b)
              (fun c _ =>
                 match c with
                 | "sonar-scanner" :: _ =>
                     Some (SqCmd.mk_finished 0 [] "" [] "")
                 | _ => Some (SqCmd.mk_finished 2 [] "" [] "")
                 end)
              Examples.local_linux [Examples.java_proc]
              (SqCmd.mk_scan_env (Some "1") None None None None None None
                 false false "/data/src/build.sh"
                 "/task/workdir/scannerwork" true)
              ["-Dsonar.projectKey=test"] "no_build" "/data/src"
              (Some "mvn compile") eq_refl)
    as (scan_cmd & Hc & Hh & Hin & Hr).
  exists scan_cmd. split_and!; [exact Hc | exact Hh | exact Hin |].
  rewrite Hr. destruct scan_cmd as [|w ws]; [discriminate Hh|].
  injection Hh as ->. reflexivity.
Defined.

(** X28. The C# scan runs three commands in order, the begin step of
    the MSBuild scanner with the translated common arguments, the build
    script and the end step with login and password: the build script is
    written only after the begin step ended with return code 0, each
    later command is started only when the one before it did so, a
    failed begin step or build gives the CompileTaskError of a failed
    build, and a failed end step the AnalyzeTaskError of a failed
    analysis. *)
Theorem X28_msbuild_steps
    (shlex_split : string -> list string)
    (repr_bytes : string -> string)
    (outcome : list string -> string -> option SqCmd.finished)
    (st : SonarQube) (procs : list proc) (env : SqCmd.scan_env)
    (com_cmd vs_cmd : list string) (build_cmd : option string)
    (build_cwd : string) :
  SqCmd.given build_cmd = true ->
  SqCmd.change_to_vs_cmd com_cmd = Ok vs_cmd ->
  let run :=
    SqCmd.scan_cs_proj shlex_split repr_bytes outcome st procs env com_cmd
      build_cmd build_cwd in
  let begin_cmd := ["SonarScanner.MSBuild.exe"; "begin"] ++ vs_cmd in
  let script_cmd :=
    shlex_split (if SqCmd.windows env then SqCmd.shell_filepath env
                 else "bash " +:+ SqCmd.shell_filepath env) in
  let end_cmd :=
    [ "SonarScanner.MSBuild.exe"; "end";
      "/d:sonar.login=" +:+ SqCmd.dq +:+ user st +:+ SqCmd.dq;
      "/d:sonar.password=" +:+ SqCmd.dq +:+ password st +:+ SqCmd.dq ] in
  let ok c := Expected.succeeded (outcome c build_cwd) in
  Expected.commands run.1
  = (if ok begin_cmd
     then if ok script_cmd then [begin_cmd; script_cmd; end_cmd]
          else [begin_cmd; script_cmd]
     else [begin_cmd])
  /\ Expected.written run.1
     = (if ok begin_cmd then [SqCmd.shell_filepath env] else [])
  /\ run.2
     = if ok begin_cmd
       then if ok script_cmd
            then if ok end_cmd
                 then Ok (SqCmd.report_in env
                            (PosixPath.join
                               (PosixPath.join
                                  (PosixPath.join
                                     (PosixPath.join build_cwd ".sonarqube")
                                     "out")
                                  ".sonar")
                               "report-task.txt"))
                 else Raise (AnalyzeTaskError SqCmd.msg_analyze)
            else Raise (CompileTaskError SqCmd.msg_compile)
       else Raise (CompileTaskError SqCmd.msg_compile).
Proof.
  intros Hg Hvs run begin_cmd script_cmd end_cmd ok. subst run.
  unfold SqCmd.scan_cs_proj. rewrite Hg, Hvs. cbn [negb].
  rewrite step_bind_pure. cbv beta. fold begin_cmd.
  rewrite (step_bind_guard _ _ _ _ (run_cmd_compile repr_bytes outcome st
                                      procs begin_cmd build_cwd)).
  fold (ok begin_cmd).
  destruct (ok begin_cmd); cbn [fst snd app];
    [|by rewrite run_cmd_commands, run_cmd_written].
  unfold SqCmd.generate_shell_file. rewrite step_bind_pure. cbv beta.
  fold script_cmd.
  rewrite (step_bind_guard _ _ _ _ (run_cmd_compile repr_bytes outcome st
                                      procs script_cmd build_cwd)).
  fold (ok script_cmd).
  destruct (ok script_cmd); cbn [fst snd].
  - fold end_cmd. rewrite step_bind_ret. cbn [fst snd].
    rewrite run_cmd_analyze. fold (ok end_cmd).
    rewrite !commands_app, !written_app, !run_cmd_commands,
      !run_cmd_written.
    split_and!; [done|done|]. by destruct (ok end_cmd).
  - rewrite !commands_app, !written_app, !run_cmd_commands,
      !run_cmd_written. done.
Qed.

Lemma X28_msbuild_steps_witness :
  let run :=
    SqCmd.scan_cs_proj (PyStr.split " ") (fun b => b)
      (fun c _ =>
         match c with
         | "bash" :: _ => Some (SqCmd.mk_finished 1 [] "" [] "")
         | _ => Some (SqCmd.mk_finished 0 [] "" [] "")
         end)
      Examples.local_linux [Examples.java_proc]
      (SqCmd.mk_scan_env None None None None None None None false false
         "/data/src/build.sh" "/task/workdir/scannerwork" false)
      ["-Dsonar.projectKey=test"; "-Dsonar.login=admin"]
      (Some "msbuild app.sln") "/data/src" in
  Expected.commands run.1
  = [ ["SonarScanner.MSBuild.exe"; "begin";
       "/k:" +:+ SqCmd.dq +:+ "test" +:+ SqCmd.dq;
       "/d:sonar.login=" +:+ SqCmd.dq +:+ "admin" +:+ SqCmd.dq];
      ["bash"; "/data/src/build.sh"] ]
  /\ Expected.written run.1 = ["/data/src/build.sh"]
  /\ run.2 = Raise (CompileTaskError SqCmd.msg_compile).
Proof.
  apply (X28_msbuild_steps (PyStr.split " ") (fun b => b)
           (fun c _ =>
              match c with
              | "bash" :: _ => Some (SqCmd.mk_finished 1 [] "" [] "")
              | _ => Some (SqCmd.mk_finished 0 [] "" [] "")
              end)
           Examples.local_linux [Examples.java_proc]
           (SqCmd.mk_scan_env None None None None None None None false false
              "/data/src/build.sh" "/task/workdir/scannerwork" false)
           ["-Dsonar.projectKey=test"; "-Dsonar.login=admin"]
           ["/k:" +:+ SqCmd.dq +:+ "test" +:+ SqCmd.dq;
            "/d:sonar.login=" +:+ SqCmd.dq +:+ "admin" +:+ SqCmd.dq]
           (Some "msbuild app.sln") "/data/src"); reflexivity.
Defined.

(** X29. A line of the error output that holds one of the two scanner
    signatures does not reach the caller of the command: with return
    code 0 the command counts as done for every kind of command,
    although the reader of the error output of a local server's run has
    torn the server down at that line. *)
Theorem X29_scanner_error_line_not_fatal
    (repr_bytes : string -> string)
    (outcome : list string -> string -> option SqCmd.finished)
    (st : SonarQube) (procs : list proc) (command : list string)
    (cwd : string) (cmd_type : option string) (f : SqCmd.finished)
    (line : string) :
  outcome command cwd = Some f ->
  SqCmd.returncode f = 0 ->
  model st = LOCAL_MODEL ->
  In line (SqCmd.err_lines f) ->
  Expected.scanner_signature line = true ->
  let run := SqCmd.run_cmd repr_bytes outcome st procs command cwd cmd_type in
  run.2 = Ok tt
  /\ exists out err,
       In (SqCmd.Ran command cwd out err) run.1
       /\ In (EvKillSonar (pid <$> List.find is_sonar_proc procs)) err.
Proof.
  intros Ho Hrc Hm Hin Hsig run. subst run.
  unfold SqCmd.run_cmd. rewrite Ho, Hrc. cbn [Z.eqb negb].
  cbn [SqCmd.step_bind fst snd]. split; [done|].
  eexists _, _. split.
  - apply in_or_app. left. apply in_or_app. right. by left.
  - by apply (err_reader_kill repr_bytes st procs _ _ line).
Qed.

Lemma X29_scanner_error_line_not_fatal_witness :
  let run :=
    SqCmd.run_cmd (fun b => b)
      (fun _ _ =>
         Some (SqCmd.mk_finished 0 [] ""
                 ["WARN: slow" +:+ nl;
                  "java.lang.IllegalStateException: Unable to read file a.java"
                    +:+ nl]
                 ""))
      Examples.local_linux [Examples.java_proc] ["sonar-scanner"; "-X"]
      "/data/src" (Some "analyze") in
  run.2 = Ok tt
  /\ exists out err,
       In (SqCmd.Ran ["sonar-scanner"; "-X"] "/data/src" out err) run.1
       /\ In (EvKillSonar
                (pid <$> List.find is_sonar_proc [Examples.java_proc]))
            err.
Proof.
  apply (X29_scanner_error_line_not_fatal (fun b => b)
           (fun _ _ =>
              Some (SqCmd.mk_finished 0 [] ""
                      ["WARN: slow" +:+ nl;
                       "java.lang.IllegalStateException: Unable to read file a.java"
                         +:+ nl]
                      ""))
           Examples.local_linux [Examples.java_proc] ["sonar-scanner"; "-X"]
           "/data/src" (Some "analyze")
           (SqCmd.mk_finished 0 [] ""
              ["WARN: slow" +:+ nl;
               "java.lang.IllegalStateException: Unable to read file a.java"
                 +:+ nl]
              "")
           ("java.lang.IllegalStateException: Unable to read file a.java"
              +:+ nl));
    [reflexivity | reflexivity | reflexivity | | vm_compute; reflexivity].
  right. by left.
Defined.

Section OptionTokenFacts.

Implicit Types (s t : string) (cs : list string).

Lemma is_char_nonempty (ch : string) :
  Expected.is_char ch = true -> PyStr.nonempty ch = true.
Proof. by destruct ch. Qed.

Lemma no_space_char (ch : string) :
  Expected.is_char ch = true -> PyStr.is_space_char ch = false ->
  Expected.no_space ch = true.
Proof.
  intros Hc Hs. unfold Expected.no_space.
  rewrite <- (append_nil_r_string ch).
  rewrite (chars_cons_char ch EmptyString Hc eq_refl).
  cbn [PyStr.chars forallb]. by rewrite Hs.
Qed.

(** The pieces that [chars] gives are characters, and each but the
    first starts with a byte that continues none. *)
Lemma chars_elems s :
  Forall (fun ch => Expected.is_char ch = true) (PyStr.chars s)
  /\ Forall (fun ch => Expected.starts_char ch = true)
       (tail (PyStr.chars s))
  /\ PyStr.starts_cont (hd EmptyString (PyStr.chars s))
     = PyStr.starts_cont s.
Proof.
  induction s as [|a s (IH1 & IH2 & IH3)]; [by repeat constructor|].
  cbn [PyStr.chars].
  destruct (PyStr.chars s) as [|ch cs] eqn:Hs; [by repeat constructor|].
  cbn [hd tail] in *.
  destruct (PyStr.starts_cont s) eqn:Hcont.
  - inversion IH1 as [|? ? Hch Hcs]; subst. split_and!; [|done|done].
    constructor; [|done]. cbn [Expected.is_char].
    destruct ch as [|b r]; [done|].
    cbn [list_ascii_of_string forallb PyStr.starts_cont Expected.is_char]
      in *.
    by rewrite IH3, Hch.
  - split_and!; [by constructor| |done].
    constructor; [|done]. by rewrite starts_char_cont, IH3.
Qed.

(** The pieces of a split at white space are runs of characters that
    are no white space: none is empty, and together they are the
    characters of the text that are no white space. *)
Lemma words_tokens cs :
  Forall (fun ch => Expected.is_char ch = true) cs ->
  Forall (fun ch => Expected.starts_char ch = true) (tail cs) ->
  Forall (fun t => PyStr.nonempty t = true /\ Expected.no_space t = true)
    (PyStr.words cs)
  /\ mjoin (PyStr.chars <$> PyStr.words cs)
     = List.filter (fun ch => negb (PyStr.is_space_char ch)) cs
  /\ (forall ch cs', cs = ch :: cs' -> PyStr.is_space_char ch = false ->
        exists t ts, PyStr.words cs = t :: ts
                     /\ PyStr.starts_cont t = PyStr.starts_cont ch).
Proof.
  induction cs as [|ch cs IH]; intros Hc Hl;
    [by split_and!; [constructor|done|]|].
  inversion Hc as [|? ? Hch Hcs]; subst. cbn [tail] in Hl.
  assert (Hl' : Forall (fun ch => Expected.starts_char ch = true) (tail cs))
    by (destruct cs; [constructor|by inversion Hl]).
  destruct (IH Hcs Hl') as (IH1 & IH2 & IH3).
  cbn [PyStr.words List.filter].
  destruct (PyStr.is_space_char ch) eqn:Hsp; cbn [negb].
  { split_and!; [done|done|]. intros ? ? [= <- <-]. congruence. }
  assert (Hone : PyStr.chars ch = [ch]).
  { pose proof (chars_cons_char ch EmptyString Hch eq_refl) as H.
    by rewrite append_nil_r_string in H. }
  destruct cs as [|d cs'].
  { split_and!.
    - repeat constructor; [by apply is_char_nonempty|by apply no_space_char].
    - cbn [fmap list_fmap mjoin list_join]. by rewrite Hone.
    - intros ? ? [= <- <-] _. by eexists _, _. }
  destruct (PyStr.is_space_char d) eqn:Hd.
  { split_and!.
    - constructor; [|done].
      split; [by apply is_char_nonempty|by apply no_space_char].
    - rewrite fmap_cons. cbn [mjoin list_join]. rewrite Hone.
      cbn [app]. f_equal. exact IH2.
    - intros ? ? [= <- <-] _. by eexists _, _. }
  destruct (IH3 d cs' eq_refl Hd) as (t & ts & Hw & Ht).
  rewrite Hw in *.
  inversion IH1 as [|? ? [Htn Hts] Hrest]; subst.
  inversion Hl as [|? ? Hdl _]; subst.
  rewrite starts_char_cont in Hdl. apply negb_true_iff in Hdl.
  assert (Hct : PyStr.chars (ch +:+ t) = ch :: PyStr.chars t).
  { apply chars_cons_char; [done|]. by rewrite Ht. }
  split_and!.
  - constructor; [|done]. split.
    + destruct ch; [done|]. by rewrite append_cons.
    + unfold Expected.no_space in *. rewrite Hct. cbn [forallb].
      by rewrite Hsp, Hts.
  - rewrite fmap_cons in *. cbn [mjoin list_join] in *.
    rewrite Hct. cbn [app]. f_equal. exact IH2.
  - intros ? ? [= <- <-] _. eexists _, _. split; [done|].
    destruct ch; [done|]. by rewrite append_cons.
Qed.

End OptionTokenFacts.

(** X30. The scan without a build starts one command, the scanner with
    the sources, the binaries, every common argument and then the
    options of SQ_ANALYZE_OPTIONS, which are the runs of characters of
    the variable between its white space: no option is empty or holds
    white space, and together the options are the characters of the
    variable that are no white space, in their order. The return code of
    the scanner alone decides between the path of the report, below the
    working directory of the scanner when that exists, and the
    AnalyzeTaskError of a failed analysis. *)
Theorem X30_scan_without_build
    (repr_bytes : string -> string)
    (outcome : list string -> string -> option SqCmd.finished)
    (st : SonarQube) (procs : list proc) (env : SqCmd.scan_env)
    (com_cmd : list string) (build_cwd : string) :
  let run :=
    SqCmd.scan_not_build_proj repr_bytes outcome st procs env com_cmd
      build_cwd in
  let value := default EmptyString (SqCmd.SQ_ANALYZE_OPTIONS env) in
  let options := PyStr.split_ws value in
  let scan_cmd :=
    SqCmd._change_to_win_cmd (SqCmd.win32 env)
      (["sonar-scanner"; "-X";
        "-Dsonar.sources=" +:+ default "." (SqCmd.SONAR_SRC env);
        "-Dsonar.java.binaries=" +:+ default "**/*" (SqCmd.SONAR_BIN env)]
         ++ com_cmd ++ options) in
  Forall (fun t => PyStr.nonempty t = true /\ Expected.no_space t = true)
    options
  /\ mjoin (PyStr.chars <$> options)
     = List.filter (fun ch => negb (PyStr.is_space_char ch))
         (PyStr.chars value)
  /\ Expected.commands run.1 = [scan_cmd]
  /\ run.2
     = if Expected.succeeded (outcome scan_cmd build_cwd)
       then Ok (Some
                  (if PyStr.nonempty (SqCmd.scannerwork env)
                      && SqCmd.scannerwork_exists env
                   then PosixPath.join (SqCmd.scannerwork env)
                          "report-task.txt"
                   else PosixPath.join
                          (PosixPath.join build_cwd ".scannerwork")
                          "report-task.txt"))
       else Raise (AnalyzeTaskError SqCmd.msg_analyze).
Proof.
  intros run value options scan_cmd.
  destruct (chars_elems value) as (Hc & Hl & _).
  destruct (words_tokens (PyStr.chars value) Hc Hl) as (Htok & Hjoin & _).
  assert (Hopt : (if SqCmd.given (SqCmd.SQ_ANALYZE_OPTIONS env)
                  then PyStr.split_ws
                         (default EmptyString (SqCmd.SQ_ANALYZE_OPTIONS env))
                  else []) = options).
  { subst options value. unfold SqCmd.given.
    destruct (SqCmd.SQ_ANALYZE_OPTIONS env) as [[|a v]|]; done. }
  subst run. unfold SqCmd.scan_not_build_proj. cbv zeta.
  rewrite Hopt. fold scan_cmd.
  split_and!; [exact Htok | exact Hjoin | |].
  - rewrite step_bind_ret. cbn [fst]. apply run_cmd_commands.
  - rewrite step_bind_ret. cbn [snd]. rewrite run_cmd_analyze.
    unfold SqCmd.report_in.
    destruct (Expected.succeeded _); [|done]. by destruct (_ && _).
Qed.
